(** * The MDA stopping-point table of libparistraceroute (algorithms/mda/bound.c)

    A shallow embedding of [bound.c]: the bound table ([bound_t]), its
    scratch vectors ([bound_state_t]), construction ([bound_create]),
    growth and build ([bound_build]) and lookup ([bound_get_nk]).

    Conventions of the embedding.
    - [size_t] is a 64-bit unsigned integer: a [Z] in [0, 2^64), every
      arithmetic operation followed by [wrap].
    - A pointer to an array is [ptr X = option (list X)]: [None] is NULL, and
      an access through NULL or outside the block is [Undefined].
    - [malloc], [calloc] and [realloc] draw their result from an [allocator]:
      the list of the outcomes of the allocations still to come, each one
      either a failure or a success together with the contents found in the
      cells that C leaves uninitialised.
    - The two unbounded loops take fuel; [OutOfFuel] is "still running".
    - [bound.h] is not part of the sources at hand: the floating-point types
      and their operations are the fields of [FloatModel]. *)

From Stdlib Require Import ZArith Lia Bool SpecFloat.
From stdpp Require Import base tactics option list.

Open Scope Z_scope.

(** ** size_t *)

Definition SIZE_MOD : Z := 18446744073709551616.

Definition wrap (z : Z) : Z := z mod SIZE_MOD.

Definition sizeof_size_t : Z := 8.

(** ** Results of running C code *)

Inductive outcome (A : Type) : Type :=
| Done (a : A)
| Undefined
| OutOfFuel.

Arguments Done {A} a.
Arguments Undefined {A}.
Arguments OutOfFuel {A}.

#[export] Instance outcome_ret : MRet outcome := fun A a => Done a.

#[export] Instance outcome_bind : MBind outcome := fun A B f m =>
  match m with
  | Done a => f a
  | Undefined => Undefined
  | OutOfFuel => OutOfFuel
  end.

(** ** Arrays behind pointers *)

Definition ptr (X : Type) : Type := option (list X).

Definition load {X : Type} (p : ptr X) (i : Z) : outcome X :=
  match p with
  | None => Undefined
  | Some l =>
      if i <? 0 then Undefined
      else match l !! Z.to_nat i with
           | Some x => Done x
           | None => Undefined
           end
  end.

Definition store {X : Type} (p : ptr X) (i : Z) (x : X) : outcome (ptr X) :=
  match p with
  | None => Undefined
  | Some l =>
      if (0 <=? i) && (i <? Z.of_nat (length l))
      then Done (Some (<[Z.to_nat i := x]> l))
      else Undefined
  end.

(** ** The floating-point types of bound.h *)

Class FloatModel : Type := {
  double_t : Type;
  probability_t : Type;
  d_zero : double_t;                                 (* 0.0 *)
  d_one : double_t;                                  (* 1, 1.0 *)
  d_r : double_t;                                    (* 0.9 *)
  d_of_size : Z -> double_t;                         (* size_t to double *)
  d_sub : double_t -> double_t -> double_t;
  d_mul : double_t -> double_t -> double_t;
  d_div : double_t -> double_t -> double_t;
  pow : double_t -> double_t -> double_t;            (* <math.h> *)
  widen : double_t -> probability_t;                 (* double to probability_t *)
  p_of_size : Z -> probability_t;                    (* (long double) of a size_t *)
  p_add : probability_t -> probability_t -> probability_t;
  p_mul : probability_t -> probability_t -> probability_t;
  p_div : probability_t -> probability_t -> probability_t;
  p_le : probability_t -> probability_t -> bool;
  sizeof_probability_t : Z
}.

(** ** The allocator *)

Inductive alloc_event `{FloatModel} : Type :=
| AllocFail
| AllocOk (junk_size : nat -> Z) (junk_prob : nat -> probability_t).

Section Program.

Context `{FM : FloatModel}.

Definition allocator : Type := list alloc_event.

Definition next_alloc (a : allocator) : alloc_event * allocator :=
  match a with
  | [] => (AllocFail, [])
  | e :: a' => (e, a')
  end.

Definition junk_of_size (e : alloc_event) : option (nat -> Z) :=
  match e with
  | AllocFail => None
  | AllocOk js _ => Some (fun i => wrap (js i))
  end.

Definition junk_of_prob (e : alloc_event) : option (nat -> probability_t) :=
  match e with
  | AllocFail => None
  | AllocOk _ jp => Some jp
  end.

(** The cells [from .. from + n - 1] of a block, as the allocator left them. *)
Definition fresh {X : Type} (junk : nat -> X) (from n : nat) : list X :=
  junk <$> seq from n.

(** A block of [bytes] bytes holds [bytes / sz] cells of [sz] bytes. *)
Definition cells (bytes sz : Z) : nat := Z.to_nat (bytes / sz).

Definition malloc {X : Type} (pick : alloc_event -> option (nat -> X))
    (a : allocator) (bytes sz : Z) : ptr X * allocator :=
  let '(e, a') := next_alloc a in
  (junk ← pick e; Some (fresh junk 0 (cells bytes sz)), a').

(** [calloc] refuses a request whose size in bytes does not fit [size_t]
    and zeroes the block. *)
Definition calloc {X : Type} (zero : X) (a : allocator) (count sz : Z)
    : ptr X * allocator :=
  let '(e, a') := next_alloc a in
  match e with
  | AllocFail => (None, a')
  | AllocOk _ _ =>
      if SIZE_MOD <=? count * sz then (None, a')
      else (Some (replicate (Z.to_nat count) zero), a')
  end.

(** [realloc] keeps the old cells that fit the new block; the cells past
    them are uninitialised. On failure it returns NULL. *)
Definition resize {X : Type} (junk : nat -> X) (old : list X) (n : nat) : list X :=
  take n old ++ fresh junk (length old) (n - length old).

Definition realloc {X : Type} (pick : alloc_event -> option (nat -> X))
    (a : allocator) (p : ptr X) (bytes sz : Z) : ptr X * allocator :=
  let '(e, a') := next_alloc a in
  (junk ← pick e; Some (resize junk (default [] p) (cells bytes sz)), a').

(** ** bound_state_t and bound_t *)

Record bound_state_t : Type := {
  first : ptr probability_t;
  second : ptr probability_t
}.

Record bound_t : Type := {
  confidence : double_t;
  max_n : Z;
  nk_table : ptr Z;
  ak_table : ptr probability_t;
  pr_failure : ptr probability_t;
  state : option bound_state_t
}.

Definition set_max_n (b : bound_t) (n : Z) : bound_t :=
  {| confidence := confidence b; max_n := n; nk_table := nk_table b;
     ak_table := ak_table b; pr_failure := pr_failure b; state := state b |}.

Definition set_nk_table (b : bound_t) (t : ptr Z) : bound_t :=
  {| confidence := confidence b; max_n := max_n b; nk_table := t;
     ak_table := ak_table b; pr_failure := pr_failure b; state := state b |}.

Definition set_ak_table (b : bound_t) (t : ptr probability_t) : bound_t :=
  {| confidence := confidence b; max_n := max_n b; nk_table := nk_table b;
     ak_table := t; pr_failure := pr_failure b; state := state b |}.

Definition set_pr_failure (b : bound_t) (t : ptr probability_t) : bound_t :=
  {| confidence := confidence b; max_n := max_n b; nk_table := nk_table b;
     ak_table := ak_table b; pr_failure := t; state := state b |}.

Definition set_state (b : bound_t) (s : option bound_state_t) : bound_t :=
  {| confidence := confidence b; max_n := max_n b; nk_table := nk_table b;
     ak_table := ak_table b; pr_failure := pr_failure b; state := s |}.

(** ** Macros *)

Definition PROBA_HOR (i j : Z) : probability_t :=
  p_div (p_of_size j) (p_of_size i).

Definition PROBA_VER (i j : Z) : probability_t :=
  p_div (p_of_size (wrap (i - j + 1))) (p_of_size i).

Definition NUM_PROBES (i j : Z) : Z := wrap (i + j - 1).

Definition HSTART : Z := 2.

(** ** bound_state_create *)

Definition bound_state_create (a : allocator) (max_interfaces : Z)
    : option bound_state_t * allocator :=
  let '(e, a) := next_alloc a in
  match e with
  | AllocFail => (None, a)
  | AllocOk _ _ =>
      let bytes := wrap (max_interfaces * sizeof_probability_t) in
      let '(f, a) := malloc junk_of_prob a bytes sizeof_probability_t in
      match f with
      | None => (None, a)
      | Some _ =>
          let '(s, a) := malloc junk_of_prob a bytes sizeof_probability_t in
          match s with
          | None => (None, a)
          | Some _ => (Some {| first := f; second := s |}, a)
          end
      end
  end.

(** ** Private helpers *)

Definition continue_condition (jstart hypothesis : Z) (cur_state : probability_t)
    (bound : bound_t) : outcome (bool * bound_t) :=
  if decide (jstart = wrap (hypothesis - 1)) then
    ak ← load (ak_table bound) hypothesis;
    if p_le cur_state ak then
      pr ← store (pr_failure bound) hypothesis cur_state;
      Done (false, set_pr_failure bound pr)
    else Done (true, bound)
  else Done (true, bound).

Definition calculate (bound_state : bound_state_t) (hypothesis j : Z)
    : outcome probability_t :=
  f ← load (first bound_state) j;
  s ← load (second bound_state) (wrap (j - 1));
  Done (p_add (p_mul f (PROBA_HOR hypothesis j))
              (p_mul s (PROBA_VER hypothesis j))).

Definition swap (bound_state : bound_state_t) : bound_state_t :=
  {| first := second bound_state; second := first bound_state |}.

(** [for (j = 0; j < bound->max_n; ++j) first[j] = 0.0;] runs [max_n] times. *)
Fixpoint zero_first (n : nat) (j : Z) (p : ptr probability_t)
    : outcome (ptr probability_t) :=
  match n with
  | O => Done p
  | S n' => p' ← store p j (widen d_zero); zero_first n' (j + 1) p'
  end.

Definition init_state (bound : bound_t) (bound_state : bound_state_t)
    : outcome (probability_t * bound_state_t) :=
  f ← zero_first (Z.to_nat (max_n bound)) 0 (first bound_state);
  s ← store (second bound_state) 0 (widen d_zero);
  s ← store s 1 (widen d_one);
  Done (widen d_one, {| first := f; second := s |}).

Definition node_confidence (graph_confidence : double_t) (max_branch : Z) : double_t :=
  let power := d_div d_one (d_of_size max_branch) in
  let ret := pow (d_sub d_one graph_confidence) power in
  d_sub d_one ret.

(** [for (i = 3; i < bound->max_n + 1; i++)], as many times as it runs. *)
Fixpoint aks_loop (n : nat) (i : Z) (a1 r : double_t) (p : ptr probability_t)
    : outcome (ptr probability_t) :=
  match n with
  | O => Done p
  | S n' =>
      p' ← store p i (widen (d_mul a1 (pow r (d_of_size (wrap (i - 2))))));
      aks_loop n' (i + 1) a1 r p'
  end.

Definition bound_init_aks (bound : bound_t) : outcome bound_t :=
  let r := d_r in
  let a1 := d_mul (d_sub d_one r) (confidence bound) in
  t ← store (ak_table bound) 0 (widen d_zero);
  t ← store t 1 (widen d_zero);
  t ← store t 2 (widen a1);
  t ← aks_loop (Z.to_nat (wrap (max_n bound + 1) - 3)) 3 a1 r t;
  Done (set_ak_table bound t).

(** ** reallocate_bound *)

Definition reallocate_bound (a : allocator) (bound : bound_t)
    (bound_state : bound_state_t) (new_max_n : Z)
    : bool * bound_t * bound_state_t * allocator :=
  let pbytes := wrap (new_max_n * sizeof_probability_t) in
  let '(f, a) := realloc junk_of_prob a (first bound_state) pbytes sizeof_probability_t in
  let bound_state := {| first := f; second := second bound_state |} in
  match f with
  | None => (false, bound, bound_state, a)
  | Some _ =>
  let '(s, a) := realloc junk_of_prob a (second bound_state) pbytes sizeof_probability_t in
  let bound_state := {| first := first bound_state; second := s |} in
  match s with
  | None => (false, bound, bound_state, a)
  | Some _ =>
  let '(t, a) := realloc junk_of_size a (nk_table bound)
                   (wrap (wrap (new_max_n + 1) * sizeof_size_t)) sizeof_size_t in
  let bound := set_nk_table bound t in
  match t with
  | None => (false, bound, bound_state, a)
  | Some _ =>
  let '(t, a) := realloc junk_of_prob a (ak_table bound)
                   (wrap (wrap (new_max_n + 1) * sizeof_probability_t))
                   sizeof_probability_t in
  let bound := set_ak_table bound t in
  match t with
  | None => (false, bound, bound_state, a)
  | Some _ =>
  let '(t, a) := realloc junk_of_prob a (pr_failure bound)
                   (wrap (wrap (new_max_n + 1) * sizeof_probability_t))
                   sizeof_probability_t in
  let bound := set_pr_failure bound t in
  match t with
  | None => (false, bound, bound_state, a)
  | Some _ => (true, bound, bound_state, a)
  end end end end end.

(** ** bound_build *)

(** The variables of [bound_build] that its loops read and write. *)
Record walk_t : Type := {
  w_i : Z;
  w_j : Z;
  w_jstart : Z;
  w_cur_state : probability_t;
  w_bound : bound_t;
  w_state : bound_state_t
}.

(** [for (...; j < hypothesis; ++j)]: the [n] iterations left from [w_j]. *)
Fixpoint column (n : nat) (hypothesis : Z) (w : walk_t) : outcome walk_t :=
  match n with
  | O => Done w
  | S n' =>
      let j := w_j w in
      cur_state ← calculate (w_state w) hypothesis j;
      nk ← load (nk_table (w_bound w)) (wrap (j + 1));
      if decide (NUM_PROBES (w_i w) j = nk) then
        s ← store (second (w_state w)) j (widen d_zero);
        f ← store (first (w_state w)) j (widen d_zero);
        column n' hypothesis
          {| w_i := w_i w; w_j := wrap (j + 1); w_jstart := wrap (j + 1);
             w_cur_state := cur_state; w_bound := w_bound w;
             w_state := {| first := f; second := s |} |}
      else
        s ← store (second (w_state w)) j cur_state;
        column n' hypothesis
          {| w_i := w_i w; w_j := wrap (j + 1); w_jstart := w_jstart w;
             w_cur_state := cur_state; w_bound := w_bound w;
             w_state := {| first := first (w_state w); second := s |} |}
  end.

(** [for (i = 1; continue_condition(...); ++i)] *)
Fixpoint walk (fuel : nat) (hypothesis : Z) (w : walk_t) : outcome walk_t :=
  match fuel with
  | O => OutOfFuel
  | S fuel' =>
      '(continue, bound) ← continue_condition (w_jstart w) hypothesis
                             (w_cur_state w) (w_bound w);
      if continue : bool then
        w' ← column (Z.to_nat (hypothesis - w_jstart w)) hypothesis
               {| w_i := w_i w; w_j := w_jstart w; w_jstart := w_jstart w;
                  w_cur_state := w_cur_state w; w_bound := bound;
                  w_state := w_state w |};
        walk fuel' hypothesis
          {| w_i := wrap (w_i w + 1); w_j := w_j w';
             w_jstart := if decide (w_i w = 1) then 1 else w_jstart w';
             w_cur_state := w_cur_state w'; w_bound := w_bound w';
             w_state := swap (w_state w') |}
      else
        Done {| w_i := w_i w; w_j := w_j w; w_jstart := w_jstart w;
                w_cur_state := w_cur_state w; w_bound := bound;
                w_state := w_state w |}
  end.

(** [for ( ; hypothesis <= bound->max_n; ++hypothesis)]; [j] is declared
    outside the loop and keeps its value from one hypothesis to the next. *)
Fixpoint build_loop (n fuel : nat) (hypothesis j : Z) (bound : bound_t)
    (bound_state : bound_state_t) : outcome (bound_t * bound_state_t) :=
  match n with
  | O => OutOfFuel
  | S n' =>
      if hypothesis <=? max_n bound then
        '(cur_state, bound_state) ← init_state bound bound_state;
        w ← walk fuel hypothesis
              {| w_i := 1; w_j := j; w_jstart := 2; w_cur_state := cur_state;
                 w_bound := bound; w_state := bound_state |};
        t ← store (nk_table (w_bound w)) hypothesis
              (wrap (NUM_PROBES (w_i w) (w_j w) - 2));
        build_loop n' fuel (wrap (hypothesis + 1)) (w_j w)
          (set_nk_table (w_bound w) t) (w_state w)
      else Done (bound, bound_state)
  end.

Definition bound_build (fuel : nat) (a : allocator) (bound : option bound_t)
    (end_ : Z) : outcome (option bound_t * allocator) :=
  match bound with
  | None => Done (None, a)
  | Some b =>
      match nk_table b, state b with
      | Some _, Some st =>
          '(hypothesis, b, st, a) ←
            (if max_n b <? end_ then
               let '(ok, b', st', a') := reallocate_bound a b st end_ in
               if ok : bool then
                 b'' ← bound_init_aks (set_max_n b' end_);
                 Done (wrap (max_n b' + 1), b'', st', a')
               else Done (HSTART, b', st', a')
             else Done (HSTART, b, st, a));
          '(b, st) ← build_loop fuel fuel hypothesis 0 b st;
          Done (Some (set_state b (Some st)), a)
      | _, _ => Done (Some b, a)
      end
  end.

(** ** bound_create *)

Definition bound_create (fuel : nat) (a : allocator) (confidence : double_t)
    (max_interfaces max_branch : Z) : outcome (option bound_t * allocator) :=
  let '(e, a) := next_alloc a in
  match e with
  | AllocFail => Done (None, a)
  | AllocOk _ _ =>
  let conf := node_confidence confidence max_branch in
  let '(nk, a) := calloc 0 a (wrap (max_interfaces + 1)) sizeof_size_t in
  match nk with
  | None => Done (None, a)
  | Some _ =>
  let '(ak, a) := calloc (widen d_zero) a (wrap (max_interfaces + 1))
                    sizeof_probability_t in
  match ak with
  | None => Done (None, a)
  | Some _ =>
  let '(pr, a) := calloc (widen d_zero) a (wrap (max_interfaces + 1))
                    sizeof_probability_t in
  match pr with
  | None => Done (None, a)
  | Some _ =>
  let '(st, a) := bound_state_create a max_interfaces in
  match st with
  | None => Done (None, a)
  | Some _ =>
      nk ← store nk 0 0;
      nk ← store nk 1 0;
      bound ← bound_init_aks
                {| confidence := conf; max_n := max_interfaces; nk_table := nk;
                   ak_table := ak; pr_failure := pr; state := st |};
      bound_build fuel a (Some bound) (max_n bound)
  end end end end end.

(** ** bound_get_nk *)

Definition bound_get_nk (bound : option bound_t) (k : Z)
    : outcome (Z * option bound_t) :=
  match bound with
  | None => Done (0, bound)
  | Some b =>
      match nk_table b with
      | Some _ =>
          if k <=? max_n b then
            ret ← load (nk_table b) k; Done (ret, bound)
          else Done (0, bound)
      | None => Done (0, bound)
      end
  end.

End Program.

(** ** The x86-64 System V instance

    [double] is IEEE binary64 and [long double] the x87 double-extended
    format (64-bit significand); both are computed with the Standard
    Library's [SpecFloat], rounding to nearest even. *)

Module X86_64.

Definition SF64 (z : Z) : spec_float := binary_normalize 53 1024 z 0 false.
Definition SF80 (z : Z) : spec_float := binary_normalize 64 16384 z 0 false.

(** A binary64 value in the double-extended format (the conversion is exact). *)
Definition SFwiden (x : spec_float) : spec_float :=
  match x with
  | S754_finite s m e => binary_normalize 64 16384 (cond_Zopp s (Zpos m)) e s
  | _ => x
  end.

(** The value of a finite float when it is an integer. *)
Definition SFint (x : spec_float) : option Z :=
  match x with
  | S754_zero _ => Some 0
  | S754_finite s m e =>
      if 0 <=? e then Some (cond_Zopp s (Zpos m * 2 ^ e))
      else if Zpos m mod 2 ^ (- e) =? 0
           then Some (cond_Zopp s (Zpos m / 2 ^ (- e)))
           else None
  | _ => None
  end.

(** [x] to the power [n], rounded once: the double nearest to the exact
    power, as a correctly rounded [pow] returns it. *)
Definition pow_pos (x : spec_float) (n : positive) : spec_float :=
  match x with
  | S754_finite s m e =>
      let neg := s && Z.odd (Zpos n) in
      binary_normalize 53 1024 (cond_Zopp neg (Zpos (m ^ n))) (e * Zpos n) neg
  | _ => Pos.iter (SFmul 53 1024 x) (SF64 1) n
  end.

(** [pow] of <math.h>. [bound.c] passes it the exponents [i - 2 >= 1] (in
    [bound_init_aks]) and [1.0 / max_branch] (in [node_confidence]), which
    is 1, 1/2, +infinity or not modelled. The values for a zero, infinite
    or NaN exponent and for the base 1 are those of C11 Annex F.10.4.4; an
    integral exponent gives the nearest double to the power, the exponent
    1/2 the square root; the other exponents are not modelled (NaN). *)
Definition pow64 (x y : spec_float) : spec_float :=
  let one := SF64 1 in
  match y with
  | S754_zero _ => one
  | S754_nan => if SFeqb x one then one else S754_nan
  | S754_infinity s =>
      match SFcompare (SFabs x) one with
      | Some Lt => if s then S754_infinity false else S754_zero false
      | Some Eq => one
      | Some Gt => if s then S754_zero false else S754_infinity false
      | None => S754_nan
      end
  | S754_finite _ _ _ =>
      if SFeqb x one then one
      else match SFint y with
           | Some (Zpos n) => pow_pos x n
           | Some (Zneg n) => SFdiv 53 1024 one (pow_pos x n)
           | _ => if SFeqb y (SFdiv 53 1024 one (SF64 2))
                  then SFsqrt 53 1024 x else S754_nan
           end
  end.

(** The arithmetic of x86-64 (binary64 for [double], the x87 extended format
    for [long double], round to nearest even) around a given [pow]. *)
Definition float_model_with (libm_pow : spec_float -> spec_float -> spec_float)
    : FloatModel := {|
  double_t := spec_float;
  probability_t := spec_float;
  d_zero := S754_zero false;
  d_one := SF64 1;
  d_r := SFdiv 53 1024 (SF64 9) (SF64 10);
  d_of_size := SF64;
  d_sub := SFsub 53 1024;
  d_mul := SFmul 53 1024;
  d_div := SFdiv 53 1024;
  pow := libm_pow;
  widen := SFwiden;
  p_of_size := SF80;
  p_add := SFadd 64 16384;
  p_mul := SFmul 64 16384;
  p_div := SFdiv 64 16384;
  p_le := SFleb;
  sizeof_probability_t := 16
|}.

#[export] Instance float_model : FloatModel := float_model_with pow64.

(** The double nearest to [num / 10 ^ digits], as a decimal literal denotes it. *)
Definition decimal (num : Z) (digits : Z) : spec_float :=
  SFdiv 53 1024 (SF64 num) (SF64 (10 ^ digits)).

(** An allocator whose next [n] allocations succeed, the uninitialised
    cells holding [js] and [jp]. *)
Definition supply (n : nat) (js : nat -> Z) (jp : nat -> spec_float) : allocator :=
  replicate n (AllocOk js jp).

End X86_64.

(** * The rest of bound.c and flow.c: release, printing, [main], flows

    Two more conventions.
    - The heap is the number [live] of blocks obtained from the allocator and
      not yet released: a successful [malloc] or [calloc] adds one, [free] of
      a pointer that is not NULL takes one away. [realloc] of a pointer that
      is not NULL leaves it as it is, whether it succeeds or not.
    - What [printf] writes is the list of the calls made, each with its
      arguments. *)

(** [free(p)]; [free(NULL)] does nothing. *)
Definition free {A : Type} (p : option A) (live : Z) : Z :=
  match p with
  | Some _ => live - 1
  | None => live
  end.

(** The calls of [printf]. *)
Inductive printed `{FloatModel} : Type :=
| Expected_failure                           (* "Expected failure:\n" *)
| Line_failure (i : Z) (p : probability_t)   (* "%zu - %Lf\n" *)
| Line_nk (i nk : Z).                        (* "%zu - %zu\n" *)

Section Release.

Context `{FM : FloatModel}.

(** ** bound_state_create and bound_create, with their error exits *)

Definition bound_state_create_live (a : allocator) (max_interfaces live : Z)
    : option bound_state_t * allocator * Z :=
  let '(e, a) := next_alloc a in
  match e with
  | AllocFail => (None, a, live)                      (* ERR_STATE_MALLOC *)
  | AllocOk _ _ =>
      let live := live + 1 in
      let bytes := wrap (max_interfaces * sizeof_probability_t) in
      let '(f, a) := malloc junk_of_prob a bytes sizeof_probability_t in
      match f with
      | None => (None, a, live - 1)                   (* ERR_FIRST_VECTOR *)
      | Some _ =>
          let live := live + 1 in
          let '(s, a) := malloc junk_of_prob a bytes sizeof_probability_t in
          match s with
          | None => (None, a, free f live - 1)        (* ERR_SECOND_VECTOR *)
          | Some _ => (Some {| first := f; second := s |}, a, live + 1)
          end
      end
  end.

(** The call of [bound_build] at the end has [end = max_n]: it does not
    reach [reallocate_bound], and the heap stays as it is. *)
Definition bound_create_live (fuel : nat) (a : allocator) (confidence : double_t)
    (max_interfaces max_branch live : Z)
    : outcome (option bound_t * allocator * Z) :=
  let '(e, a) := next_alloc a in
  match e with
  | AllocFail => Done (None, a, live)                 (* ERR_BOUND_MALLOC *)
  | AllocOk _ _ =>
  let live := live + 1 in
  let conf := node_confidence confidence max_branch in
  let '(nk, a) := calloc 0 a (wrap (max_interfaces + 1)) sizeof_size_t in
  match nk with
  | None => Done (None, a, live - 1)                  (* ERR_NK_TABLE_MALLOC *)
  | Some _ =>
  let live := live + 1 in
  let '(ak, a) := calloc (widen d_zero) a (wrap (max_interfaces + 1))
                    sizeof_probability_t in
  match ak with
  | None => Done (None, a, free nk live - 1)          (* ERR_PK_TABLE_MALLOC *)
  | Some _ =>
  let live := live + 1 in
  let '(pr, a) := calloc (widen d_zero) a (wrap (max_interfaces + 1))
                    sizeof_probability_t in
  match pr with
  | None => Done (None, a, free nk (free ak live) - 1)  (* ERR_PR_FAILURE *)
  | Some _ =>
  let live := live + 1 in
  let '(st, a, live) := bound_state_create_live a max_interfaces live in
  match st with
  | None => Done (None, a, free nk (free ak (free pr live)) - 1)  (* ERR_STATE *)
  | Some _ =>
      nk ← store nk 0 0;
      nk ← store nk 1 0;
      bound ← bound_init_aks
                {| confidence := conf; max_n := max_interfaces; nk_table := nk;
                   ak_table := ak; pr_failure := pr; state := st |};
      '(bound, a) ← bound_build fuel a (Some bound) (max_n bound);
      Done (bound, a, live)
  end end end end end.

(** ** bound_state_free and bound_free *)

Definition bound_state_free (bound_state : option bound_state_t) (live : Z) : Z :=
  match bound_state with
  | Some st =>
      let live := if first st is Some _ then free (first st) live else live in
      let live := if second st is Some _ then free (second st) live else live in
      free bound_state live
  | None => live
  end.

Definition bound_free (bound : option bound_t) (live : Z) : Z :=
  match bound with
  | Some b =>
      let live := if ak_table b is Some _ then free (ak_table b) live else live in
      let live := if nk_table b is Some _ then free (nk_table b) live else live in
      let live := if pr_failure b is Some _ then free (pr_failure b) live else live in
      let live := if state b is Some _ then bound_state_free (state b) live
                  else live in
      free bound live
  | None => live
  end.

(** ** bound_failure_dump and bound_dump *)

(** [for (i = 0; i <= bound->max_n; ++i)] *)
Fixpoint failure_dump_loop (fuel : nat) (i : Z) (bound : bound_t)
    : outcome (list printed) :=
  match fuel with
  | O => OutOfFuel
  | S fuel' =>
      if i <=? max_n bound then
        p ← load (pr_failure bound) i;
        out ← failure_dump_loop fuel' (wrap (i + 1)) bound;
        Done (Line_failure i p :: out)
      else Done []
  end.

Definition bound_failure_dump (fuel : nat) (bound : option bound_t)
    : outcome (list printed) :=
  match bound with
  | None => Undefined
  | Some b =>
      out ← failure_dump_loop fuel 0 b;
      Done (Expected_failure :: out)
  end.

(** [for (i = 0; i <= bound->max_n; i++)] *)
Fixpoint dump_loop (fuel : nat) (i : Z) (bound : bound_t) : outcome (list printed) :=
  match fuel with
  | O => OutOfFuel
  | S fuel' =>
      if i <=? max_n bound then
        '(nk, _) ← bound_get_nk (Some bound) i;
        out ← dump_loop fuel' (wrap (i + 1)) bound;
        Done (Line_nk i nk :: out)
      else Done []
  end.

Definition bound_dump (fuel : nat) (bound : option bound_t) : outcome (list printed) :=
  match bound with
  | None => Undefined
  | Some b => dump_loop fuel 0 b
  end.

End Release.

(** ** flow.c

    [flow.h] is not part of the sources at hand: a flow is the two fields
    that [mda_flow_create] writes, and [mda_flow_state_t] is any type. *)

Module Flow.

Section Flow.

Context `{FM : FloatModel}.

Variable mda_flow_state_t : Type.

Record mda_flow_t : Type := {
  flow_id : Z;
  state : mda_flow_state_t
}.

Definition mda_flow_create (a : allocator) (id : Z) (s : mda_flow_state_t)
    (live : Z) : option mda_flow_t * allocator * Z :=
  let '(e, a) := next_alloc a in
  match e with
  | AllocFail => (None, a, live)
  | AllocOk _ _ => (Some {| flow_id := id; state := s |}, a, live + 1)
  end.

Definition mda_flow_free (flow : option mda_flow_t) (live : Z) : Z :=
  if flow is Some _ then free flow live else live.

End Flow.

End Flow.

(** ** main *)

Module Main.

Import X86_64.

(** [main], on x86-64 around a given [pow]. [confidence = .05] is a
    [long double] that holds the [double] nearest to 0.05, and the call of
    [bound_create] converts it back. *)
Definition main_with (libm_pow : spec_float -> spec_float -> spec_float)
    (fuel : nat) (a : @allocator (float_model_with libm_pow)) (live : Z)
    : outcome (Z * list (@printed (float_model_with libm_pow)) * Z) :=
  let confidence := decimal 5 2 in
  let interfaces := 16 in
  let max_branch := 1 in
  '(bound, _, live) ← bound_create_live (FM := float_model_with libm_pow)
                        fuel a confidence interfaces max_branch live;
  nks ← bound_dump fuel bound;
  failures ← bound_failure_dump fuel bound;
  let live := bound_free bound live in
  Done (0, nks ++ failures, live).

Definition main (fuel : nat) (a : allocator) (live : Z)
    : outcome (Z * list printed * Z) :=
  main_with pow64 fuel a live.

End Main.

(** * Vocabulary of the statements *)

(** A value of type [size_t]. *)
Definition is_size (z : Z) : Prop := 0 <= z < SIZE_MOD.

(** Number of cells behind a pointer (0 for NULL). *)
Definition plen {X : Type} (p : ptr X) : Z := Z.of_nat (length (default [] p)).

(** [p'] is [p] reallocated: not NULL, and the cells that both have agree. *)
Definition extends {X : Type} (p p' : ptr X) : Prop :=
  p' <> None /\ forall i, i < plen p' -> i < plen p -> load p' i = load p i.

Section Vocabulary.

Context `{FM : FloatModel}.

Implicit Types (b bound : bound_t) (st : bound_state_t) (w : walk_t).

(** The significance level that [bound_init_aks] stores at index [i]. *)
Definition ak_value (conf : double_t) (i : Z) : probability_t :=
  let a1 := d_mul (d_sub d_one d_r) conf in
  if i <? 2 then widen d_zero
  else if i =? 2 then widen a1
  else widen (d_mul a1 (pow d_r (d_of_size (wrap (i - 2))))).

(** The tables a caller can hold: made by [bound_create], then passed to
    [bound_build] any number of times, each call having returned. *)
Inductive built : bound_t -> Prop :=
| built_create fuel a c n mb b a' :
    is_size n -> is_size mb ->
    bound_create fuel a c n mb = Done (Some b, a') -> built b
| built_build fuel a b end_ b' a' :
    built b -> is_size end_ ->
    bound_build fuel a (Some b) end_ = Done (Some b', a') -> built b'.

(** The same, every call having returned within [limit] iterations of each
    of its loops. *)
Inductive built_in (limit : nat) : bound_t -> Prop :=
| built_in_create fuel a c n mb b a' :
    (fuel <= limit)%nat -> is_size n -> is_size mb ->
    bound_create fuel a c n mb = Done (Some b, a') -> built_in limit b
| built_in_build fuel a b end_ b' a' :
    (fuel <= limit)%nat -> built_in limit b -> is_size end_ ->
    bound_build fuel a (Some b) end_ = Done (Some b', a') -> built_in limit b'.

(** The stopping points grow with the hypothesis, from hypothesis 2 on. *)
Definition increasing (b : bound_t) : Prop :=
  forall k, 3 <= k <= max_n b ->
    exists u v, load (nk_table b) (k - 1) = Done u /\
                load (nk_table b) k = Done v /\ u < v.

(** The significance level of hypothesis 3 is below 1. *)
Definition below_one (conf : double_t) : Prop :=
  p_le (widen d_one) (ak_value conf 3) = false.

(** What every table a caller holds satisfies (see [built_inv]): at least
    hypothesis 2 is covered; the significance levels are those of
    [bound_init_aks]; every built hypothesis has its failure probability
    recorded, at most its significance level; the dummy entries are 0. *)
Definition table_inv b : Prop :=
  2 <= max_n b < SIZE_MOD - 1 /\
  nk_table b <> None /\ state b <> None /\
  (forall i, 0 <= i <= max_n b ->
     load (ak_table b) i = Done (ak_value (confidence b) i)) /\
  (forall h, 2 <= h <= max_n b ->
     exists pr, load (pr_failure b) h = Done pr /\
                p_le pr (ak_value (confidence b) h) = true) /\
  load (nk_table b) 0 = Done 0 /\ load (nk_table b) 1 = Done 0 /\
  (forall h, 2 <= h <= max_n b -> exists v, load (nk_table b) h = Done v /\ is_size v) /\
  plen (nk_table b) <= SIZE_MOD / sizeof_size_t.

(** [2^62]: a walk that stops within so many turns has not seen its probe
    counter [i] wrap around. *)
Definition WALK_LIMIT : Z := 4611686018427387904.

(** What holds of the loop variables each time the stopping test is made. *)
Definition walk_inv (h prev : Z) w : Prop :=
  1 <= w_i w /\
  (w_i w = 1 -> w_jstart w = 2) /\
  (2 <= w_i w ->
     1 <= w_jstart w <= h /\
     (w_jstart w = h - 1 -> prev + 3 - h < w_i w) /\
     (w_jstart w <= h - 1 -> w_j w = h)).

(** One turn of [for (i = 1; continue_condition(...); ++i)]: the test and,
    when it holds, the body and [++i] ([inl]); [inr] when the loop is over. *)
Definition walk_turn (h : Z) w : outcome (walk_t + walk_t) :=
  '(continue, bound) ← continue_condition (w_jstart w) h (w_cur_state w) (w_bound w);
  if continue : bool then
    w' ← column (Z.to_nat (h - w_jstart w)) h
           {| w_i := w_i w; w_j := w_jstart w; w_jstart := w_jstart w;
              w_cur_state := w_cur_state w; w_bound := bound;
              w_state := w_state w |};
    Done (inl {| w_i := wrap (w_i w + 1); w_j := w_j w';
                 w_jstart := if decide (w_i w = 1) then 1 else w_jstart w';
                 w_cur_state := w_cur_state w'; w_bound := w_bound w';
                 w_state := swap (w_state w') |})
  else
    Done (inr {| w_i := w_i w; w_j := w_j w; w_jstart := w_jstart w;
                 w_cur_state := w_cur_state w; w_bound := bound;
                 w_state := w_state w |}).

(** [k] turns, none of them the last. *)
Fixpoint turns (k : nat) (h : Z) w : option walk_t :=
  match k with
  | O => Some w
  | S k' =>
      match walk_turn h w with
      | Done (inl w') => turns k' h w'
      | _ => None
      end
  end.

(** The allocation number [k] (from 0) is refused. An allocator that has run
    out of events refuses. *)
Definition fails_at (a : allocator) (k : nat) : Prop :=
  (next_alloc (drop k a)).1 = AllocFail.

End Vocabulary.

(** * Vocabulary for safety, the allocator and the scratch vectors *)

(** A run that returns satisfies [P]; it does nothing undefined. A run that
    is still going when the fuel is out has done nothing undefined so far. *)
Definition ensures {A : Type} (P : A -> Prop) (o : outcome A) : Prop :=
  match o with
  | Done a => P a
  | Undefined => False
  | OutOfFuel => True
  end.

(** No access through NULL or outside a block. *)
Definition safe {A : Type} (o : outcome A) : Prop := ensures (fun _ => True) o.

(** The run does not return: it is undefined or it goes on for ever. *)
Definition stuck {A : Type} (o : outcome A) : Prop :=
  match o with
  | Done _ => False
  | _ => True
  end.

Section Vocabulary2.

Context `{FM : FloatModel}.

Implicit Types (b bound : bound_t) (st : bound_state_t) (w : walk_t).

(** The next [n] allocations succeed. *)
Fixpoint succeed (n : nat) (a : allocator) : bool :=
  match n, a with
  | O, _ => true
  | S n', AllocOk _ _ :: a' => succeed n' a'
  | S _, _ => false
  end.

(** Two allocators that refuse the same requests; what they leave in
    uninitialised cells may differ. *)
Fixpoint same_refusals (a1 a2 : allocator) : Prop :=
  match a1, a2 with
  | [], [] => True
  | AllocFail :: a1', AllocFail :: a2' => same_refusals a1' a2'
  | AllocOk _ _ :: a1', AllocOk _ _ :: a2' => same_refusals a1' a2'
  | _, _ => False
  end.

(** Arrays for hypotheses up to [m]: the tables have a cell for each of
    [0 .. m], the two scratch vectors have the same size, at least [m]. *)
Definition room (m : Z) b st : Prop :=
  max_n b = m /\
  plen (first st) = plen (second st) /\ m <= plen (first st) /\
  m < plen (nk_table b) /\ m < plen (ak_table b) /\ m < plen (pr_failure b).

Definition shaped b : Prop :=
  2 <= max_n b < SIZE_MOD - 1 /\
  exists st, state b = Some st /\ room (max_n b) b st.

(** The byte sizes that growing to [e] hypotheses asks for fit [size_t]. *)
Definition fits (e : Z) : Prop :=
  0 < sizeof_probability_t /\
  (e + 1) * sizeof_probability_t < SIZE_MOD /\ (e + 1) * sizeof_size_t < SIZE_MOD.

(** Two arrays of the same size with the same cells below index [d]. *)
Definition agree {X : Type} (d : Z) (p q : ptr X) : Prop :=
  plen p = plen q /\ forall k, k < d -> load p k = load q k.

(** The same table, up to its scratch vectors. *)
Definition bound_agree b1 b2 : Prop :=
  confidence b1 = confidence b2 /\ max_n b1 = max_n b2 /\
  nk_table b1 = nk_table b2 /\ ak_table b1 = ak_table b2 /\
  pr_failure b1 = pr_failure b2.

Definition same_table (ob1 ob2 : option bound_t) : Prop :=
  match ob1, ob2 with
  | None, None => True
  | Some b1, Some b2 => bound_agree b1 b2
  | _, _ => False
  end.

(** The same scratch vectors, up to the cells from index [df] on in [first]
    and from index [ds] on in [second]. *)
Definition state_agree (df ds : Z) st1 st2 : Prop :=
  agree df (first st1) (first st2) /\ agree ds (second st1) (second st2).

(** The same loop variables, up to those cells. *)
Definition walk_agree (df ds : Z) w1 w2 : Prop :=
  w_i w1 = w_i w2 /\ w_j w1 = w_j w2 /\ w_jstart w1 = w_jstart w2 /\
  w_cur_state w1 = w_cur_state w2 /\ bound_agree (w_bound w1) (w_bound w2) /\
  state_agree df ds (w_state w1) (w_state w2).

(** Two runs end the same way, with results related by [R]. *)
Definition alike {A B : Type} (R : A -> B -> Prop) (o1 : outcome A) (o2 : outcome B)
    : Prop :=
  match o1, o2 with
  | Done x, Done y => R x y
  | Undefined, Undefined => True
  | OutOfFuel, OutOfFuel => True
  | _, _ => False
  end.

(** One line for each cell of [l], numbered from [i]. *)
Fixpoint lines {X : Type} (f : Z -> X -> printed) (i : Z) (l : list X)
    : list printed :=
  match l with
  | [] => []
  | x :: l' => f i x :: lines f (i + 1) l'
  end.

(** What [bound_dump] and [bound_failure_dump] are to print: the entries
    [0 .. max_n] of [nk_table] and of [pr_failure]. *)
Definition nk_lines b : list printed :=
  lines Line_nk 0 (take (Z.to_nat (max_n b + 1)) (default [] (nk_table b))).

Definition failure_lines b : list printed :=
  Expected_failure
  :: lines Line_failure 0
       (take (Z.to_nat (max_n b + 1)) (default [] (pr_failure b))).

End Vocabulary2.

(** ** Building in steps and building at once *)

(** The same cells from index 0 to below index [d]. *)
Definition pre {X : Type} (d : Z) (p q : ptr X) : Prop :=
  forall k, 0 <= k < d -> load p k = load q k.

Section Vocabulary3.

Context `{FM : FloatModel}.

Implicit Types (b bound : bound_t) (st : bound_state_t) (w : walk_t).

(** The cells that the third of the next allocations (the one for
    [nk_table] in [reallocate_bound]) leaves uninitialised hold zero. *)
Definition zero_stopping_points (a : allocator) : Prop :=
  match a with
  | _ :: _ :: AllocOk js _ :: _ => forall i, wrap (js i) = 0
  | _ => False
  end.

(** What the walk of hypothesis [h] reads of a table is the same in [b1]
    and [b2], and [b2] has room for what it writes. *)
Definition reads_alike (h : Z) b1 b2 : Prop :=
  load (ak_table b1) h = load (ak_table b2) h /\
  (forall k, 0 <= k <= h -> load (nk_table b1) k = load (nk_table b2) k) /\
  h < plen (pr_failure b2).

(** The loop variables of two walks of hypothesis [h] that read the same:
    the same counters, and scratch vectors with the same cells below [h] in
    [first] and below [d] in [second]; the second walk has room for [h]
    cells. *)
Definition walk_pre (h d : Z) w1 w2 : Prop :=
  w_i w1 = w_i w2 /\ w_j w1 = w_j w2 /\ w_jstart w1 = w_jstart w2 /\
  w_cur_state w1 = w_cur_state w2 /\ reads_alike h (w_bound w1) (w_bound w2) /\
  pre h (first (w_state w1)) (first (w_state w2)) /\
  pre d (second (w_state w1)) (second (w_state w2)) /\
  h <= plen (first (w_state w2)) /\ h <= plen (second (w_state w2)).

(** Two builds about to start hypothesis [h]: a table [b1] for up to
    [max_n b1] hypotheses and a table [b2], with its scratch vectors, for at
    least as many, with the same confidence, the same significance levels,
    the same stopping points and failure probabilities for the hypotheses
    built so far, and no stopping point recorded for the others. *)
Definition in_step (h : Z) b1 b2 st2 : Prop :=
  confidence b1 = confidence b2 /\ max_n b1 <= max_n b2 /\
  2 <= max_n b2 < SIZE_MOD - 1 /\ room (max_n b2) b2 st2 /\
  (forall k, 0 <= k <= max_n b1 -> load (ak_table b1) k = load (ak_table b2) k) /\
  (forall k, 0 <= k < h ->
     load (nk_table b1) k = load (nk_table b2) k /\
     load (pr_failure b1) k = load (pr_failure b2) k) /\
  (forall k, h <= k <= max_n b1 -> load (nk_table b1) k = Done 0) /\
  (forall k, h <= k <= max_n b2 -> load (nk_table b2) k = Done 0).

End Vocabulary3.

(** * Tables and walks on x86-64 *)

Module Tables.

Import X86_64.

(** Seven successful allocations; uninitialised cells hold zero. *)
Definition clean : allocator := supply 7 (fun _ => 0) (fun _ => S754_zero false).

(** A placeholder for the runs that do not return a table. *)
Definition no_table : bound_t :=
  {| confidence := S754_nan; max_n := 0; nk_table := None; ak_table := None;
     pr_failure := None; state := None |}.

(** The table a call has returned. *)
Definition table_of (r : outcome (option bound_t * allocator)) : bound_t :=
  match r with
  | Done (Some b, _) => b
  | _ => no_table
  end.

(** [bound_create(0.95, 3, 1)] *)
Definition table3 : bound_t :=
  Eval vm_compute in table_of (bound_create 20 clean (decimal 95 2) 3 1).

(** [bound_create(0.95, 2, 0)]: a branching bound of 0 is not refused. The
    division [1.0 / 0] is +infinity, [pow(0.05, +infinity)] is 0, and the
    table is built for node confidence 1. *)
Definition table_branch0 : bound_t :=
  Eval vm_compute in table_of (bound_create 20 clean (decimal 95 2) 2 0).

(** The fourth allocation (the [pr_failure] array) is refused. *)
Definition fail_fourth : allocator :=
  supply 3 (fun _ => 0) (fun _ => S754_zero false) ++ [AllocFail].

(** The scratch vectors that [bound_create(0.95, 3, 1)] leaves behind, and
    what [init_state] makes of them at the start of the next build. *)
Definition state3 : bound_state_t :=
  Eval vm_compute in default {| first := None; second := None |} (state table3).

Definition state3_init : bound_state_t :=
  Eval vm_compute in
    match init_state table3 state3 with
    | Done (_, st) => st
    | _ => state3
    end.

(** [bound_create(0.95, 2, 1)], its scratch vectors, and the second walk of
    hypothesis 2 over it: the start, and the loop variables after 5 turns,
    after the turns that take [i] around to 0, and at the end. *)
Definition table2 : bound_t :=
  Eval vm_compute in table_of (bound_create 20 clean (decimal 95 2) 2 1).

Definition state2 : bound_state_t :=
  Eval vm_compute in default {| first := None; second := None |} (state table2).

Definition state2_init : bound_state_t :=
  Eval vm_compute in
    match init_state table2 state2 with
    | Done (_, st) => st
    | _ => state2
    end.

Definition walk2_start : walk_t :=
  {| w_i := 1; w_j := 0; w_jstart := 2; w_cur_state := SF80 1;
     w_bound := table2; w_state := state2_init |}.

(** After the turns [i = 1 .. 5]: the absorption has happened. *)
Definition walk2_absorbed : walk_t :=
  Eval vm_compute in default walk2_start (turns 5 2 walk2_start).

(** After the turns [i = 6 .. SIZE_MAX]: [i] is 0 again. *)
Definition walk2_lap : walk_t :=
  {| w_i := 0; w_j := w_j walk2_absorbed; w_jstart := w_jstart walk2_absorbed;
     w_cur_state := w_cur_state walk2_absorbed; w_bound := w_bound walk2_absorbed;
     w_state := w_state walk2_absorbed |}.

Definition walk2_end : walk_t :=
  Eval vm_compute in
    match walk 3 2 walk2_lap with
    | Done w => w
    | _ => walk2_lap
    end.

Definition table2_rebuilt : bound_t :=
  Eval vm_compute in
    match store (nk_table (w_bound walk2_end)) 2
            (wrap (NUM_PROBES (w_i walk2_end) (w_j walk2_end) - 2)) with
    | Done t => set_state (set_nk_table (w_bound walk2_end) t)
                  (Some (w_state walk2_end))
    | _ => no_table
    end.




(** Five successful reallocations; the cell added to [nk_table] holds 7. *)
Definition stale_cell : allocator :=
  [AllocOk (fun _ => 0) (fun _ => S754_zero false);
   AllocOk (fun _ => 0) (fun _ => S754_zero false);
   AllocOk (fun _ => 7) (fun _ => S754_zero false);
   AllocOk (fun _ => 0) (fun _ => S754_zero false);
   AllocOk (fun _ => 0) (fun _ => S754_zero false)].

(** [table2] after [reallocate_bound] with [stale_cell], after the
    significance levels are recomputed, and the walk of hypothesis 3 over it. *)
Definition grown_bound : bound_t :=
  Eval vm_compute in (reallocate_bound stale_cell table2 state2 3).1.1.2.

Definition grown_state : bound_state_t :=
  Eval vm_compute in (reallocate_bound stale_cell table2 state2 3).1.2.

Definition grown_aks : bound_t :=
  Eval vm_compute in
    match bound_init_aks (set_max_n grown_bound 3) with
    | Done b => b
    | _ => no_table
    end.

Definition grown_init : bound_state_t :=
  Eval vm_compute in
    match init_state grown_aks grown_state with
    | Done (_, st) => st
    | _ => grown_state
    end.

Definition walk3_start : walk_t :=
  {| w_i := 1; w_j := 0; w_jstart := 2; w_cur_state := SF80 1;
     w_bound := grown_aks; w_state := grown_init |}.

(** After the turns [i = 1 .. 6]: columns 1 and 2 are absorbed. *)
Definition walk3_absorbed : walk_t :=
  Eval vm_compute in default walk3_start (turns 6 3 walk3_start).

(** After the turns [i = 7 .. SIZE_MAX], an odd number of them. *)
Definition walk3_lap : walk_t :=
  {| w_i := 0; w_j := w_j walk3_absorbed; w_jstart := w_jstart walk3_absorbed;
     w_cur_state := w_cur_state walk3_absorbed; w_bound := w_bound walk3_absorbed;
     w_state := swap (w_state walk3_absorbed) |}.

Definition walk3_end : walk_t :=
  Eval vm_compute in
    match walk 7 3 walk3_lap with
    | Done w => w
    | _ => walk3_lap
    end.

Definition table3_grown : bound_t :=
  Eval vm_compute in
    match store (nk_table (w_bound walk3_end)) 3
            (wrap (NUM_PROBES (w_i walk3_end) (w_j walk3_end) - 2)) with
    | Done t => set_state (set_nk_table (w_bound walk3_end) t)
                  (Some (w_state walk3_end))
    | _ => no_table
    end.

(** With the added cells zero, the same growth gives the table of
    [bound_create(0.95, 3, 1)]. *)
Definition table3_grown_clean : bound_t :=
  Eval vm_compute in
    table_of (bound_build 20 (supply 5 (fun _ => 0) (fun _ => S754_zero false))
                (Some table2) 3).

End Tables.

(** * The table of [main] *)

Module Table16.

Import X86_64 Tables.

(** [bound_create(.05, 16, 1)], as [main] calls it. *)
Definition table16 : bound_t :=
  Eval vm_compute in table_of (bound_create 200 clean (decimal 5 2) 16 1).

(** The stopping points and the failure probabilities that [main] prints. *)
Definition stopping_points : list Z :=
  [0; 0; 9; 17; 24; 33; 42; 51; 60; 70; 81; 91; 102; 113; 125; 136; 148].

Definition failure_probabilities : list spec_float :=
  Eval vm_compute in default [] (pr_failure table16).

(** Seven successful allocations whose uninitialised cells hold 7 and NaN. *)
Definition dirty : allocator := supply 7 (fun _ => 7) (fun _ => S754_nan).

(** ** What [main] asks of [pow]

    [main] reaches [pow] with [(1 - 0.05, 1.0 / 1)] in [node_confidence] and
    with [(0.9, k)] for [k = 1 .. 14] in [bound_init_aks]. A [pow] is
    accurate there when it returns [x] for the exponent 1 and, for the
    exponents from 2 on, the double nearest to the power or one of its two
    neighbours (an error below one unit in the last place). *)

Definition one_minus_confidence : spec_float :=
  SFsub 53 1024 (SF64 1) (decimal 5 2).

Definition near (x : spec_float) : list spec_float :=
  [SFpred 53 1024 x; x; SFsucc 53 1024 x].

Definition accurate (libm_pow : spec_float -> spec_float -> spec_float) : Prop :=
  libm_pow one_minus_confidence (SF64 1) = one_minus_confidence /\
  libm_pow (decimal 9 1) (SF64 1) = decimal 9 1 /\
  forall k, 2 <= k <= 14 ->
    In (libm_pow (decimal 9 1) (SF64 k))
       (near (pow_pos (decimal 9 1) (Z.to_pos k))).

(** The node confidence and [a1] of [main], and the values that
    [ak_table[h]] can take with an accurate [pow]. *)
Definition node16 : spec_float := SFsub 53 1024 (SF64 1) one_minus_confidence.

Definition a1_16 : spec_float :=
  SFmul 53 1024 (SFsub 53 1024 (SF64 1) (decimal 9 1)) node16.

Definition level (v : spec_float) : spec_float :=
  SFwiden (SFmul 53 1024 a1_16 v).

Definition levels (h : Z) : list spec_float :=
  if h =? 2 then [SFwiden a1_16]
  else if h =? 3 then [level (decimal 9 1)]
  else level <$> near (pow_pos (decimal 9 1) (Z.to_pos (h - 2))).

(** The tables of [main] when the hypotheses below [h] are built. *)
Definition built_nk (h k : Z) : Z :=
  if k <? h then nth (Z.to_nat k) stopping_points 0 else 0.

Definition built_pr (h k : Z) : spec_float :=
  if k <? h then nth (Z.to_nat k) failure_probabilities (S754_zero false)
  else S754_zero false.

(** The same float, bit for bit. *)
Definition SFsame (x y : spec_float) : bool :=
  match x, y with
  | S754_zero s, S754_zero s' => Bool.eqb s s'
  | S754_infinity s, S754_infinity s' => Bool.eqb s s'
  | S754_nan, S754_nan => true
  | S754_finite s m e, S754_finite s' m' e' =>
      Bool.eqb s s' && (m =? m')%positive && (e =? e')
  | _, _ => false
  end.

Section Reference.

Variable libm_pow : spec_float -> spec_float -> spec_float.

(** The walk of hypothesis [h] as [main] starts it, in a table whose
    significance level for [h] is [ak]. *)
Definition reference (h : Z) (ak : spec_float)
    : @walk_t (float_model_with libm_pow) :=
  @Build_walk_t (float_model_with libm_pow) 1 0 2 (SF80 1)
    (@Build_bound_t (float_model_with libm_pow) node16 16
       (Some (built_nk h <$> seqZ 0 17))
       (Some (replicate 17 ak))
       (Some (replicate 17 (S754_zero false)))
       None)
    (@Build_bound_state_t (float_model_with libm_pow)
       (Some (replicate 16 (S754_zero false)))
       (Some (S754_zero false :: SF80 1 :: replicate 14 (S754_zero false)))).

(** A walk of hypothesis [h] has stopped at the stopping point and with
    the failure probability that [main] prints for [h]. *)
Definition stopped (h : Z) (o : outcome (@walk_t (float_model_with libm_pow)))
    : bool :=
  match o with
  | Done w =>
      (wrap (NUM_PROBES (w_i w) (w_j w) - 2) =? built_nk (h + 1) h)
      && SFsame (w_cur_state w) (built_pr (h + 1) h)
  | _ => false
  end.

(** The build of [main] about to start hypothesis [h]: the hypotheses below
    [h] have the stopping points and failure probabilities that [main]
    prints, nothing is recorded for the others, and the significance levels
    are those of the node confidence of [main]. *)
Definition built_to (h : Z) (b : @bound_t (float_model_with libm_pow))
    (st : @bound_state_t (float_model_with libm_pow)) : Prop :=
  confidence b = node16 /\ room 16 b st /\
  (forall k, 0 <= k <= 16 -> load (nk_table b) k = Done (built_nk h k)) /\
  (forall k, 0 <= k <= 16 -> load (pr_failure b) k = Done (built_pr h k)) /\
  (forall k, 0 <= k <= 16 ->
     load (ak_table b) k = Done (ak_value (FM := float_model_with libm_pow) node16 k)).

End Reference.

End Table16.

(** * Facts about the embedding *)

Lemma bind_Done {A B : Type} (m : outcome A) (f : A -> outcome B) (b : B) :
  m ≫= f = Done b -> exists a, m = Done a /\ f a = Done b.
Proof. destruct m; simpl; intros H; try discriminate; eauto. Qed.

(** Decompose the hypotheses that say a sequence of steps ran to its end. *)
Ltac inv_done :=
  repeat match goal with
    | H : _ ≫= _ = Done _ |- _ =>
        let a := fresh "r" in
        let E := fresh "E" in
        apply bind_Done in H as (a & E & H)
    | H : Done _ = Done _ |- _ => injection H as H
    | H : Undefined = Done _ |- _ => discriminate H
    | H : OutOfFuel = Done _ |- _ => discriminate H
    | H : (_, _) = (_, _) |- _ => injection H as ? ?
    | H : (let '(_, _) := ?x in _) = Done _ |- _ => destruct x
    end.

Lemma wrap_range (z : Z) : 0 <= wrap z < SIZE_MOD.
Proof. unfold wrap, SIZE_MOD. apply Z.mod_pos_bound. lia. Qed.

Lemma wrap_small (z : Z) : 0 <= z < SIZE_MOD -> wrap z = z.
Proof. unfold wrap. apply Z.mod_small. Qed.

Section Memory.

Context {X : Type}.
Implicit Types (p : ptr X) (i j : Z) (x : X).

Lemma store_Done p i x p' :
  store p i x = Done p' ->
  exists l, p = Some l /\ 0 <= i < Z.of_nat (length l) /\
            p' = Some (<[Z.to_nat i := x]> l).
Proof.
  unfold store. destruct p as [l|]; [|discriminate].
  destruct (0 <=? i) eqn:E1; simpl; [|discriminate].
  destruct (i <? Z.of_nat (length l)) eqn:E2; [|discriminate].
  intros [= <-]. exists l. repeat split; lia.
Qed.

Lemma load_Done p i x :
  load p i = Done x ->
  exists l, p = Some l /\ 0 <= i < Z.of_nat (length l) /\ l !! Z.to_nat i = Some x.
Proof.
  unfold load. destruct p as [l|]; [|discriminate].
  destruct (i <? 0) eqn:E1; [discriminate|].
  destruct (l !! Z.to_nat i) eqn:E2; [|discriminate].
  intros [= <-]. exists l. apply lookup_lt_Some in E2 as E3.
  repeat split; auto; lia.
Qed.

Lemma load_in_range l i :
  0 <= i < Z.of_nat (length l) -> exists x, load (Some l) i = Done x.
Proof.
  intros Hi. unfold load. destruct (i <? 0) eqn:E1; [lia|].
  destruct (lookup_lt_is_Some_2 l (Z.to_nat i)) as [x Hx]; [lia|].
  rewrite Hx. eauto.
Qed.

Lemma load_store_eq p i x p' : store p i x = Done p' -> load p' i = Done x.
Proof.
  intros (l & -> & Hi & ->)%store_Done. unfold load.
  destruct (i <? 0) eqn:E1; [lia|].
  rewrite list_lookup_insert_eq; [done|lia].
Qed.

Lemma load_store_ne p i x p' j :
  store p i x = Done p' -> j <> i -> load p' j = load p j.
Proof.
  intros (l & -> & Hi & ->)%store_Done Hne. unfold load.
  destruct (j <? 0) eqn:E1; [done|].
  rewrite list_lookup_insert_ne; [done|lia].
Qed.

Lemma plen_store p i x p' : store p i x = Done p' -> plen p' = plen p.
Proof.
  intros (l & -> & Hi & ->)%store_Done. unfold plen. simpl.
  by rewrite length_insert.
Qed.

Lemma store_in_range p i x p' : store p i x = Done p' -> 0 <= i < plen p.
Proof. intros (l & -> & Hi & ->)%store_Done. exact Hi. Qed.

Lemma load_in_plen p i x : load p i = Done x -> 0 <= i < plen p.
Proof. intros (l & -> & Hi & _)%load_Done. exact Hi. Qed.

Lemma store_not_null p i x p' : store p i x = Done p' -> p <> None /\ p' <> None.
Proof. intros (l & -> & Hi & ->)%store_Done. done. Qed.

End Memory.

Section ProgramFacts.

Context `{FM : FloatModel}.

Implicit Types (b bound : bound_t) (st : bound_state_t) (w : walk_t).

(** *** init_state *)

Lemma zero_first_spec (n : nat) (j : Z) (p p' : ptr probability_t) :
  zero_first n j p = Done p' -> 0 <= j ->
  (forall k, j <= k < j + Z.of_nat n -> load p' k = Done (widen d_zero)) /\
  (forall k, k < j \/ j + Z.of_nat n <= k -> load p' k = load p k) /\
  plen p' = plen p.
Proof.
  revert j p. induction n as [|n IH]; intros j p H Hj; simpl in H.
  - inv_done. subst. split_and!; [intros; lia|done..].
  - inv_done. destruct (IH _ _ H ltac:(lia)) as (Hz & Hf & Hl).
    split_and!.
    + intros k Hk. destruct (decide (k = j)) as [->|Hne].
      * rewrite Hf by lia. eauto using load_store_eq.
      * apply Hz. lia.
    + intros k Hk. rewrite Hf by lia. eapply load_store_ne; [eauto|lia].
    + rewrite Hl. eauto using plen_store.
Qed.

Lemma init_state_spec b st cur st' :
  init_state b st = Done (cur, st') ->
  cur = widen d_one /\
  (forall k, 0 <= k < max_n b -> load (first st') k = Done (widen d_zero)) /\
  (forall k, max_n b <= k -> load (first st') k = load (first st) k) /\
  load (second st') 0 = Done (widen d_zero) /\
  load (second st') 1 = Done (widen d_one) /\
  (forall k, 2 <= k -> load (second st') k = load (second st) k) /\
  plen (first st') = plen (first st) /\ plen (second st') = plen (second st).
Proof.
  unfold init_state. intros H. inv_done. subst. simpl.
  apply zero_first_spec in E as (Hz & Hf & Hl); [|lia].
  split_and!; auto.
  - intros k Hk. apply Hz. lia.
  - intros k Hk. destruct (decide (k < 0)).
    + unfold load. destruct (first st), r; auto; by destruct (k <? 0) eqn:?; try lia.
    + apply Hf. lia.
  - erewrite load_store_ne by (eauto || lia). eauto using load_store_eq.
  - eauto using load_store_eq.
  - intros k Hk. erewrite load_store_ne by (eauto || lia).
    eapply load_store_ne; [eauto|lia].
  - erewrite plen_store by eauto. eauto using plen_store.
Qed.

(** *** continue_condition *)

Lemma continue_condition_true jstart h cur b b' :
  continue_condition jstart h cur b = Done (true, b') -> b' = b.
Proof.
  unfold continue_condition. intros Hc. case_decide; inv_done; [|congruence].
  destruct (p_le cur r); inv_done; congruence.
Qed.

Lemma continue_condition_false jstart h cur b b' :
  continue_condition jstart h cur b = Done (false, b') ->
  jstart = wrap (h - 1) /\
  exists ak pr, load (ak_table b) h = Done ak /\ p_le cur ak = true /\
                store (pr_failure b) h cur = Done pr /\ b' = set_pr_failure b pr.
Proof.
  unfold continue_condition. intros Hc. case_decide; inv_done; [|congruence].
  destruct (p_le cur r) eqn:Hle; inv_done; [|congruence].
  split; [done|]. exists r, r0. subst. auto.
Qed.

(** *** column: the bound table is only read *)

Lemma column_frame (n : nat) h w w' :
  column n h w = Done w' -> w_bound w' = w_bound w /\ w_i w' = w_i w.
Proof.
  revert w. induction n as [|n IH]; intros w H; simpl in H.
  - inv_done. by subst.
  - inv_done. case_decide; inv_done; apply IH in H as [-> ->]; done.
Qed.

(** *** walk: it ends by recording the failure probability *)

Lemma walk_Done (fuel : nat) h w w' :
  walk fuel h w = Done w' ->
  exists ak pr,
    load (ak_table (w_bound w)) h = Done ak /\
    p_le (w_cur_state w') ak = true /\
    store (pr_failure (w_bound w)) h (w_cur_state w') = Done pr /\
    w_bound w' = set_pr_failure (w_bound w) pr /\
    w_jstart w' = wrap (h - 1).
Proof.
  revert w. induction fuel as [|fuel IH]; intros w H; simpl in H; [discriminate|].
  inv_done. destruct b.
  - inv_done. apply continue_condition_true in E as ->.
    apply column_frame in E0 as [Hb _]. simpl in Hb.
    apply IH in H as (ak & pr & H1 & H2 & H3 & H4 & H5). simpl in *.
    rewrite Hb in *. eauto 10.
  - inv_done. subst. simpl.
    apply continue_condition_false in E as (Hj & ak & pr & H1 & H2 & H3 & ->).
    eauto 10.
Qed.

(** *** build_loop *)

Lemma build_loop_step (n fuel : nat) h j b st b' st' :
  build_loop (S n) fuel h j b st = Done (b', st') -> h <= max_n b ->
  exists cur st1 w t,
    init_state b st = Done (cur, st1) /\
    walk fuel h {| w_i := 1; w_j := j; w_jstart := 2; w_cur_state := cur;
                   w_bound := b; w_state := st1 |} = Done w /\
    store (nk_table (w_bound w)) h (wrap (NUM_PROBES (w_i w) (w_j w) - 2)) = Done t /\
    build_loop n fuel (wrap (h + 1)) (w_j w) (set_nk_table (w_bound w) t) (w_state w)
      = Done (b', st').
Proof.
  simpl. intros H Hh. destruct (h <=? max_n b) eqn:E; [|lia].
  apply bind_Done in H as ([cur st1] & E1 & H).
  apply bind_Done in H as (w & E2 & H).
  apply bind_Done in H as (t & E3 & H).
  eauto 10.
Qed.

Lemma build_loop_exit (n fuel : nat) h j b st b' st' :
  build_loop n fuel h j b st = Done (b', st') -> max_n b < h -> b' = b /\ st' = st.
Proof.
  destruct n; simpl; [discriminate|]. intros H Hh.
  destruct (h <=? max_n b) eqn:E; [lia|]. by inv_done.
Qed.

(** With [max_n = SIZE_MAX] the loop over the hypotheses has no exit. *)
Lemma build_loop_no_exit (n fuel : nat) h j b st r :
  SIZE_MOD - 1 <= max_n b -> 0 <= h < SIZE_MOD ->
  build_loop n fuel h j b st = Done r -> False.
Proof.
  revert h j b st. induction n as [|n IH]; intros h j b st Hm Hh H; [discriminate|].
  destruct r as [b' st'].
  apply build_loop_step in H as (cur & st1 & w & t & _ & Hw & _ & H); [|lia].
  apply walk_Done in Hw as (ak & pr & _ & _ & _ & Hb & _). simpl in Hb.
  eapply IH in H; [done| |apply wrap_range]. rewrite Hb. simpl. lia.
Qed.

Lemma build_loop_max (n fuel : nat) h j b st r :
  build_loop n fuel h j b st = Done r -> 0 <= h < SIZE_MOD -> h <= max_n b ->
  max_n b < SIZE_MOD - 1.
Proof.
  intros H Hh Hle. destruct (decide (max_n b < SIZE_MOD - 1)); [done|].
  exfalso. eapply build_loop_no_exit; [|exact Hh|exact H]. lia.
Qed.

(** What a completed run of the loop from hypothesis [h] leaves behind:
    nothing but [nk_table] and [pr_failure] is written, and only from [h] on;
    every hypothesis [h .. max_n] has its failure probability recorded, at
    most its significance level. *)
Lemma build_loop_Done (n fuel : nat) h j b st b' st' :
  build_loop n fuel h j b st = Done (b', st') -> 0 <= h < SIZE_MOD ->
  max_n b' = max_n b /\ confidence b' = confidence b /\
  ak_table b' = ak_table b /\ state b' = state b /\
  plen (nk_table b') = plen (nk_table b) /\
  plen (pr_failure b') = plen (pr_failure b) /\
  (forall k, k < h -> load (nk_table b') k = load (nk_table b) k) /\
  (forall k, k < h -> load (pr_failure b') k = load (pr_failure b) k) /\
  (forall k, h <= k <= max_n b ->
     exists pr ak, load (pr_failure b') k = Done pr /\
                   load (ak_table b) k = Done ak /\ p_le pr ak = true) /\
  (forall k, h <= k <= max_n b ->
     exists v, load (nk_table b') k = Done v /\ is_size v).
Proof.
  revert h j b st. induction n as [|n IH]; intros h j b st H Hh; [discriminate|].
  destruct (decide (h <= max_n b)) as [Hle|Hgt].
  - assert (max_n b < SIZE_MOD - 1) as Hmax by eauto using build_loop_max.
    apply build_loop_step in H as (cur & st1 & w & t & _ & Hw & Ht & H); [|done].
    apply walk_Done in Hw as (ak & pr & Hak & Hp & Hpr & Hb & _). simpl in *.
    rewrite Hb in *. simpl in *.
    rewrite wrap_small in H by lia.
    apply IH in H as (H1 & H2 & H3 & H4 & H5 & H6 & H7 & H8 & H9 & H10); [|lia].
    simpl in *. split_and!; auto.
    + rewrite H5. eauto using plen_store.
    + rewrite H6. eauto using plen_store.
    + intros k Hk. rewrite H7 by lia. eapply load_store_ne; [eauto|lia].
    + intros k Hk. rewrite H8 by lia. eapply load_store_ne; [eauto|lia].
    + intros k Hk. destruct (decide (k = h)) as [->|Hne].
      * exists (w_cur_state w), ak. rewrite H8 by lia.
        split_and!; eauto using load_store_eq.
      * apply H9. lia.
    + intros k Hk. destruct (decide (k = h)) as [->|Hne].
      * eexists. rewrite H7 by lia. split; [eauto using load_store_eq|].
        apply wrap_range.
      * apply H10. lia.
  - apply build_loop_exit in H as [-> ->]; [|lia].
    split_and!; auto; intros k Hk; lia.
Qed.

(** *** The allocator *)

Lemma load_resize {X : Type} (junk : nat -> X) (old : list X) (n : nat) (i : Z) :
  i < Z.of_nat n -> i < Z.of_nat (length old) ->
  load (Some (resize junk old n)) i = load (Some old) i.
Proof.
  intros H1 H2. unfold load, resize. destruct (i <? 0) eqn:E; [done|].
  rewrite lookup_app_l by (rewrite length_take; lia).
  rewrite lookup_take_lt by lia. done.
Qed.

Lemma length_resize {X : Type} (junk : nat -> X) (old : list X) (n : nat) :
  length (resize junk old n) = n.
Proof.
  unfold resize, fresh. rewrite length_app, length_take, length_fmap, length_seq. lia.
Qed.

Lemma realloc_Some {X : Type} pick (a a' : allocator) (p : ptr X) bytes sz l :
  realloc pick a p bytes sz = (Some l, a') ->
  Z.of_nat (length l) = Z.of_nat (cells bytes sz) /\
  forall i, i < Z.of_nat (cells bytes sz) -> i < plen p -> load (Some l) i = load p i.
Proof.
  unfold realloc. destruct (next_alloc a) as [e a1]. intros [= H <-].
  destruct (pick e) as [junk|]; simpl in H; [|discriminate].
  injection H as <-. rewrite length_resize. split; [done|].
  intros i H1 H2. destruct p as [old|]; simpl.
  - by apply load_resize.
  - unfold plen in H2. simpl in H2. unfold load.
    destruct (i <? 0) eqn:E; [done|lia].
Qed.

(** *** bound_init_aks *)

Lemma aks_loop_spec (n : nat) (i : Z) (a1 r : double_t) (p p' : ptr probability_t) :
  aks_loop n i a1 r p = Done p' -> 0 <= i ->
  (forall k, i <= k < i + Z.of_nat n ->
     load p' k = Done (widen (d_mul a1 (pow r (d_of_size (wrap (k - 2))))))) /\
  (forall k, k < i \/ i + Z.of_nat n <= k -> load p' k = load p k) /\
  plen p' = plen p.
Proof.
  revert i p. induction n as [|n IH]; intros i p H Hi; simpl in H.
  - inv_done. subst. split_and!; [intros; lia|done..].
  - inv_done. destruct (IH _ _ H ltac:(lia)) as (Hz & Hf & Hl).
    split_and!.
    + intros k Hk. destruct (decide (k = i)) as [->|Hne].
      * rewrite Hf by lia. eauto using load_store_eq.
      * apply Hz. lia.
    + intros k Hk. rewrite Hf by lia. eapply load_store_ne; [eauto|lia].
    + rewrite Hl. eauto using plen_store.
Qed.

Lemma bound_init_aks_spec b b' :
  bound_init_aks b = Done b' ->
  exists t, b' = set_ak_table b t /\ plen t = plen (ak_table b) /\ 2 < plen t /\
    (forall i, 0 <= i <= 2 \/ 3 <= i < wrap (max_n b + 1) ->
       load t i = Done (ak_value (confidence b) i)) /\
    (forall i, (3 <= i /\ wrap (max_n b + 1) <= i) \/ i < 0 ->
       load t i = load (ak_table b) i).
Proof.
  unfold bound_init_aks. intros H.
  apply bind_Done in H as (t0 & E0 & H). apply bind_Done in H as (t1 & E1 & H).
  apply bind_Done in H as (t2 & E2 & H). apply bind_Done in H as (t3 & E3 & H).
  injection H as <-. exists t3.
  apply aks_loop_spec in E3 as (Hs & Hf & Hl); [|lia].
  assert (plen t3 = plen (ak_table b)) as Hlen.
  { rewrite Hl. erewrite !plen_store by eauto. done. }
  split_and!; auto.
  - rewrite Hl. erewrite plen_store by eauto. apply store_in_range in E2. lia.
  - intros i [Hi|Hi].
    + rewrite Hf by lia. unfold ak_value.
      destruct (decide (i = 2)) as [->|]; [simpl; eauto using load_store_eq|].
      erewrite load_store_ne by (eauto || lia).
      destruct (decide (i = 1)) as [->|]; [simpl; eauto using load_store_eq|].
      erewrite load_store_ne by (eauto || lia).
      assert (i = 0) as -> by lia. simpl. eauto using load_store_eq.
    + unfold ak_value. destruct (i <? 2) eqn:?; [lia|].
      destruct (i =? 2) eqn:?; [lia|]. apply Hs.
      pose proof (wrap_range (max_n b + 1)). lia.
  - intros i Hi. rewrite Hf.
    + erewrite !load_store_ne by (eauto || lia). done.
    + pose proof (wrap_range (max_n b + 1)). lia.
Qed.

(** *** reallocate_bound *)

Lemma realloc_extends {X : Type} pick (a a' : allocator) (p : ptr X) bytes sz l :
  realloc pick a p bytes sz = (Some l, a') -> extends p (Some l).
Proof.
  intros [Hl Hi]%realloc_Some. split; [done|].
  intros i H1 H2. apply Hi; [|done]. unfold plen in H1. simpl in H1. lia.
Qed.

Lemma reallocate_bound_true a b st e b1 st1 a1 :
  reallocate_bound a b st e = (true, b1, st1, a1) ->
  confidence b1 = confidence b /\ max_n b1 = max_n b /\ state b1 = state b /\
  extends (first st) (first st1) /\ extends (second st) (second st1) /\
  extends (nk_table b) (nk_table b1) /\ extends (ak_table b) (ak_table b1) /\
  extends (pr_failure b) (pr_failure b1) /\
  plen (nk_table b1) <= SIZE_MOD / sizeof_size_t.
Proof.
  unfold reallocate_bound.
  destruct (realloc _ a (first st) _ _) as [[f|] a2] eqn:E1; [|intros [=]].
  simpl. destruct (realloc _ a2 (second st) _ _) as [[s|] a3] eqn:E2; [|intros [=]].
  simpl. destruct (realloc _ a3 (nk_table b) _ _) as [[t1|] a4] eqn:E3; [|intros [=]].
  simpl. destruct (realloc _ a4 (ak_table b) _ _) as [[t2|] a5] eqn:E4; [|intros [=]].
  simpl. destruct (realloc _ a5 (pr_failure b) _ _) as [[t3|] a6] eqn:E5; [|intros [=]].
  intros [= <- <- <-]. simpl. split_and!; eauto using realloc_extends.
  apply realloc_Some in E3 as [Hl _]. unfold plen. simpl. rewrite Hl.
  unfold cells. pose proof (wrap_range (wrap (e + 1) * sizeof_size_t)) as Hw.
  unfold sizeof_size_t, SIZE_MOD in *. rewrite Z2Nat.id by (apply Z.div_pos; lia).
  apply Z.div_le_mono; lia.
Qed.

(** A failed [realloc] has overwritten the pointer it was to grow. *)
Lemma reallocate_bound_false a b st e b1 st1 a1 :
  reallocate_bound a b st e = (false, b1, st1, a1) ->
  max_n b1 = max_n b /\ confidence b1 = confidence b /\
  (first st1 = None \/ second st1 = None \/ nk_table b1 = None \/
   ak_table b1 = None \/ pr_failure b1 = None).
Proof.
  unfold reallocate_bound.
  destruct (realloc _ a (first st) _ _) as [[f|] a2] eqn:E1;
    [|intros [= <- <- <-]; simpl; split_and!; auto 6].
  simpl. destruct (realloc _ a2 (second st) _ _) as [[s|] a3] eqn:E2;
    [|intros [= <- <- <-]; simpl; split_and!; auto 6].
  simpl. destruct (realloc _ a3 (nk_table b) _ _) as [[t1|] a4] eqn:E3;
    [|intros [= <- <- <-]; simpl; split_and!; auto 6].
  simpl. destruct (realloc _ a4 (ak_table b) _ _) as [[t2|] a5] eqn:E4;
    [|intros [= <- <- <-]; simpl; split_and!; auto 6].
  simpl. destruct (realloc _ a5 (pr_failure b) _ _) as [[t3|] a6] eqn:E5;
    [intros [=]|intros [= <- <- <-]; simpl; split_and!; auto 6].
Qed.

(** A hypothesis cannot be built through a NULL pointer. *)
Lemma build_loop_not_null (n fuel : nat) h j b st r :
  build_loop n fuel h j b st = Done r -> h <= max_n b -> 1 <= max_n b ->
  first st <> None /\ second st <> None /\ nk_table b <> None /\
  ak_table b <> None /\ pr_failure b <> None.
Proof.
  destruct n; [discriminate|]. destruct r as [b' st']. intros H Hh Hm.
  apply build_loop_step in H as (cur & st1 & w & t & Hi & Hw & Ht & _); [|done].
  apply walk_Done in Hw as (ak & pr & Hak & _ & Hpr & Hb & _). simpl in *.
  rewrite Hb in Ht. simpl in Ht.
  apply store_not_null in Ht as [? _]. apply store_not_null in Hpr as [? _].
  apply load_Done in Hak as (l & Hl & _).
  unfold init_state in Hi.
  apply bind_Done in Hi as (f & Ef & Hi). apply bind_Done in Hi as (s0 & Es & _).
  apply store_not_null in Es as [? _].
  destruct (Z.to_nat (max_n b)) as [|m] eqn:Em; [lia|]. simpl in Ef.
  apply bind_Done in Ef as (f0 & Ef & _). apply store_not_null in Ef as [? _].
  split_and!; congruence.
Qed.

(** *** bound_build, case by case *)

Lemma bound_build_null fuel a b e :
  nk_table b = None \/ state b = None ->
  bound_build fuel a (Some b) e = Done (Some b, a).
Proof. unfold bound_build. intros [->| ->]; [done|]. by destruct (nk_table b). Qed.

Lemma bound_build_rebuild fuel a b st e r a' :
  bound_build fuel a (Some b) e = Done (r, a') ->
  e <= max_n b -> nk_table b <> None -> state b = Some st ->
  exists b1 st1, build_loop fuel fuel HSTART 0 b st = Done (b1, st1) /\
                 r = Some (set_state b1 (Some st1)) /\ a' = a.
Proof.
  unfold bound_build. intros H He Hnk Hst. rewrite Hst in H.
  destruct (nk_table b); [|done].
  destruct (max_n b <? e) eqn:E; [lia|]. simpl in H.
  apply bind_Done in H as ([b1 st1] & E1 & H). injection H as <- <-. eauto.
Qed.

Lemma bound_build_grow fuel a b st e r a' :
  bound_build fuel a (Some b) e = Done (r, a') ->
  max_n b < e -> nk_table b <> None -> state b = Some st ->
  exists ok b1 st1 a1 b2 h b3 st3,
    reallocate_bound a b st e = (ok, b1, st1, a1) /\
    (if ok then bound_init_aks (set_max_n b1 e) = Done b2 /\ h = wrap (max_n b + 1)
     else b2 = b1 /\ h = HSTART) /\
    build_loop fuel fuel h 0 b2 st1 = Done (b3, st3) /\
    r = Some (set_state b3 (Some st3)) /\ a' = a1.
Proof.
  unfold bound_build. intros H He Hnk Hst. rewrite Hst in H.
  destruct (nk_table b); [|done].
  destruct (max_n b <? e) eqn:E; [|lia].
  destruct (reallocate_bound a b st e) as [[[ok b1] st1] a1] eqn:Er.
  destruct ok.
  - apply reallocate_bound_true in Er as Hr. destruct Hr as (_ & Hm & _).
    apply bind_Done in H as ([[[h b2] st2] a2] & E1 & H).
    apply bind_Done in E1 as (b2' & E2 & E1). injection E1 as <- <- <- <-.
    apply bind_Done in H as ([b3 st3] & E3 & H). injection H as <- <-.
    exists true, b1, st1, a1, b2', (wrap (max_n b + 1)), b3, st3.
    rewrite <- Hm. split_and!; auto.
  - simpl in H. apply bind_Done in H as ([b3 st3] & E3 & H). injection H as <- <-.
    exists false, b1, st1, a1, b1, HSTART, b3, st3. split_and!; auto.
Qed.

(** *** bound_create *)

Lemma calloc_Some {X : Type} (zero : X) (a a' : allocator) count sz l :
  calloc zero a count sz = (Some l, a') ->
  l = replicate (Z.to_nat count) zero /\ count * sz < SIZE_MOD.
Proof.
  unfold calloc. destruct (next_alloc a) as [[|js jp] a1]; [intros [=]|].
  destruct (SIZE_MOD <=? count * sz) eqn:E; intros [= <- <-]. split; [done|lia].
Qed.

Lemma load_replicate {X : Type} (x : X) (n : nat) (i : Z) :
  0 <= i < Z.of_nat n -> load (Some (replicate n x)) i = Done x.
Proof.
  intros Hi. unfold load. destruct (i <? 0) eqn:E; [lia|].
  rewrite lookup_replicate_2; [done|lia].
Qed.

Lemma bound_state_create_Some a n st a' :
  bound_state_create a n = (Some st, a') -> first st <> None /\ second st <> None.
Proof.
  unfold bound_state_create, malloc.
  destruct (next_alloc a) as [[|js jp] a1]; [intros [=]|].
  destruct (next_alloc a1) as [[|js1 jp1] a2]; simpl; [intros [=]|].
  destruct (next_alloc a2) as [[|js2 jp2] a3]; simpl; [intros [=]|].
  intros [= <- <-]. done.
Qed.

(** The table as [bound_create] hands it to [bound_build]. *)
Lemma bound_create_Done fuel a c n mb b a' :
  bound_create fuel a c n mb = Done (Some b, a') ->
  exists b0 a0,
    confidence b0 = node_confidence c mb /\ max_n b0 = n /\
    2 < wrap (n + 1) /\
    (forall k, 0 <= k < wrap (n + 1) -> load (nk_table b0) k = Done 0) /\
    (forall k, 0 <= k < wrap (n + 1) ->
       load (ak_table b0) k = Done (ak_value (confidence b0) k)) /\
    nk_table b0 <> None /\ state b0 <> None /\
    plen (nk_table b0) <= SIZE_MOD / sizeof_size_t /\
    bound_build fuel a0 (Some b0) n = Done (Some b, a').
Proof.
  unfold bound_create. destruct (next_alloc a) as [[|js jp] a1]; [intros [=]|].
  destruct (calloc 0 a1 _ _) as [[nk|] a2] eqn:E1; [|intros [=]].
  destruct (calloc _ a2 _ _) as [[ak|] a3] eqn:E2; [|intros [=]].
  destruct (calloc _ a3 _ _) as [[pr|] a4] eqn:E3; [|intros [=]].
  destruct (bound_state_create a4 n) as [[st|] a5] eqn:E4; [|intros [=]].
  intros H. apply bind_Done in H as (nk1 & En1 & H).
  apply bind_Done in H as (nk2 & En2 & H). apply bind_Done in H as (b0 & Eb & H).
  apply calloc_Some in E1 as [-> Hsz]. apply calloc_Some in E2 as [-> _].
  pose proof (wrap_range (n + 1)) as Hw.
  apply bound_init_aks_spec in Eb as (t & -> & Hlen & H2 & Hak & _).
  cbn [ak_table max_n confidence] in Hlen, Hak.
  assert (plen t = wrap (n + 1)) as Hlen'.
  { rewrite Hlen. unfold plen. simpl. rewrite length_replicate. lia. }
  rewrite Hlen' in H2. clear Hlen.
  exists (set_ak_table
            {| confidence := node_confidence c mb; max_n := n; nk_table := nk2;
               ak_table := Some (replicate (Z.to_nat (wrap (n + 1))) (widen d_zero));
               pr_failure := Some pr; state := Some st |} t), a5.
  cbn [confidence max_n nk_table ak_table state set_ak_table].
  split_and!; auto; try lia.
  - intros k Hk. destruct (decide (k = 1)) as [->|]; [eauto using load_store_eq|].
    erewrite load_store_ne by (eauto || lia).
    destruct (decide (k = 0)) as [->|]; [eauto using load_store_eq|].
    erewrite load_store_ne by (eauto || lia). apply load_replicate. lia.
  - intros k Hk. apply Hak. lia.
  - apply store_not_null in En2 as [_ ?]. done.
  - erewrite !plen_store by eauto. unfold plen. simpl.
    rewrite length_replicate, Z2Nat.id by lia.
    unfold sizeof_size_t, SIZE_MOD in *. apply Z.div_le_lower_bound; lia.
Qed.

(** *** The invariant of the tables a caller holds *)

Lemma extends_load {X : Type} (p p' : ptr X) (i : Z) (x : X) :
  extends p p' -> load p i = Done x -> i < plen p' -> load p' i = Done x.
Proof.
  intros [_ H] Hl Hi. rewrite H; [done|done|]. apply load_in_plen in Hl. lia.
Qed.

Lemma table_inv_create fuel a c n mb b a' :
  is_size n -> bound_create fuel a c n mb = Done (Some b, a') -> table_inv b.
Proof.
  intros Hn H.
  apply bound_create_Done in H
    as (b0 & a0 & Hc & Hm & H2 & Hnk & Hak & Hn0 & Hs0 & Hlen & H).
  assert (wrap (n + 1) = n + 1) as Hw.
  { unfold is_size in Hn. destruct (decide (n + 1 = SIZE_MOD)) as [E|E].
    - rewrite E in H2. unfold wrap in H2. rewrite Z.mod_same in H2 by done. lia.
    - apply wrap_small. lia. }
  rewrite Hw in *.
  destruct (state b0) as [st0|] eqn:Est; [|done].
  eapply bound_build_rebuild in H as (b1 & st1 & H & [= ->] & _); eauto; [|lia].
  pose proof H as Hmax. apply build_loop_max in Hmax; [|done|unfold HSTART; lia].
  apply build_loop_Done in H
    as (H1 & H3 & H4 & H5 & H6 & H7 & H8 & H9 & H10 & H11); [|done].
  unfold HSTART in *. unfold table_inv. simpl.
  rewrite H1, H3, H4, Hm. split_and!; auto; try lia.
  - destruct (H11 2) as (v & Hv & _); [lia|].
    apply load_Done in Hv as (l & -> & _). done.
  - intros i Hi. apply Hak. lia.
  - intros h Hh. destruct (H10 h) as (pr & ak & Hp & Ha & Hle); [lia|].
    rewrite Hak in Ha by lia. injection Ha as <-. eauto.
  - rewrite H8 by lia. apply Hnk. lia.
  - rewrite H8 by lia. apply Hnk. lia.
  - intros h Hh. apply H11. lia.
Qed.

Lemma table_inv_build fuel a b e b' a' :
  table_inv b -> is_size e ->
  bound_build fuel a (Some b) e = Done (Some b', a') -> table_inv b'.
Proof.
  intros (Hm & Hnk & Hst & Hak & Hpr & Hnk0 & Hnk1 & Hnkv & Hlen) He H.
  destruct (state b) as [st|] eqn:Est; [|done].
  destruct (decide (e <= max_n b)) as [Hle|Hgt].
  - eapply bound_build_rebuild in H as (b1 & st1 & H & [= ->] & _); eauto.
    apply build_loop_Done in H
      as (H1 & H3 & H4 & H5 & H6 & H7 & H8 & H9 & H10 & H11); [|done].
    unfold HSTART in *. unfold table_inv. simpl.
    rewrite H1, H3, H4. split_and!; auto; try lia.
    + destruct (H11 2) as (v & Hv & _); [lia|].
      apply load_Done in Hv as (l & -> & _). done.
    + intros h Hh. destruct (H10 h) as (pr & ak & Hp & Ha & Hl); [lia|].
      rewrite Hak in Ha by lia. injection Ha as <-. eauto.
    + by rewrite H8 by lia.
    + by rewrite H8 by lia.
  - eapply bound_build_grow in H
      as (ok & b1 & st1 & a1 & b2 & h & b3 & st3 & Hr & Hok & H & [= ->] & _);
      eauto; [|lia].
    destruct ok.
    + destruct Hok as [Hi ->].
      apply reallocate_bound_true in Hr
        as (Hc1 & Hm1 & _ & _ & _ & Xnk & Xak & Xpr & Hlen1).
      apply bound_init_aks_spec in Hi as (t & -> & _ & _ & Hak2 & _).
      rewrite wrap_small in H by (unfold SIZE_MOD in *; lia).
      pose proof H as Hmax. apply build_loop_max in Hmax;
        [|unfold SIZE_MOD in *; lia|simpl; lia].
      apply build_loop_Done in H
        as (H1 & H3 & H4 & H5 & H6 & H7 & H8 & H9 & H10 & H11);
        [|unfold SIZE_MOD in *; lia].
      simpl in *. rewrite wrap_small in Hak2 by lia. rewrite Hc1 in Hak2.
      assert (e < plen (nk_table b1)) as Lnk.
      { destruct (H11 e) as (v & Hv & _); [lia|].
        apply load_in_plen in Hv. lia. }
      assert (e < plen (pr_failure b1)) as Lpr.
      { destruct (H10 e) as (pr & ak & Hv & _); [lia|].
        apply load_in_plen in Hv. lia. }
      unfold table_inv. simpl. rewrite H1, H3, H4, Hc1. simpl.
      split_and!; auto; try lia.
      * destruct (H11 e) as (v & Hv & _); [lia|].
        apply load_Done in Hv as (l & -> & _). done.
      * intros i Hi. apply Hak2. lia.
      * intros k Hk. destruct (decide (k <= max_n b)).
        -- destruct (Hpr k) as (pr & Hp & Hl); [lia|].
           exists pr. split; [|done]. rewrite H9 by lia.
           eapply extends_load; eauto. lia.
        -- destruct (H10 k) as (pr & ak & Hp & Ha & Hl); [lia|].
           rewrite Hak2 in Ha by lia. injection Ha as <-. eauto.
      * rewrite H8 by lia. eapply extends_load; eauto. lia.
      * rewrite H8 by lia. eapply extends_load; eauto. lia.
      * intros k Hk. destruct (decide (k <= max_n b)).
        -- destruct (Hnkv k) as (v & Hv & Hs); [lia|].
           exists v. split; [|done]. rewrite H8 by lia.
           eapply extends_load; eauto. lia.
        -- apply H11. lia.
    + destruct Hok as [-> ->].
      apply reallocate_bound_false in Hr as (Hm1 & _ & Hnull).
      apply build_loop_not_null in H; unfold HSTART; [|lia..].
      destruct H as (? & ? & ? & ? & ?).
      destruct Hnull as [?|[?|[?|[?|?]]]]; congruence.
Qed.

Lemma built_inv b : built b -> table_inv b.
Proof.
  induction 1 as [fuel a c n mb b a' Hn Hmb Hc|fuel a b e b' a' Hb IH He Hbuild].
  - exact (table_inv_create _ _ _ _ _ _ _ Hn Hc).
  - exact (table_inv_build _ _ _ _ _ _ IH He Hbuild).
Qed.

(** *** Where a walk can stop

    For a hypothesis [h >= 3] the stopping test is only reached with
    [jstart = h - 1], which takes an absorption in column [h - 2], at the
    probe count recorded for hypothesis [h - 1]. *)

Lemma column_jstart (n : nat) h w w' :
  column n h w = Done w' -> 0 <= w_j w -> w_j w + Z.of_nat n < SIZE_MOD ->
  w_j w' = w_j w + Z.of_nat n /\
  (w_jstart w' = w_jstart w \/
   (w_j w < w_jstart w' <= w_j w + Z.of_nat n /\
    load (nk_table (w_bound w)) (w_jstart w')
      = Done (NUM_PROBES (w_i w) (w_jstart w' - 1)))).
Proof.
  revert w. induction n as [|n IH]; intros w H H0 Hn; simpl in H.
  - injection H as <-. split; [lia|auto].
  - apply bind_Done in H as (cur & Ec & H). apply bind_Done in H as (nk & Enk & H).
    rewrite wrap_small in * by (unfold SIZE_MOD in *; lia).
    case_decide as Habs.
    + apply bind_Done in H as (s & Es & H). apply bind_Done in H as (f & Ef & H).
      apply IH in H as [Hj Hjs]; simpl in *; [|lia..].
      split; [lia|]. right. destruct Hjs as [->|[Hr Hl]].
      * split; [lia|]. rewrite Enk, <- Habs. do 2 f_equal. lia.
      * split; [lia|done].
    + apply bind_Done in H as (s & Es & H).
      apply IH in H as [Hj Hjs]; simpl in *; [|lia..].
      split; [lia|]. destruct Hjs as [->|[Hr Hl]]; [auto|].
      right. split; [lia|done].
Qed.

Lemma walk_stops_later (fuel : nat) h prev w w' :
  walk fuel h w = Done w' ->
  3 <= h < WALK_LIMIT -> w_i w + Z.of_nat fuel <= WALK_LIMIT ->
  load (nk_table (w_bound w)) (h - 1) = Done prev ->
  walk_inv h prev w ->
  (w_i w = 1 -> h = 3 -> forall ak, load (ak_table (w_bound w)) h = Done ak ->
                                    p_le (w_cur_state w) ak = false) ->
  prev < wrap (NUM_PROBES (w_i w') (w_j w') - 2).
Proof.
  unfold WALK_LIMIT.
  revert w. induction fuel as [|fuel IH]; intros w H Hh Hf Hprev Hinv H1;
    [discriminate|].
  simpl in H. apply bind_Done in H as ([continue b1] & Ec & H).
  destruct Hinv as (Hi & Hone & Htwo).
  destruct continue.
  - apply continue_condition_true in Ec as ->.
    apply bind_Done in H as (wc & Ecol & H).
    pose proof (column_frame _ _ _ _ Ecol) as [Hb Hci]. simpl in Hb, Hci.
    assert (1 <= w_jstart w <= h) as Hjs.
    { destruct (decide (w_i w = 1)) as [E|E]; [rewrite (Hone E); lia|].
      apply Htwo. lia. }
    apply column_jstart in Ecol as [Hj Hjs']; simpl in *;
      [|lia|unfold SIZE_MOD; lia].
    rewrite Z2Nat.id in * by lia.
    apply IH in H; simpl; auto.
    + rewrite wrap_small by (unfold SIZE_MOD; lia). lia.
    + by rewrite Hb.
    + unfold walk_inv. simpl.
      rewrite wrap_small by (unfold SIZE_MOD; lia). split_and!; [lia..|].
      intros _. case_decide as E1.
      * split; [lia|]. split; [lia|]. intros _. rewrite Hj. lia.
      * assert (2 <= w_i w) as Hge by lia.
        destruct (Htwo Hge) as (_ & Ha & Hb').
        destruct Hjs' as [Heq|[Hr Hl]].
        -- rewrite Heq. split; [lia|]. split; intros ?; [|lia].
           specialize (Ha ltac:(done)). lia.
        -- split; [lia|]. split; intros E2; [|lia].
           rewrite E2, Hprev in Hl. injection Hl as ->.
           unfold NUM_PROBES. rewrite wrap_small by (unfold SIZE_MOD; lia). lia.
    + rewrite wrap_small by (unfold SIZE_MOD; lia). lia.
  - injection H as <-. simpl.
    apply continue_condition_false in Ec as (Hjs & ak & pr & Hak & Hle & _).
    rewrite wrap_small in Hjs by (unfold SIZE_MOD; lia).
    destruct (decide (w_i w = 1)) as [E|E].
    + rewrite H1 in Hle; [discriminate|done| |done]. specialize (Hone E). lia.
    + destruct (Htwo ltac:(lia)) as (_ & Ha & Hb').
      specialize (Ha Hjs). rewrite Hb' by lia.
      unfold NUM_PROBES.
      rewrite (wrap_small (w_i w + h - 1)) by (unfold SIZE_MOD; lia).
      rewrite wrap_small by (unfold SIZE_MOD; lia). lia.
Qed.

Lemma build_loop_increasing (n fuel : nat) h j b st b' st' :
  build_loop n fuel h j b st = Done (b', st') ->
  2 <= h -> Z.of_nat fuel < WALK_LIMIT -> max_n b < WALK_LIMIT ->
  (forall ak, load (ak_table b) 3 = Done ak -> p_le (widen d_one) ak = false) ->
  (3 <= h -> exists u, load (nk_table b) (h - 1) = Done u) ->
  forall k, 3 <= k -> h <= k <= max_n b ->
    exists u v, load (nk_table b') (k - 1) = Done u /\
                load (nk_table b') k = Done v /\ u < v.
Proof.
  unfold WALK_LIMIT.
  revert h j b st. induction n as [|n IH];
    intros h j b st H Hh Hf Hm Hak Hprev k Hk3 Hk; [discriminate|].
  apply build_loop_step in H as (cur & st1 & w & t & Hi & Hw & Ht & H); [|lia].
  pose proof (walk_Done _ _ _ _ Hw) as (ak & pr & _ & _ & _ & Hb & _).
  simpl in Hb. rewrite Hb in *. simpl in *.
  rewrite wrap_small in H by (unfold SIZE_MOD; lia).
  pose proof (build_loop_Done _ _ _ _ _ _ _ _ H ltac:(unfold SIZE_MOD; lia))
    as (_ & _ & _ & _ & _ & _ & H8 & _).
  simpl in H8.
  destruct (decide (k = h)) as [->|Hne].
  - destruct (Hprev Hk3) as (u & Hu).
    exists u, (wrap (NUM_PROBES (w_i w) (w_j w) - 2)).
    rewrite !H8 by lia. split_and!.
    + erewrite load_store_ne by (eauto || lia). done.
    + eauto using load_store_eq.
    + apply init_state_spec in Hi as (-> & _).
      eapply (walk_stops_later fuel h u _ w Hw); simpl; auto; try lia.
      * unfold WALK_LIMIT. lia.
      * unfold WALK_LIMIT. lia.
      * unfold walk_inv. simpl. split_and!; [lia|done|lia].
      * intros _ ->. apply Hak.
  - eapply (IH (h + 1) (w_j w) _ _ H); simpl; auto; try lia.
    intros _. replace (h + 1 - 1) with h by lia. eauto using load_store_eq.
Qed.

Lemma built_in_built limit b : built_in limit b -> built b.
Proof.
  induction 1 as [fuel a c n mb b a' Hf Hn Hmb Hc
                 |fuel a b e b' a' Hf Hb IH He Hbuild].
  - exact (built_create _ _ _ _ _ _ _ Hn Hmb Hc).
  - exact (built_build _ _ _ _ _ _ IH He Hbuild).
Qed.

Lemma table_inv_max_n b : table_inv b -> max_n b < WALK_LIMIT.
Proof.
  intros (Hm & _ & _ & _ & _ & _ & _ & Hnk & Hlen).
  destruct (Hnk (max_n b)) as (v & Hv & _); [lia|].
  apply load_in_plen in Hv. unfold WALK_LIMIT.
  assert (SIZE_MOD / sizeof_size_t = 2305843009213693952) as E by reflexivity.
  rewrite E in Hlen. lia.
Qed.

Lemma bound_build_confidence fuel a b e b' a' :
  bound_build fuel a (Some b) e = Done (Some b', a') ->
  confidence b' = confidence b.
Proof.
  intros H. destruct (nk_table b) as [l|] eqn:Enk;
    [|rewrite bound_build_null in H by auto; by injection H as ->].
  destruct (state b) as [st|] eqn:Est;
    [|rewrite bound_build_null in H by auto; by injection H as ->].
  destruct (decide (e <= max_n b)).
  - eapply bound_build_rebuild in H as (b1 & st1 & H & [= ->] & _);
      eauto; [|congruence].
    apply build_loop_Done in H as (_ & H & _); [done|done].
  - eapply bound_build_grow in H
      as (ok & b1 & st1 & a1 & b2 & h & b3 & st3 & Hr & Hok & H & [= ->] & _);
      eauto; [|lia|congruence].
    assert (0 <= h < SIZE_MOD) as Hh.
    { destruct ok; destruct Hok as [_ ->]; [apply wrap_range|done]. }
    apply build_loop_Done in H as (_ & H & _); [|done]. simpl. rewrite H.
    destruct ok.
    + destruct Hok as [Hi _].
      apply reallocate_bound_true in Hr as (Hc & _).
      apply bound_init_aks_spec in Hi as (t & -> & _). done.
    + destruct Hok as [-> _]. by apply reallocate_bound_false in Hr as (_ & Hc & _).
Qed.

Lemma increasing_create fuel a c n mb b a' :
  is_size n -> Z.of_nat fuel < WALK_LIMIT ->
  bound_create fuel a c n mb = Done (Some b, a') ->
  below_one (confidence b) -> increasing b.
Proof.
  intros Hn Hf H Hb1.
  pose proof (table_inv_create _ _ _ _ _ _ _ Hn H) as Hinv.
  pose proof (table_inv_max_n _ Hinv) as Hmax.
  destruct Hinv as (Hm & _ & _ & Hak & _).
  apply bound_create_Done in H
    as (b0 & a0 & Hc & Hm0 & H2 & Hnk & Hak0 & Hn0 & Hs0 & Hlen & H).
  destruct (state b0) as [st0|] eqn:Est; [|done].
  eapply bound_build_rebuild in H as (b1 & st1 & H & [= ->] & _); eauto; [|lia].
  pose proof (build_loop_Done _ _ _ _ _ _ _ _ H ltac:(done))
    as (H1 & H3 & H4 & _).
  intros k Hk. simpl in *.
  eapply (build_loop_increasing _ _ _ _ _ _ _ _ H); unfold HSTART; try lia.
  intros ak Ha. rewrite <- H4, Hak in Ha by lia. injection Ha as <-. done.
Qed.

Lemma increasing_build fuel a b e b' a' :
  table_inv b -> increasing b -> is_size e -> Z.of_nat fuel < WALK_LIMIT ->
  bound_build fuel a (Some b) e = Done (Some b', a') ->
  below_one (confidence b) -> increasing b'.
Proof.
  intros Hinv Hinc He Hf H Hb1.
  pose proof (table_inv_build _ _ _ _ _ _ Hinv He H) as Hinv'.
  pose proof (table_inv_max_n _ Hinv') as Hmax'.
  destruct Hinv as (Hm & Hnk & Hst & Hak & Hpr & Hnk0 & Hnk1 & Hnkv & Hlen).
  destruct (state b) as [st|] eqn:Est; [|done].
  destruct (decide (e <= max_n b)) as [Hle|Hgt].
  - eapply bound_build_rebuild in H as (b1 & st1 & H & [= ->] & _); eauto.
    pose proof (build_loop_Done _ _ _ _ _ _ _ _ H ltac:(done)) as (H1 & _).
    intros k Hk. simpl in *.
    eapply (build_loop_increasing _ _ _ _ _ _ _ _ H); unfold HSTART; try lia.
    intros ak Ha. rewrite Hak in Ha by lia. injection Ha as <-. done.
  - eapply bound_build_grow in H
      as (ok & b1 & st1 & a1 & b2 & h & b3 & st3 & Hr & Hok & H & [= ->] & _);
      eauto; [|lia].
    destruct ok.
    + destruct Hok as [Hi ->].
      apply reallocate_bound_true in Hr
        as (Hc1 & Hm1 & _ & _ & _ & Xnk & _ & _ & _).
      apply bound_init_aks_spec in Hi as (t & -> & _ & _ & Hak2 & _).
      rewrite wrap_small in H by (unfold SIZE_MOD in *; lia).
      pose proof (build_loop_Done _ _ _ _ _ _ _ _ H
                    ltac:(unfold SIZE_MOD in *; lia))
        as (H1 & _ & _ & _ & H6 & _ & H8 & _ & _ & H11).
      simpl in *.
      assert (e < SIZE_MOD - 1) as He1 by (unfold WALK_LIMIT, SIZE_MOD in *; lia).
      rewrite wrap_small in Hak2 by lia. rewrite Hc1 in Hak2.
      assert (e < plen (nk_table b1)) as Lnk.
      { destruct (H11 e) as (v & Hv & _); [lia|].
        apply load_in_plen in Hv. lia. }
      intros k Hk. simpl in Hk. destruct (decide (k <= max_n b)).
      * destruct (Hinc k) as (u & v & Hu & Hv & Huv); [lia|].
        exists u, v. rewrite !H8 by lia.
        split_and!; [| |done]; eapply extends_load; eauto; lia.
      * eapply (build_loop_increasing _ _ _ _ _ _ _ _ H); simpl; try lia.
        -- intros ak Ha. rewrite Hak2 in Ha by lia. injection Ha as <-. done.
        -- intros _. destruct (Hnkv (max_n b)) as (u & Hu & _); [lia|].
           exists u. replace (max_n b + 1 - 1) with (max_n b) by lia.
           eapply extends_load; eauto. lia.
    + destruct Hok as [-> ->].
      apply reallocate_bound_false in Hr as (Hm1 & _ & Hnull).
      apply build_loop_not_null in H; unfold HSTART; [|lia..].
      destruct H as (? & ? & ? & ? & ?).
      destruct Hnull as [?|[?|[?|[?|?]]]]; congruence.
Qed.

Lemma built_in_increasing (limit : nat) b :
  built_in limit b -> Z.of_nat limit < WALK_LIMIT ->
  below_one (confidence b) -> increasing b.
Proof.
  induction 1 as [fuel a c n mb b a' Hf Hn Hmb Hc
                 |fuel a b e b' a' Hf Hb IH He Hbuild]; intros Hl Hb1.
  - apply (increasing_create fuel a c n mb b a' Hn); [lia|done|done].
  - pose proof (bound_build_confidence _ _ _ _ _ _ Hbuild) as Hconf.
    rewrite Hconf in Hb1.
    apply (increasing_build fuel a b e b' a'); auto; [|lia].
    apply built_inv. eapply built_in_built. eassumption.
Qed.

(** Strictly growing from hypothesis 2 on, and never negative, is
    non-decreasing from hypothesis 0 on. *)
Lemma increasing_monotone b h1 h2 :
  table_inv b -> increasing b -> 0 <= h1 -> h1 < h2 <= max_n b ->
  exists v1 v2, load (nk_table b) h1 = Done v1 /\
                load (nk_table b) h2 = Done v2 /\ v1 <= v2.
Proof.
  intros (Hm & _ & _ & _ & _ & Hnk0 & Hnk1 & Hnkv & _) Hinc Hh1 Hh2.
  assert (forall d : nat, forall h, 2 <= h -> h + Z.of_nat d <= max_n b ->
            exists v1 v2, load (nk_table b) h = Done v1 /\
                          load (nk_table b) (h + Z.of_nat d) = Done v2 /\
                          v1 <= v2) as Hchain.
  { induction d as [|d IH]; intros h Hh Hd.
    - destruct (Hnkv h) as (v & Hv & _); [lia|].
      exists v, v. rewrite Z.add_0_r. split_and!; auto. lia.
    - destruct (IH h Hh) as (v1 & v2 & Hv1 & Hv2 & Hle); [lia|].
      destruct (Hinc (h + Z.of_nat (S d))) as (u & v & Hu & Hv & Huv); [lia|].
      replace (h + Z.of_nat (S d) - 1) with (h + Z.of_nat d) in Hu by lia.
      rewrite Hv2 in Hu. injection Hu as <-.
      exists v1, v. split_and!; auto. lia. }
  destruct (decide (2 <= h1)) as [Hge|Hlt].
  - destruct (Hchain (Z.to_nat (h2 - h1)) h1) as (v1 & v2 & Hv1 & Hv2 & Hle);
      [lia|lia|].
    replace (h1 + Z.of_nat (Z.to_nat (h2 - h1))) with h2 in Hv2 by lia. eauto.
  - assert (load (nk_table b) h1 = Done 0) as H0.
    { destruct (decide (h1 = 0)) as [->|]; [done|].
      assert (h1 = 1) as -> by lia. done. }
    destruct (decide (h2 = 1)) as [->|].
    + exists 0, 0. split_and!; auto. lia.
    + destruct (Hnkv h2) as (v & Hv & Hs); [lia|].
      exists 0, v. split_and!; auto. unfold is_size in Hs. lia.
Qed.

(** *** Runs of the walk, turn by turn *)

Lemma walk_unfold (fuel : nat) h w :
  walk (S fuel) h w =
  r ← walk_turn h w;
  match r with
  | inl w' => walk fuel h w'
  | inr w' => Done w'
  end.
Proof.
  simpl. unfold walk_turn.
  destruct (continue_condition _ _ _ _) as [[[] b]| |]; simpl; try done.
  destruct (column _ _ _); done.
Qed.

Lemma walk_turns (k fuel : nat) h w w' :
  turns k h w = Some w' -> walk (k + fuel) h w = walk fuel h w'.
Proof.
  revert w. induction k as [|k IH]; intros w H; simpl in H.
  - by injection H as ->.
  - replace (S k + fuel)%nat with (S (k + fuel)) by lia. rewrite walk_unfold.
    destruct (walk_turn h w) as [[w1|w1]| |]; try discriminate. simpl. auto.
Qed.

Lemma turns_app (k1 k2 : nat) h w w1 :
  turns k1 h w = Some w1 -> turns (k1 + k2) h w = turns k2 h w1.
Proof.
  revert w. induction k1 as [|k1 IH]; intros w H; simpl in H.
  - by injection H as ->.
  - simpl. destruct (walk_turn h w) as [[w'|w']| |]; try discriminate. auto.
Qed.

Lemma swap_swap st : swap (swap st) = st.
Proof. by destruct st. Qed.

(** Once [jstart] has reached [h], no column is left to fill and the test
    that ends the loop is not made: the turns only count and swap, until
    [i] has wrapped around to 1. *)
Lemma turns_idle (k : nat) h w :
  1 <= h < SIZE_MOD -> h <= w_jstart w -> w_j w = w_jstart w ->
  2 <= w_i w < SIZE_MOD -> w_i w + Z.of_nat k <= SIZE_MOD ->
  turns k h w =
  Some {| w_i := wrap (w_i w + Z.of_nat k); w_j := w_j w; w_jstart := w_jstart w;
          w_cur_state := w_cur_state w; w_bound := w_bound w;
          w_state := if Z.even (Z.of_nat k) then w_state w else swap (w_state w) |}.
Proof.
  intros Hh Hjs Hj Hi. induction k as [|k IH]; intros Hk.
  - simpl. rewrite Z.add_0_r, wrap_small by lia. by destruct w.
  - replace (S k) with (k + 1)%nat by lia.
    rewrite (turns_app _ _ _ _ _ (IH ltac:(lia))).
    rewrite wrap_small by (unfold SIZE_MOD in *; lia).
    simpl. unfold walk_turn, continue_condition. simpl.
    rewrite (wrap_small (h - 1)) by lia.
    replace (Z.to_nat (h - w_jstart w)) with O by lia.
    repeat case_decide; try lia. simpl. rewrite Hj.
    replace (Z.of_nat (k + 1)) with (Z.succ (Z.of_nat k)) by lia.
    rewrite Z.even_succ, <- Z.negb_even.
    f_equal. f_equal; [f_equal; lia|].
    destruct (Z.even (Z.of_nat k)); simpl; [done|apply swap_swap].
Qed.

(** *** More fuel changes no result *)

Lemma walk_more_fuel (fuel fuel' : nat) h w r :
  walk fuel h w = Done r -> (fuel <= fuel')%nat -> walk fuel' h w = Done r.
Proof.
  revert fuel' w. induction fuel as [|fuel IH]; intros fuel' w H Hle;
    [discriminate|].
  destruct fuel' as [|fuel']; [lia|]. rewrite walk_unfold in *.
  destruct (walk_turn h w) as [[w1|w1]| |]; simpl in *; try done.
  apply IH; [done|lia].
Qed.

Lemma build_loop_more_fuel (n n' fuel fuel' : nat) h j b st r :
  build_loop n fuel h j b st = Done r -> (n <= n')%nat -> (fuel <= fuel')%nat ->
  build_loop n' fuel' h j b st = Done r.
Proof.
  revert n' h j b st. induction n as [|n IH]; intros n' h j b st H Hn Hf;
    [discriminate|].
  destruct n' as [|n']; [lia|]. simpl in *.
  destruct (h <=? max_n b); [|done].
  apply bind_Done in H as ([cur st1] & -> & H). simpl.
  apply bind_Done in H as (w & Hw & H).
  rewrite (walk_more_fuel _ _ _ _ _ Hw Hf). simpl.
  apply bind_Done in H as (t & -> & H). simpl.
  apply IH; [done|lia|done].
Qed.

Lemma bound_build_more_fuel (fuel fuel' : nat) a (ob : option bound_t) e r :
  bound_build fuel a ob e = Done r -> (fuel <= fuel')%nat ->
  bound_build fuel' a ob e = Done r.
Proof.
  unfold bound_build. intros H Hle. destruct ob as [b|]; [|done].
  destruct (nk_table b); [|done]. destruct (state b) as [st|]; [|done].
  apply bind_Done in H as ([[[h b1] st1] a1] & -> & H). simpl.
  apply bind_Done in H as ([b2 st2] & Hb & H).
  rewrite (build_loop_more_fuel _ _ _ _ _ _ _ _ _ Hb Hle Hle). done.
Qed.

(** Whatever the fuel, a call that returns returns the same. *)
Lemma bound_build_deterministic (fuel fuel' : nat) a (ob : option bound_t) e r r' :
  bound_build fuel a ob e = Done r -> bound_build fuel' a ob e = Done r' ->
  r = r'.
Proof.
  intros H H'.
  apply (bound_build_more_fuel _ (fuel + fuel')) in H; [|lia].
  apply (bound_build_more_fuel _ (fuel + fuel')) in H'; [|lia].
  congruence.
Qed.

(** *** Running the build loop forwards *)

Lemma build_loop_turn (n fuel : nat) h j b st cur st1 w t :
  h <= max_n b -> init_state b st = Done (cur, st1) ->
  walk fuel h {| w_i := 1; w_j := j; w_jstart := 2; w_cur_state := cur;
                 w_bound := b; w_state := st1 |} = Done w ->
  store (nk_table (w_bound w)) h (wrap (NUM_PROBES (w_i w) (w_j w) - 2)) = Done t ->
  build_loop (S n) fuel h j b st =
  build_loop n fuel (wrap (h + 1)) (w_j w) (set_nk_table (w_bound w) t) (w_state w).
Proof.
  intros Hh Hi Hw Ht. simpl. destruct (h <=? max_n b) eqn:E; [|lia].
  rewrite Hi. simpl. rewrite Hw. simpl. rewrite Ht. done.
Qed.

Lemma build_loop_end (n fuel : nat) h j b st :
  max_n b < h -> build_loop (S n) fuel h j b st = Done (b, st).
Proof. intros Hh. simpl. destruct (h <=? max_n b) eqn:E; [lia|done]. Qed.

Lemma bound_build_rebuild_run (fuel : nat) a b st e b1 st1 :
  nk_table b <> None -> state b = Some st -> e <= max_n b ->
  build_loop fuel fuel HSTART 0 b st = Done (b1, st1) ->
  bound_build fuel a (Some b) e = Done (Some (set_state b1 (Some st1)), a).
Proof.
  intros Hnk Hst He H. unfold bound_build. rewrite Hst.
  destruct (nk_table b); [|done].
  destruct (max_n b <? e) eqn:E; [lia|]. simpl. rewrite H. done.
Qed.

Lemma bound_build_grow_run (fuel : nat) a b st e b1 st1 a1 b2 b3 st3 :
  nk_table b <> None -> state b = Some st -> max_n b < e ->
  reallocate_bound a b st e = (true, b1, st1, a1) ->
  bound_init_aks (set_max_n b1 e) = Done b2 ->
  build_loop fuel fuel (wrap (max_n b1 + 1)) 0 b2 st1 = Done (b3, st3) ->
  bound_build fuel a (Some b) e = Done (Some (set_state b3 (Some st3)), a1).
Proof.
  intros Hnk Hst He Hr Hi H. unfold bound_build. rewrite Hst.
  destruct (nk_table b); [|done].
  destruct (max_n b <? e) eqn:E; [|lia]. rewrite Hr, Hi. simpl. rewrite H. done.
Qed.

(** *** bound_create and the allocator *)

Lemma next_alloc_drop (a : allocator) (k : nat) e a' :
  next_alloc a = (e, a') -> drop (S k) a = drop k a'.
Proof. destruct a; intros [= <- <-]; simpl; [by rewrite drop_nil|done]. Qed.

(** *** bound_get_nk *)

Lemma bound_get_nk_cell b k v :
  k <= max_n b -> load (nk_table b) k = Done v ->
  bound_get_nk (Some b) k = Done (v, Some b).
Proof.
  intros Hk Hv. unfold bound_get_nk.
  destruct (load_Done _ _ _ Hv) as (l & El & _). rewrite El.
  destruct (k <=? max_n b) eqn:E; [|lia]. rewrite <- El, Hv. done.
Qed.

Lemma bound_get_nk_beyond b k :
  max_n b < k -> bound_get_nk (Some b) k = Done (0, Some b).
Proof.
  intros Hk. unfold bound_get_nk. destruct (nk_table b); [|done].
  destruct (k <=? max_n b) eqn:E; [lia|done].
Qed.

Lemma bound_get_nk_frame (ob : option bound_t) k ret ob' :
  bound_get_nk ob k = Done (ret, ob') -> ob' = ob.
Proof.
  unfold bound_get_nk. destruct ob as [b|]; [|congruence].
  destruct (nk_table b) as [l|]; [|congruence].
  destruct (k <=? max_n b); [|congruence].
  destruct (load (Some l) k); simpl; congruence.
Qed.

End ProgramFacts.

(** * Facts for safety, release and printing *)

(** ** Runs that do nothing undefined *)

Lemma ensures_bind {A B : Type} (P : A -> Prop) (Q : B -> Prop)
    (m : outcome A) (f : A -> outcome B) :
  ensures P m -> (forall a, P a -> ensures Q (f a)) -> ensures Q (m ≫= f).
Proof. destruct m; simpl; auto. Qed.

Lemma ensures_mono {A : Type} (P Q : A -> Prop) (o : outcome A) :
  ensures P o -> (forall a, P a -> Q a) -> ensures Q o.
Proof. destruct o; simpl; auto. Qed.

Lemma ensures_Done {A : Type} (P : A -> Prop) (o : outcome A) (a : A) :
  ensures P o -> o = Done a -> P a.
Proof. by intros H ->. Qed.

Lemma ensures_safe {A : Type} (P : A -> Prop) (o : outcome A) :
  ensures P o -> safe o.
Proof. intros H. by apply (ensures_mono P). Qed.

Lemma load_ok {X : Type} (p : ptr X) (i : Z) :
  0 <= i < plen p -> exists x, load p i = Done x.
Proof.
  unfold plen, load. destruct p as [l|]; simpl; [|lia]. intros Hi.
  destruct (i <? 0) eqn:E; [lia|].
  destruct (lookup_lt_is_Some_2 l (Z.to_nat i)) as [x Hx]; [lia|].
  rewrite Hx. eauto.
Qed.

Lemma store_ok {X : Type} (p : ptr X) (i : Z) (x : X) :
  0 <= i < plen p -> exists p', store p i x = Done p'.
Proof.
  unfold plen, store. destruct p as [l|]; simpl; [|lia]. intros Hi.
  destruct (0 <=? i) eqn:E1; [|lia]. destruct (i <? Z.of_nat (length l)) eqn:E2; [|lia].
  simpl. eauto.
Qed.

Lemma load_Undefined {X : Type} (p : ptr X) (i : Z) :
  plen p <= i -> load p i = Undefined.
Proof.
  unfold plen, load. destruct p as [l|]; simpl; [|done]. intros Hi.
  destruct (i <? 0) eqn:E; [done|].
  rewrite lookup_ge_None_2; [done|lia].
Qed.

Lemma store_Undefined {X : Type} (p : ptr X) (i : Z) (x : X) :
  plen p <= i -> store p i x = Undefined.
Proof.
  unfold plen, store. destruct p as [l|]; simpl; [|done]. intros Hi.
  destruct (i <? Z.of_nat (length l)) eqn:E2; [lia|]. by rewrite andb_false_r.
Qed.

Section Safety.

Context `{FM : FloatModel}.

Implicit Types (b bound : bound_t) (st : bound_state_t) (w : walk_t).

Lemma plen_nonneg {X : Type} (p : ptr X) : 0 <= plen p.
Proof. unfold plen. lia. Qed.

Lemma room_swap m b st : room m b st -> room m b (swap st).
Proof. unfold room. simpl. intros (? & ? & ? & ?). split_and!; auto; lia. Qed.

Lemma zero_first_ok (n : nat) (j : Z) (p : ptr probability_t) :
  0 <= j -> j + Z.of_nat n <= plen p -> exists p', zero_first n j p = Done p'.
Proof.
  revert j p. induction n as [|n IH]; intros j p Hj Hn; simpl; [eauto|].
  destruct (store_ok p j (widen d_zero)) as [p' Hp]; [lia|]. rewrite Hp. simpl.
  apply IH; [lia|]. rewrite (plen_store _ _ _ _ Hp). lia.
Qed.

Lemma init_state_ok b st :
  max_n b <= plen (first st) -> 2 <= plen (second st) ->
  exists st', init_state b st = Done (widen d_one, st') /\
              plen (first st') = plen (first st) /\
              plen (second st') = plen (second st).
Proof.
  intros Hf Hs. unfold init_state.
  destruct (zero_first_ok (Z.to_nat (max_n b)) 0 (first st)) as [f Ef]; [lia| |].
  { pose proof (plen_nonneg (first st)). lia. }
  destruct (store_ok (second st) 0 (widen d_zero)) as [s0 E0]; [lia|].
  destruct (store_ok s0 1 (widen d_one)) as [s1 E1].
  { rewrite (plen_store _ _ _ _ E0). lia. }
  rewrite Ef. simpl. rewrite E0. simpl. rewrite E1. simpl.
  eexists. split; [done|]. simpl.
  apply zero_first_spec in Ef as (_ & _ & ->); [|lia].
  rewrite (plen_store _ _ _ _ E1), (plen_store _ _ _ _ E0). done.
Qed.

Lemma continue_condition_ok jstart h cur b m :
  0 <= h <= m -> m < plen (ak_table b) -> m < plen (pr_failure b) ->
  exists c b', continue_condition jstart h cur b = Done (c, b') /\
               forall st, room (max_n b) b st -> room (max_n b) b' st.
Proof.
  intros Hh Hak Hpr. unfold continue_condition. case_decide; [|eauto].
  destruct (load_ok (ak_table b) h) as [ak Ea]; [lia|]. rewrite Ea. simpl.
  destruct (p_le cur ak); [|eauto].
  destruct (store_ok (pr_failure b) h cur) as [pr Ep]; [lia|]. rewrite Ep. simpl.
  do 2 eexists. split; [done|]. unfold room. simpl.
  rewrite (plen_store _ _ _ _ Ep). done.
Qed.

Lemma column_ok (n : nat) h w m u :
  room m (w_bound w) (w_state w) -> m < SIZE_MOD - 1 ->
  1 <= w_j w -> w_j w + Z.of_nat n <= u -> u <= m -> 1 <= w_jstart w <= u ->
  exists w', column n h w = Done w' /\ room m (w_bound w') (w_state w') /\
             1 <= w_jstart w' <= u.
Proof.
  revert w. induction n as [|n IH]; intros w Hr Hm Hj Hn Hu Hjs; simpl; [eauto|].
  destruct Hr as (Hmax & Hlen & Hf & Hnk & Hak & Hpr).
  unfold calculate.
  destruct (load_ok (first (w_state w)) (w_j w)) as [f Ef]; [lia|].
  destruct (load_ok (second (w_state w)) (w_j w - 1)) as [s Es]; [lia|].
  destruct (load_ok (nk_table (w_bound w)) (w_j w + 1)) as [nk Enk]; [lia|].
  destruct (store_ok (second (w_state w)) (w_j w) (widen d_zero)) as [s0 Es0]; [lia|].
  destruct (store_ok (first (w_state w)) (w_j w) (widen d_zero)) as [f0 Ef0]; [lia|].
  rewrite !wrap_small by (unfold SIZE_MOD in *; lia).
  rewrite Ef. simpl. rewrite Es. simpl. rewrite Enk. simpl.
  case_decide.
  - rewrite Es0. simpl. rewrite Ef0. simpl.
    apply IH; simpl; try lia.
    unfold room. simpl. rewrite (plen_store _ _ _ _ Es0), (plen_store _ _ _ _ Ef0). done.
  - match goal with |- context [store _ _ ?c] =>
      destruct (store_ok (second (w_state w)) (w_j w) c) as [s1 Es1]; [lia|] end.
    rewrite Es1. simpl.
    apply IH; simpl; try lia.
    unfold room. simpl. rewrite (plen_store _ _ _ _ Es1). done.
Qed.

Lemma walk_ok (fuel : nat) h w m :
  2 <= h <= m -> m < SIZE_MOD - 1 ->
  room m (w_bound w) (w_state w) -> 1 <= w_jstart w <= h ->
  ensures (fun w' => room m (w_bound w') (w_state w')) (walk fuel h w).
Proof.
  intros Hh Hm. revert w. induction fuel as [|fuel IH]; intros w Hr Hjs; [done|].
  simpl. pose proof Hr as (Hmax & Hlen & Hf & Hnk & Hak & Hpr).
  destruct (continue_condition_ok (w_jstart w) h (w_cur_state w) (w_bound w) m)
    as (c & b' & Ec & Hb); [lia..|].
  rewrite Ec. simpl. rewrite Hmax in Hb. specialize (Hb _ Hr).
  destruct c; [|done].
  match goal with |- context [column ?n h ?w0] =>
    destruct (column_ok n h w0 m h) as (w' & Ew & Hr' & Hjs'); simpl; try lia; auto
  end.
  rewrite Ew. simpl. apply IH; simpl.
  - by apply room_swap.
  - case_decide; lia.
Qed.

Lemma build_loop_ok (n fuel : nat) h j b st m :
  2 <= h -> 2 <= m < SIZE_MOD - 1 -> room m b st ->
  ensures (fun r => room m r.1 r.2) (build_loop n fuel h j b st).
Proof.
  intros Hh Hm. revert h j b st Hh.
  induction n as [|n IH]; intros h j b st Hh Hr; [done|].
  simpl. pose proof Hr as (Hmax & Hlen & Hf & Hnk & Hak & Hpr).
  destruct (h <=? max_n b) eqn:E; [|done].
  destruct (init_state_ok b st) as (st1 & Ei & Hl1 & Hl2); [lia..|].
  rewrite Ei. simpl.
  eapply ensures_bind.
  - apply (walk_ok fuel h _ m); simpl; try lia.
    unfold room. simpl. rewrite Hl1, Hl2. done.
  - intros w Hw. simpl in Hw. pose proof Hw as (Hmax' & Hlen' & Hf' & Hnk' & Hak' & Hpr').
    match goal with |- context [store _ _ ?c] =>
      destruct (store_ok (nk_table (w_bound w)) h c) as [t Et]; [lia|] end.
    rewrite Et. simpl. rewrite wrap_small by (unfold SIZE_MOD in *; lia).
    apply IH; [lia|]. unfold room. simpl. rewrite (plen_store _ _ _ _ Et). done.
Qed.

(** *** The scratch vectors keep their size *)

Lemma column_len (n : nat) h w w' :
  column n h w = Done w' ->
  plen (first (w_state w')) = plen (first (w_state w)) /\
  plen (second (w_state w')) = plen (second (w_state w)).
Proof.
  revert w. induction n as [|n IH]; intros w H; simpl in H.
  - by injection H as <-.
  - apply bind_Done in H as (cur & _ & H). apply bind_Done in H as (nk & _ & H).
    case_decide.
    + apply bind_Done in H as (s & Es & H). apply bind_Done in H as (f & Ef & H).
      apply IH in H as [-> ->]. simpl. eauto using plen_store.
    + apply bind_Done in H as (s & Es & H).
      apply IH in H as [-> ->]. simpl. eauto using plen_store.
Qed.

Lemma walk_len (fuel : nat) h w w' (len : Z) :
  walk fuel h w = Done w' ->
  plen (first (w_state w)) = len -> plen (second (w_state w)) = len ->
  plen (first (w_state w')) = len /\ plen (second (w_state w')) = len.
Proof.
  revert w. induction fuel as [|fuel IH]; intros w H Hf Hs; [discriminate|].
  simpl in H. apply bind_Done in H as ([c b1] & _ & H). destruct c.
  - apply bind_Done in H as (wc & Ec & H). apply column_len in Ec as [E1 E2].
    simpl in *. apply IH in H; simpl; [done|congruence..].
  - injection H as <-. done.
Qed.

Lemma build_loop_len (n fuel : nat) h j b st b' st' (len : Z) :
  build_loop n fuel h j b st = Done (b', st') -> 0 <= h < SIZE_MOD ->
  plen (first st) = len -> plen (second st) = len ->
  plen (first st') = len /\ plen (second st') = len /\
  (h <= max_n b -> max_n b <= len).
Proof.
  revert h j b st. induction n as [|n IH]; intros h j b st H Hh Hf Hs;
    [discriminate|].
  destruct (decide (h <= max_n b)) as [Hle|Hgt].
  - assert (max_n b < SIZE_MOD - 1) as Hmax by eauto using build_loop_max.
    apply build_loop_step in H as (cur & st1 & w & t & Hi & Hw & Ht & H); [|done].
    apply init_state_spec in Hi as (_ & Hz & _ & _ & _ & _ & Hl1 & Hl2).
    apply walk_len with (len := len) in Hw as [Hw1 Hw2]; simpl; [|congruence..].
    rewrite wrap_small in H by lia.
    apply IH in H as (H1 & H2 & _); [|lia|done..].
    split_and!; auto. intros _.
    destruct (decide (max_n b <= 0)) as [|Hpos]; [pose proof (plen_nonneg (first st)); lia|].
    specialize (Hz (max_n b - 1) ltac:(lia)). apply load_in_plen in Hz. lia.
  - apply build_loop_exit in H as [-> ->]; [|lia]. split_and!; auto. lia.
Qed.

(** *** bound_init_aks and reallocate_bound when the arrays are large enough *)

Lemma aks_loop_ok (n : nat) (i : Z) (a1 r : double_t) (p : ptr probability_t) :
  0 <= i -> i + Z.of_nat n <= plen p -> exists p', aks_loop n i a1 r p = Done p'.
Proof.
  revert i p. induction n as [|n IH]; intros i p Hi Hn; simpl; [eauto|].
  match goal with |- context [store _ _ ?c] =>
    destruct (store_ok p i c) as [p' Hp]; [lia|] end.
  rewrite Hp. simpl. apply IH; [lia|]. rewrite (plen_store _ _ _ _ Hp). lia.
Qed.

Lemma bound_init_aks_ok b :
  2 < plen (ak_table b) -> wrap (max_n b + 1) <= plen (ak_table b) ->
  exists t, bound_init_aks b = Done (set_ak_table b t) /\
            plen t = plen (ak_table b).
Proof.
  intros H2 Hm. unfold bound_init_aks.
  destruct (store_ok (ak_table b) 0 (widen d_zero)) as [t0 E0]; [lia|].
  destruct (store_ok t0 1 (widen d_zero)) as [t1 E1];
    [rewrite (plen_store _ _ _ _ E0); lia|].
  match goal with |- context [store _ 2 ?c] =>
    destruct (store_ok t1 2 c) as [t2 E2];
      [rewrite (plen_store _ _ _ _ E1), (plen_store _ _ _ _ E0); lia|] end.
  assert (plen t2 = plen (ak_table b)) as Hl.
  { by rewrite (plen_store _ _ _ _ E2), (plen_store _ _ _ _ E1),
               (plen_store _ _ _ _ E0). }
  rewrite E0. simpl. rewrite E1. simpl. rewrite E2. simpl.
  match goal with |- context [aks_loop ?n 3 ?a ?r t2] =>
    destruct (aks_loop_ok n 3 a r t2) as [t3 E3]; [lia|lia|] end.
  rewrite E3. simpl. exists t3. split; [done|].
  apply aks_loop_spec in E3 as (_ & _ & ->); [done|lia].
Qed.

(** [bound_init_aks] runs no unbounded loop. *)
Lemma aks_loop_ends (n : nat) (i : Z) (a1 r : double_t) (p : ptr probability_t) :
  aks_loop n i a1 r p <> OutOfFuel.
Proof.
  revert i p. induction n as [|n IH]; intros i p; simpl; [done|].
  unfold store. destruct p as [l|]; [|done].
  destruct (_ && _); simpl; [apply IH|done].
Qed.

Lemma succeed_S (n : nat) (a : allocator) :
  succeed (S n) a = true ->
  exists js jp a', a = AllocOk js jp :: a' /\ succeed n a' = true.
Proof. destruct a as [|[|js jp] a']; simpl; try done. eauto. Qed.

Lemma cells_exact (e sz : Z) :
  0 < sz -> 0 <= e -> e * sz < SIZE_MOD -> Z.of_nat (cells (wrap (e * sz)) sz) = e.
Proof.
  intros Hsz He Hfit. unfold cells. rewrite wrap_small by nia.
  rewrite Z.div_mul by lia. lia.
Qed.

Lemma reallocate_bound_cells a b st e :
  succeed 5 a = true ->
  exists b1 st1, reallocate_bound a b st e = (true, b1, st1, drop 5 a) /\
    plen (first st1) = Z.of_nat (cells (wrap (e * sizeof_probability_t))
                                   sizeof_probability_t) /\
    plen (second st1) = plen (first st1) /\
    plen (nk_table b1) = Z.of_nat (cells (wrap (wrap (e + 1) * sizeof_size_t))
                                     sizeof_size_t) /\
    plen (ak_table b1) = Z.of_nat (cells (wrap (wrap (e + 1) * sizeof_probability_t))
                                     sizeof_probability_t) /\
    plen (pr_failure b1) = plen (ak_table b1).
Proof.
  intros Hs.
  apply succeed_S in Hs as (js1 & jp1 & a1 & -> & Hs).
  apply succeed_S in Hs as (js2 & jp2 & a2 & -> & Hs).
  apply succeed_S in Hs as (js3 & jp3 & a3 & -> & Hs).
  apply succeed_S in Hs as (js4 & jp4 & a4 & -> & Hs).
  apply succeed_S in Hs as (js5 & jp5 & a5 & -> & _).
  unfold reallocate_bound, realloc.
  cbn [next_alloc junk_of_prob junk_of_size mbind option_bind first second
       nk_table ak_table pr_failure set_nk_table set_ak_table set_pr_failure].
  do 2 eexists. split; [reflexivity|].
  unfold plen.
  cbn [first second nk_table ak_table pr_failure set_nk_table set_ak_table
       set_pr_failure default from_option]. unfold id.
  rewrite !length_resize. done.
Qed.

Lemma reallocate_bound_ok a b st e :
  succeed 5 a = true -> fits e -> 0 <= e ->
  exists b1 st1, reallocate_bound a b st e = (true, b1, st1, drop 5 a) /\
    plen (first st1) = e /\ plen (second st1) = e /\
    plen (nk_table b1) = e + 1 /\ plen (ak_table b1) = e + 1 /\
    plen (pr_failure b1) = e + 1.
Proof.
  intros Hs (Hsz & Hp & Hn) He.
  destruct (reallocate_bound_cells a b st e Hs)
    as (b1 & st1 & Er & H1 & H2 & H3 & H4 & H5).
  exists b1, st1. split; [done|].
  assert (0 < sizeof_size_t) as Hs8 by done.
  rewrite H2, H5, H1, H3, H4.
  rewrite (wrap_small (e + 1)) by (unfold sizeof_size_t in *; lia).
  rewrite !cells_exact by nia. done.
Qed.

(** A refusal among the next five allocations makes [reallocate_bound] fail. *)
Lemma reallocate_bound_refused a b st e :
  succeed 5 a = false ->
  exists b1 st1 a1, reallocate_bound a b st e = (false, b1, st1, a1).
Proof.
  intros Hs. unfold reallocate_bound, realloc.
  destruct a as [|[|js1 jp1] a]; simpl in *; eauto.
  destruct a as [|[|js2 jp2] a]; simpl in *; eauto.
  destruct a as [|[|js3 jp3] a]; simpl in *; eauto.
  destruct a as [|[|js4 jp4] a]; simpl in *; eauto.
  destruct a as [|[|js5 jp5] a]; simpl in *; eauto. done.
Qed.

(** A success has drawn five allocations. *)
Lemma reallocate_bound_drawn a b st e b1 st1 a1 :
  reallocate_bound a b st e = (true, b1, st1, a1) ->
  succeed 5 a = true /\ a1 = drop 5 a.
Proof.
  destruct (succeed 5 a) eqn:Hs.
  - destruct (reallocate_bound_cells a b st e Hs) as (b2 & st2 & -> & _).
    by intros [= _ _ <-].
  - destruct (reallocate_bound_refused a b st e Hs) as (b2 & st2 & a2 & ->).
    intros [=].
Qed.

Lemma wrap_overflow (x : Z) : SIZE_MOD <= x -> wrap x <= x - SIZE_MOD.
Proof.
  intros Hx. unfold wrap. pose proof (Z.div_mod x SIZE_MOD ltac:(done)) as E.
  assert (1 <= x / SIZE_MOD) by (apply Z.div_le_lower_bound; unfold SIZE_MOD in *; lia).
  unfold SIZE_MOD in *. lia.
Qed.

Lemma bound_init_aks_ends b : bound_init_aks b <> OutOfFuel.
Proof.
  unfold bound_init_aks.
  destruct (store (ak_table b) 0 _) as [t0| |] eqn:E0; simpl; try done.
  - destruct (store t0 1 _) as [t1| |] eqn:E1; simpl; try done.
    + destruct (store t1 2 _) as [t2| |] eqn:E2; simpl; try done.
      * destruct (aks_loop _ 3 _ _ t2) as [t3| |] eqn:E3; simpl; try done.
        by apply aks_loop_ends in E3.
      * unfold store in E2. destruct t1; [destruct (_ && _)|]; done.
    + unfold store in E1. destruct t0; [destruct (_ && _)|]; done.
  - unfold store in E0. destruct (ak_table b); [destruct (_ && _)|]; done.
Qed.

(** *** bound_build and bound_create on arrays that are large enough *)

Lemma shaped_set_state b st m :
  2 <= m < SIZE_MOD - 1 -> room m b st -> shaped (set_state b (Some st)).
Proof.
  intros Hm Hr. pose proof Hr as (Hmax & _). unfold shaped. simpl.
  rewrite Hmax. split; [done|]. exists st. split; [done|]. exact Hr.
Qed.

Lemma bound_build_rebuild_ok fuel a b e :
  shaped b -> e <= max_n b ->
  ensures (fun r => r.2 = a /\
             exists b', r.1 = Some b' /\ shaped b' /\ max_n b' = max_n b)
          (bound_build fuel a (Some b) e).
Proof.
  intros (Hm & st & Hst & Hr) He. unfold bound_build. rewrite Hst.
  destruct (nk_table b) as [l|] eqn:Enk.
  2: { destruct Hr as (_ & _ & _ & Hnk & _). rewrite Enk in Hnk.
       unfold plen in Hnk. simpl in Hnk. lia. }
  destruct (max_n b <? e) eqn:E; [lia|]. simpl.
  eapply ensures_bind.
  - apply (build_loop_ok fuel fuel HSTART 0 b st (max_n b)); [done|done|done].
  - intros [b1 st1] Hr1. simpl in *. split; [done|].
    exists (set_state b1 (Some st1)). split; [done|].
    split; [by apply (shaped_set_state _ _ (max_n b))|]. by destruct Hr1.
Qed.

Lemma bound_build_grow_ok fuel a b e :
  shaped b -> max_n b < e -> fits e -> succeed 5 a = true ->
  ensures (fun r => r.2 = drop 5 a /\
             exists b', r.1 = Some b' /\ shaped b' /\ max_n b' = e)
          (bound_build fuel a (Some b) e).
Proof.
  intros (Hm & st & Hst & Hr) He Hfit Hs. unfold bound_build. rewrite Hst.
  destruct (nk_table b) as [l|] eqn:Enk.
  2: { destruct Hr as (_ & _ & _ & Hnk & _). rewrite Enk in Hnk.
       unfold plen in Hnk. simpl in Hnk. lia. }
  destruct (max_n b <? e) eqn:E; [|lia].
  destruct (reallocate_bound_ok a b st e Hs Hfit)
    as (b1 & st1 & Er & Hf & Hs2 & Hnk & Hak & Hpr); [lia|].
  rewrite Er.
  apply reallocate_bound_true in Er as (_ & Hmax & _).
  assert (e < SIZE_MOD - 1) as He1.
  { destruct Hfit as (_ & _ & H8). unfold sizeof_size_t in H8. lia. }
  destruct (bound_init_aks_ok (set_max_n b1 e)) as (t & Ei & Hlt); simpl.
  { lia. }
  { rewrite wrap_small by lia. lia. }
  rewrite Ei. simpl. rewrite Hmax, wrap_small by lia.
  eapply ensures_bind.
  - apply (build_loop_ok fuel fuel (max_n b + 1) 0 _ st1 e); [lia|lia|].
    unfold room. simpl. rewrite Hlt. simpl. split_and!; auto; lia.
  - intros [b3 st3] Hr3. simpl in *. split; [done|].
    exists (set_state b3 (Some st3)). split; [done|].
    split; [apply (shaped_set_state _ _ e); [lia|done]|]. by destruct Hr3.
Qed.

Lemma bound_state_create_len a n st a' :
  bound_state_create a n = (Some st, a') ->
  plen (first st) = Z.of_nat (cells (wrap (n * sizeof_probability_t))
                                sizeof_probability_t) /\
  plen (second st) = plen (first st).
Proof.
  unfold bound_state_create, malloc.
  destruct (next_alloc a) as [[|js jp] a1]; [intros [=]|].
  destruct (next_alloc a1) as [[|js1 jp1] a2]; simpl; [intros [=]|].
  destruct (next_alloc a2) as [[|js2 jp2] a3]; simpl; [intros [=]|].
  intros [= <- <-]. unfold plen, fresh. simpl.
  rewrite !length_fmap, !length_seq. done.
Qed.

Lemma plen_replicate {X : Type} (x : X) (n : Z) :
  0 <= n -> plen (Some (replicate (Z.to_nat n) x)) = n.
Proof. intros Hn. unfold plen. simpl. rewrite length_replicate. lia. Qed.

Lemma bound_create_ok fuel a c n mb :
  0 < sizeof_probability_t -> 2 <= n < SIZE_MOD - 1 ->
  ensures (fun r => r.1 = None \/
             exists b, r.1 = Some b /\ shaped b /\ max_n b = n /\
                       confidence b = node_confidence c mb)
          (bound_create fuel a c n mb).
Proof.
  intros Hsz Hn. unfold bound_create.
  destruct (next_alloc a) as [[|js jp] a1]; [simpl; auto|].
  rewrite wrap_small by lia.
  destruct (calloc 0 a1 _ _) as [[nk|] a2] eqn:E1; [|simpl; auto].
  destruct (calloc _ a2 _ _) as [[ak|] a3] eqn:E2; [|simpl; auto].
  destruct (calloc _ a3 _ _) as [[pr|] a4] eqn:E3; [|simpl; auto].
  destruct (bound_state_create a4 n) as [[st|] a5] eqn:E4; [|simpl; auto].
  apply calloc_Some in E1 as [-> _]. apply calloc_Some in E2 as [-> Hfit].
  apply calloc_Some in E3 as [-> _].
  apply bound_state_create_len in E4 as [Hf Hs].
  rewrite cells_exact in Hf by nia.
  destruct (store_ok (Some (replicate (Z.to_nat (n + 1)) 0)) 0 0) as [nk1 En1].
  { rewrite plen_replicate; lia. }
  destruct (store_ok nk1 1 0) as [nk2 En2].
  { rewrite (plen_store _ _ _ _ En1), plen_replicate; lia. }
  rewrite En1. cbn [mbind outcome_bind]. rewrite En2. cbn [mbind outcome_bind].
  match goal with |- context [bound_init_aks ?b0] =>
    destruct (bound_init_aks_ok b0) as (t & Ei & Hlt); cbn [ak_table max_n] in *
  end.
  { rewrite plen_replicate; lia. }
  { rewrite wrap_small, plen_replicate; lia. }
  rewrite Ei. cbn [mbind outcome_bind set_ak_table max_n].
  rewrite plen_replicate in Hlt by lia.
  match goal with |- context [bound_build fuel a5 (Some ?b0) n] =>
    assert (shaped b0) as Hsh0 end.
  { split; [simpl; lia|]. exists st. split; [done|].
    unfold room. simpl.
    rewrite Hlt, (plen_store _ _ _ _ En2), (plen_store _ _ _ _ En1),
            !plen_replicate, Hs, Hf by lia.
    split_and!; auto; lia. }
  pose proof (bound_build_rebuild_ok fuel a5 _ n Hsh0 ltac:(simpl; lia)) as Hb.
  destruct (bound_build fuel a5 _ n) as [[r a']| |] eqn:Eb; simpl in Hb |- *;
    try done.
  destruct Hb as (_ & b' & -> & Hsh & Hmax). right. exists b'.
  split_and!; auto. by apply bound_build_confidence in Eb.
Qed.

(** *** Every table a caller holds has arrays that are large enough *)

Lemma reallocate_bound_len a b st e b1 st1 a1 :
  reallocate_bound a b st e = (true, b1, st1, a1) ->
  plen (first st1) = plen (second st1).
Proof.
  unfold reallocate_bound.
  destruct (realloc _ a (first st) _ _) as [[f|] a2] eqn:E1; [|intros [=]].
  simpl. destruct (realloc _ a2 (second st) _ _) as [[s|] a3] eqn:E2; [|intros [=]].
  simpl. destruct (realloc _ a3 (nk_table b) _ _) as [[t1|] a4] eqn:E3; [|intros [=]].
  simpl. destruct (realloc _ a4 (ak_table b) _ _) as [[t2|] a5] eqn:E4; [|intros [=]].
  simpl. destruct (realloc _ a5 (pr_failure b) _ _) as [[t3|] a6] eqn:E5; [|intros [=]].
  intros [= <- <- <-]. simpl.
  apply realloc_Some in E1 as [H1 _]. apply realloc_Some in E2 as [H2 _].
  unfold plen. simpl. lia.
Qed.

Lemma built_vectors b :
  built b ->
  exists st, state b = Some st /\ plen (first st) = plen (second st) /\
             max_n b <= plen (first st).
Proof.
  induction 1 as [fuel a c n mb b a' Hn Hmb Hc|fuel a b e b' a' Hb IH He Hbuild].
  - pose proof (table_inv_create _ _ _ _ _ _ _ Hn Hc) as ((Hm & _) & _).
    revert Hc. unfold bound_create.
    destruct (next_alloc a) as [[|js jp] a1]; [intros [=]|].
    destruct (calloc 0 a1 _ _) as [[nk|] a2] eqn:E1; [|intros [=]].
    destruct (calloc _ a2 _ _) as [[ak|] a3] eqn:E2; [|intros [=]].
    destruct (calloc _ a3 _ _) as [[pr|] a4] eqn:E3; [|intros [=]].
    destruct (bound_state_create a4 n) as [[st|] a5] eqn:E4; [|intros [=]].
    intros H. apply bind_Done in H as (nk1 & En1 & H).
    apply bind_Done in H as (nk2 & En2 & H). apply bind_Done in H as (b0 & Eb & H).
    apply bound_init_aks_spec in Eb as (t & -> & _).
    cbn [max_n set_ak_table] in H.
    eapply (bound_build_rebuild _ _ _ st) in H as (b1 & st1 & H & [= ->] & _);
      [|cbn [max_n set_ak_table]; lia
       |cbn [nk_table set_ak_table]; apply store_not_null in En2 as [_ ?]; done
       |done].
    apply bound_state_create_len in E4 as [_ Hs].
    pose proof (build_loop_Done _ _ _ _ _ _ _ _ H ltac:(done)) as (Hmax & _).
    apply build_loop_len with (len := plen (first st)) in H as (H1 & H2 & H3);
      [|done|done|done].
    exists st1. cbn [state set_state max_n]. split_and!; [done|congruence|].
    rewrite H1, Hmax. apply H3. rewrite <- Hmax. simpl in Hm. unfold HSTART. lia.
  - pose proof (built_inv _ Hb) as Hinv.
    pose proof (table_inv_build _ _ _ _ _ _ Hinv He Hbuild) as ((Hm' & _) & _).
    destruct Hinv as (Hm & Hnk & _).
    destruct IH as (st & Hst & Hlen & Hge).
    destruct (decide (e <= max_n b)) as [Hle|Hgt].
    + eapply bound_build_rebuild in Hbuild as (b1 & st1 & H & [= ->] & _); eauto.
      pose proof (build_loop_Done _ _ _ _ _ _ _ _ H ltac:(done)) as (Hmax & _).
      apply build_loop_len with (len := plen (first st)) in H as (H1 & H2 & H3);
        [|done|done|done].
      exists st1. cbn [state set_state max_n]. split_and!; [done|congruence|].
      rewrite H1, Hmax. done.
    + eapply bound_build_grow in Hbuild
        as (ok & b1 & st1 & a1 & b2 & h & b3 & st3 & Hr & Hok & H & [= ->] & _);
        eauto; [|lia].
      simpl in Hm'. destruct ok.
      * destruct Hok as [Hi ->].
        pose proof (reallocate_bound_len _ _ _ _ _ _ _ Hr) as Hl1.
        apply bound_init_aks_spec in Hi as (t & -> & _).
        rewrite wrap_small in H by (unfold SIZE_MOD in *; lia).
        pose proof (build_loop_Done _ _ _ _ _ _ _ _ H
                      ltac:(unfold SIZE_MOD in *; lia)) as (Hmax & _).
        simpl in Hmax. rewrite Hmax in Hm'.
        apply build_loop_len with (len := plen (first st1)) in H as (H1 & H2 & H3);
          [|unfold SIZE_MOD in *; lia|done|done].
        exists st3. cbn [state set_state max_n]. split_and!; [done|congruence|].
        rewrite H1, Hmax. apply H3. simpl. lia.
      * destruct Hok as [-> ->].
        apply reallocate_bound_false in Hr as (Hm1 & _ & Hnull).
        apply build_loop_not_null in H; unfold HSTART; [|lia..].
        destruct H as (? & ? & ? & ? & ?).
        destruct Hnull as [?|[?|[?|[?|?]]]]; congruence.
Qed.

Lemma built_shaped b : built b -> shaped b.
Proof.
  intros Hb. destruct (built_vectors _ Hb) as (st & Hst & Hlen & Hge).
  destruct (built_inv _ Hb) as (Hm & _ & _ & Hak & Hpr & _ & _ & Hnk & _).
  split; [done|]. exists st. split; [done|].
  destruct (Hnk (max_n b)) as (v & Hv & _); [lia|].
  destruct (Hpr (max_n b)) as (pr & Hp & _); [lia|].
  specialize (Hak (max_n b) ltac:(lia)).
  apply load_in_plen in Hv, Hp, Hak. unfold room. split_and!; auto; lia.
Qed.

End Safety.
(** ** Runs that differ in uninitialised cells *)

Lemma alike_bind {A A' B B' : Type} (R : A -> A' -> Prop) (S : B -> B' -> Prop)
    (m : outcome A) (m' : outcome A') (f : A -> outcome B) (f' : A' -> outcome B') :
  alike R m m' -> (forall x y, R x y -> alike S (f x) (f' y)) ->
  alike S (m ≫= f) (m' ≫= f').
Proof. destruct m, m'; simpl; auto; done. Qed.

Lemma alike_mono {A B : Type} (R S : A -> B -> Prop) (o1 : outcome A) (o2 : outcome B) :
  alike R o1 o2 -> (forall x y, R x y -> S x y) -> alike S o1 o2.
Proof. destruct o1, o2; simpl; auto. Qed.

Lemma alike_refl {A : Type} (o : outcome A) : alike eq o o.
Proof. by destruct o. Qed.

Lemma store_out {X : Type} (p : ptr X) (i : Z) (x : X) :
  ~ 0 <= i < plen p -> store p i x = Undefined.
Proof.
  unfold plen, store. destruct p as [l|]; simpl; [|done]. intros Hi.
  destruct (0 <=? i) eqn:E1; [|done].
  destruct (i <? Z.of_nat (length l)) eqn:E2; [lia|done].
Qed.

Lemma agree_weaken {X : Type} (d d' : Z) (p q : ptr X) :
  agree d p q -> d' <= d -> agree d' p q.
Proof. intros [Hl Hk] Hd. split; [done|]. intros k Hlt. apply Hk. lia. Qed.

Lemma agree_store {X : Type} (d : Z) (p q : ptr X) (j : Z) (x : X) :
  agree d p q -> j <= d ->
  alike (agree (Z.max d (j + 1))) (store p j x) (store q j x).
Proof.
  intros [Hl Hk] Hj. destruct (decide (0 <= j < plen p)) as [Hin|Hout].
  - destruct (store_ok p j x Hin) as [p' Hp].
    destruct (store_ok q j x) as [q' Hq]; [lia|].
    rewrite Hp, Hq. simpl. split.
    + rewrite (plen_store _ _ _ _ Hp), (plen_store _ _ _ _ Hq). done.
    + intros k Hlt. destruct (decide (k = j)) as [->|Hne].
      * rewrite (load_store_eq _ _ _ _ Hp), (load_store_eq _ _ _ _ Hq). done.
      * rewrite (load_store_ne _ _ _ _ _ Hp), (load_store_ne _ _ _ _ _ Hq) by done.
        apply Hk. lia.
  - rewrite !store_out by lia. done.
Qed.

Section Junk.

Context `{FM : FloatModel}.

Implicit Types (b bound : bound_t) (st : bound_state_t) (w : walk_t).

Lemma bound_agree_refl b : bound_agree b b.
Proof. by unfold bound_agree. Qed.

Lemma zero_first_alike (n : nat) (j : Z) (p q : ptr probability_t) :
  agree j p q -> alike (agree (j + Z.of_nat n)) (zero_first n j p) (zero_first n j q).
Proof.
  revert j p q. induction n as [|n IH]; intros j p q Ha; simpl.
  - by rewrite Z.add_0_r.
  - eapply alike_bind; [apply (agree_store j); [done|lia]|].
    intros p' q' Ha'. eapply alike_mono.
    + apply (IH (j + 1)). eapply agree_weaken; [done|lia].
    + intros x y Hxy. eapply agree_weaken; [done|lia].
Qed.

Lemma init_state_alike b1 b2 st1 st2 :
  max_n b1 = max_n b2 -> state_agree 0 0 st1 st2 ->
  alike (fun r1 r2 => r1.1 = r2.1 /\
                      state_agree (Z.of_nat (Z.to_nat (max_n b1))) 2 r1.2 r2.2)
        (init_state b1 st1) (init_state b2 st2).
Proof.
  intros Hm [Hf Hs]. unfold init_state. rewrite <- Hm.
  eapply alike_bind; [apply (zero_first_alike _ 0); done|].
  intros f1 f2 Hf'. simpl in Hf'.
  eapply alike_bind; [apply (agree_store 0); [done|lia]|].
  intros s1 s2 Hs1.
  eapply alike_bind; [apply (agree_store (Z.max 0 (0 + 1))); [done|lia]|].
  intros s1' s2' Hs2. simpl. split; [done|]. split; [done|].
  eapply agree_weaken; [done|lia].
Qed.

Lemma continue_condition_alike jstart h cur b1 b2 :
  bound_agree b1 b2 ->
  alike (fun r1 r2 => r1.1 = r2.1 /\ bound_agree r1.2 r2.2)
        (continue_condition jstart h cur b1) (continue_condition jstart h cur b2).
Proof.
  intros (Hc & Hm & Hnk & Hak & Hpr). unfold continue_condition.
  case_decide; [|done]. rewrite <- Hak, <- Hpr.
  destruct (load (ak_table b1) h) as [ak| |]; simpl; try done.
  destruct (p_le cur ak); [|done].
  destruct (store (pr_failure b1) h cur) as [pr| |]; simpl; try done.
Qed.

Lemma column_alike (n : nat) h w1 w2 (d : Z) :
  walk_agree h d w1 w2 -> 1 <= w_j w1 <= d -> w_j w1 + Z.of_nat n <= h ->
  h < SIZE_MOD ->
  alike (walk_agree h (w_j w1 + Z.of_nat n)) (column n h w1) (column n h w2).
Proof.
  revert w1 w2 d. induction n as [|n IH]; intros w1 w2 d Hw Hj Hn Hh; simpl.
  - rewrite Z.add_0_r. destruct Hw as (? & ? & ? & ? & ? & Hf & Hs).
    split_and!; auto. split; [done|]. eapply agree_weaken; [done|lia].
  - destruct Hw as (Hi & Hjj & Hjs & Hcur & Hb & Hf & Hs).
    pose proof Hb as (_ & _ & Hnk & _).
    rewrite <- Hi, <- Hjj, <- Hjs, <- Hnk.
    assert (calculate (w_state w1) h (w_j w1) = calculate (w_state w2) h (w_j w1))
      as Hcalc.
    { unfold calculate. rewrite wrap_small by lia.
      destruct Hf as [_ Hf]. destruct Hs as [_ Hs].
      rewrite (Hf (w_j w1)), (Hs (w_j w1 - 1)) by lia. done. }
    rewrite <- Hcalc. rewrite !wrap_small by lia.
    destruct (calculate (w_state w1) h (w_j w1)) as [cur| |]; simpl; try done.
    destruct (load (nk_table (w_bound w1)) (w_j w1 + 1)) as [nk| |]; simpl; try done.
    case_decide.
    + eapply alike_bind; [apply (agree_store d); [done|lia]|].
      intros s1 s2 Hs'.
      eapply alike_bind; [apply (agree_store h); [done|lia]|].
      intros f1 f2 Hf'.
      eapply alike_mono.
      * apply (IH _ _ (w_j w1 + 1)); simpl; try lia.
        split_and!; auto. split; eapply agree_weaken; try done; lia.
      * intros x y Hxy. simpl in Hxy.
        replace (w_j w1 + Z.of_nat (S n)) with (w_j w1 + 1 + Z.of_nat n) by lia.
        done.
    + eapply alike_bind; [apply (agree_store d); [done|lia]|].
      intros s1 s2 Hs'.
      eapply alike_mono.
      * apply (IH _ _ (w_j w1 + 1)); simpl; try lia.
        split_and!; auto. split; [done|]. eapply agree_weaken; try done; lia.
      * intros x y Hxy. simpl in Hxy.
        replace (w_j w1 + Z.of_nat (S n)) with (w_j w1 + 1 + Z.of_nat n) by lia.
        done.
Qed.

Lemma walk_alike (fuel : nat) h w1 w2 :
  2 <= h < SIZE_MOD -> walk_agree h (w_jstart w1) w1 w2 -> 1 <= w_jstart w1 <= h ->
  alike (walk_agree 0 0) (walk fuel h w1) (walk fuel h w2).
Proof.
  intros Hh. revert w1 w2. induction fuel as [|fuel IH]; intros w1 w2 Hw Hjs; [done|].
  cbn [walk]. destruct Hw as (Hi & Hj & Hjstart & Hcur & Hb & Hf & Hs).
  rewrite <- Hi, <- Hj, <- Hjstart, <- Hcur.
  eapply alike_bind; [apply continue_condition_alike; exact Hb|].
  intros [c b1'] [c2 b2'] [Hc Hb']. simpl in Hc, Hb'. subst c2.
  destruct c.
  - match goal with |- alike _ (column ?n h ?r1 ≫= _) (column _ _ ?r2 ≫= _) =>
      assert (alike (walk_agree h h) (column n h r1) (column n h r2)) as Hcol;
      [|destruct (column n h r1) as [w1'| |] eqn:E1;
        destruct (column n h r2) as [w2'| |] eqn:E2; simpl in Hcol; try done]
    end.
    { eapply alike_mono.
      - apply (column_alike _ h _ _ (w_jstart w1)); cbn [w_j]; [|lia..].
        by split_and!.
      - intros x y Hxy. cbn [w_j] in Hxy.
        replace (w_jstart w1 + Z.of_nat (Z.to_nat (h - w_jstart w1))) with h
          in Hxy by lia. done. }
    apply column_jstart in E1 as [_ Hjs']; cbn [w_j w_jstart] in *; [|lia..].
    destruct Hcol as (Hi' & Hj' & Hjstart' & Hcur' & Hb2 & Hf' & Hs').
    cbn [mbind outcome_bind]. apply IH.
    + cbn [w_i w_j w_jstart w_cur_state w_bound w_state swap first second].
      rewrite <- Hjstart'. split_and!; auto. split; [done|].
      eapply agree_weaken; [done|]. case_decide; lia.
    + cbn [w_jstart]. case_decide; lia.
  - simpl. split_and!; auto. split; eapply agree_weaken; try done; lia.
Qed.

Lemma build_loop_alike (n fuel : nat) h j b1 b2 st1 st2 :
  2 <= h -> max_n b1 < SIZE_MOD - 1 ->
  bound_agree b1 b2 -> state_agree 0 0 st1 st2 ->
  alike (fun r1 r2 => bound_agree r1.1 r2.1 /\ state_agree 0 0 r1.2 r2.2)
        (build_loop n fuel h j b1 st1) (build_loop n fuel h j b2 st2).
Proof.
  revert h j b1 b2 st1 st2.
  induction n as [|n IH]; intros h j b1 b2 st1 st2 Hh Hm Hb Hst; [done|].
  cbn [build_loop]. pose proof Hb as (_ & Hmax & _). rewrite <- Hmax.
  destruct (h <=? max_n b1) eqn:E; [|done].
  eapply alike_bind; [apply init_state_alike; [exact Hmax|exact Hst]|].
  intros [c1 s1] [c2 s2] [Hc [Hf Hs]]. simpl in Hc, Hf, Hs. subst c2.
  match goal with |- alike _ (walk fuel h ?r1 ≫= _) (walk fuel h ?r2 ≫= _) =>
    assert (alike (walk_agree 0 0) (walk fuel h r1) (walk fuel h r2)) as Hwalk;
    [|destruct (walk fuel h r1) as [w1| |] eqn:E1;
      destruct (walk fuel h r2) as [w2| |] eqn:E2; simpl in Hwalk; try done]
  end.
  { apply walk_alike; cbn [w_jstart]; [lia| |lia].
    split_and!; auto. split; eapply agree_weaken; try done; lia. }
  apply walk_Done in E1 as (ak & pr & _ & _ & _ & Hwb & _). cbn [w_bound] in Hwb.
  destruct Hwalk as (Hi & Hj & _ & _ & Hb2 & Hst2).
  pose proof Hb2 as (_ & _ & Hnk & _).
  cbn [mbind outcome_bind]. rewrite <- Hi, <- Hj, <- Hnk.
  destruct (store (nk_table (w_bound w1)) h _) as [t| |]; simpl; try done.
  rewrite wrap_small by lia. apply IH; [lia| | |done].
  - rewrite Hwb. simpl. done.
  - destruct Hb2 as (? & ? & ? & ? & ?). by split_and!.
Qed.

(** The allocator *)

Lemma next_alloc_alike (a1 a2 : allocator) :
  same_refusals a1 a2 ->
  same_refusals (next_alloc a1).2 (next_alloc a2).2 /\
  match (next_alloc a1).1, (next_alloc a2).1 with
  | AllocFail, AllocFail => True
  | AllocOk _ _, AllocOk _ _ => True
  | _, _ => False
  end.
Proof.
  destruct a1 as [|[|js1 jp1] a1], a2 as [|[|js2 jp2] a2]; simpl; try done.
Qed.

Lemma calloc_alike {X : Type} (zero : X) (a1 a2 : allocator) (count sz : Z) :
  same_refusals a1 a2 ->
  (calloc zero a1 count sz).1 = (calloc zero a2 count sz).1 /\
  same_refusals (calloc zero a1 count sz).2 (calloc zero a2 count sz).2.
Proof.
  intros [Hs He]%next_alloc_alike. unfold calloc.
  destruct (next_alloc a1) as [[|js1 jp1] r1], (next_alloc a2) as [[|js2 jp2] r2];
    simpl in *; try done.
  destruct (SIZE_MOD <=? count * sz); done.
Qed.

Lemma bound_state_create_alike (a1 a2 : allocator) (n : Z) :
  same_refusals a1 a2 ->
  same_refusals (bound_state_create a1 n).2 (bound_state_create a2 n).2 /\
  match (bound_state_create a1 n).1, (bound_state_create a2 n).1 with
  | None, None => True
  | Some st1, Some st2 => state_agree 0 0 st1 st2
  | _, _ => False
  end.
Proof.
  intros [Hs He]%next_alloc_alike. unfold bound_state_create, malloc.
  destruct (next_alloc a1) as [[|js1 jp1] r1], (next_alloc a2) as [[|js2 jp2] r2];
    simpl in *; try done.
  apply next_alloc_alike in Hs as [Hs He1].
  destruct (next_alloc r1) as [[|js3 jp3] r3],
           (next_alloc r2) as [[|js4 jp4] r4]; simpl in *; try done.
  apply next_alloc_alike in Hs as [Hs He2].
  destruct (next_alloc r3) as [[|js5 jp5] r5],
           (next_alloc r4) as [[|js6 jp6] r6]; simpl in *; try done.
  split; [done|].
  split; (split; [unfold plen, fresh; simpl; by rewrite !length_fmap|intros k Hk]).
  - unfold load. destruct (k <? 0) eqn:E; [done|lia].
  - unfold load. destruct (k <? 0) eqn:E; [done|lia].
Qed.

Lemma bound_init_aks_alike b1 b2 :
  bound_agree b1 b2 ->
  alike (fun r1 r2 => bound_agree r1 r2 /\ max_n r1 = max_n b1 /\
                      state r1 = state b1 /\ state r2 = state b2)
        (bound_init_aks b1) (bound_init_aks b2).
Proof.
  intros (Hc & Hm & Hnk & Hak & Hpr). unfold bound_init_aks.
  rewrite <- Hc, <- Hm, <- Hak.
  destruct (store (ak_table b1) 0 _) as [t0| |]; simpl; try done.
  destruct (store t0 1 _) as [t1| |]; simpl; try done.
  destruct (store t1 2 _) as [t2| |]; simpl; try done.
  destruct (aks_loop _ 3 _ _ t2) as [t3| |]; simpl; done.
Qed.

Lemma bound_build_rebuild_alike fuel (a1 a2 : allocator) b1 b2 st1 st2 e :
  bound_agree b1 b2 -> e <= max_n b1 -> max_n b1 < SIZE_MOD - 1 ->
  state b1 = Some st1 -> state b2 = Some st2 -> state_agree 0 0 st1 st2 ->
  alike (fun r1 r2 => same_table r1.1 r2.1)
        (bound_build fuel a1 (Some b1) e) (bound_build fuel a2 (Some b2) e).
Proof.
  intros Hb He Hm H1 H2 Hst. pose proof Hb as (_ & Hmax & Hnk & _).
  unfold bound_build. rewrite H1, H2, <- Hnk, <- Hmax.
  destruct (nk_table b1); [|done].
  destruct (max_n b1 <? e) eqn:E; [lia|]. cbn [mbind outcome_bind].
  eapply alike_bind; [apply build_loop_alike; [done|done|exact Hb|exact Hst]|].
  intros [r1 s1] [r2 s2] [Hr Hs]. simpl in *.
  destruct Hr as (? & ? & ? & ? & ?). unfold bound_agree. simpl. by split_and!.
Qed.

Lemma bound_create_alike fuel (a1 a2 : allocator) c n mb :
  is_size n -> same_refusals a1 a2 ->
  alike (fun r1 r2 => same_table r1.1 r2.1)
        (bound_create fuel a1 c n mb) (bound_create fuel a2 c n mb).
Proof.
  intros Hn Ha. unfold bound_create.
  apply next_alloc_alike in Ha as [Ha He].
  destruct (next_alloc a1) as [[|js1 jp1] r1], (next_alloc a2) as [[|js2 jp2] r2];
    simpl in Ha, He; try done.
  pose proof (calloc_alike 0 r1 r2 (wrap (n + 1)) sizeof_size_t Ha) as [E1 Ha1].
  destruct (calloc 0 r1 _ _) as [nk r3] eqn:Enk, (calloc 0 r2 _ _) as [nk' r4].
  simpl in E1, Ha1. subst nk'. destruct nk as [nk|]; [|done].
  pose proof (calloc_alike (widen d_zero) r3 r4 (wrap (n + 1))
                sizeof_probability_t Ha1) as [E2 Ha2].
  destruct (calloc _ r3 _ _) as [ak r5], (calloc _ r4 _ _) as [ak' r6].
  simpl in E2, Ha2. subst ak'. destruct ak as [ak|]; [|done].
  pose proof (calloc_alike (widen d_zero) r5 r6 (wrap (n + 1))
                sizeof_probability_t Ha2) as [E3 Ha3].
  destruct (calloc _ r5 _ _) as [pr r7], (calloc _ r6 _ _) as [pr' r8].
  simpl in E3, Ha3. subst pr'. destruct pr as [pr|]; [|done].
  pose proof (bound_state_create_alike r7 r8 n Ha3) as [Ha4 Hst].
  destruct (bound_state_create r7 n) as [[s1|] r9],
           (bound_state_create r8 n) as [[s2|] r10]; simpl in Ha4, Hst; try done.
  destruct (store (Some nk) 0 0) as [nk1| |] eqn:En1; cbn [mbind outcome_bind];
    try done.
  destruct (store nk1 1 0) as [nk2| |] eqn:En2; cbn [mbind outcome_bind]; try done.
  assert (n < SIZE_MOD - 1) as Hn1.
  { apply calloc_Some in Enk as [-> _]. apply store_in_range in En1.
    unfold plen in En1. simpl in En1. rewrite length_replicate in En1.
    destruct (decide (n + 1 = SIZE_MOD)) as [E|E]; [|unfold is_size in Hn; lia].
    rewrite E in En1. change (wrap SIZE_MOD) with 0 in En1. simpl in En1. lia. }
  eapply alike_bind.
  - apply bound_init_aks_alike. unfold bound_agree. simpl. by split_and!.
  - intros b1 b2 (Hb & Hm & Hs1 & Hs2). simpl in Hm, Hs1, Hs2.
    pose proof Hb as (_ & Hmax & _). rewrite <- Hmax.
    apply (bound_build_rebuild_alike _ _ _ _ _ s1 s2); auto; lia.
Qed.

End Junk.

(** ** Printing and release *)

Section ReleaseFacts.

Context `{FM : FloatModel}.

Implicit Types (b bound : bound_t) (st : bound_state_t).

Lemma drop_cons_inv {X : Type} (L : list X) (n : nat) (x : X) (l : list X) :
  drop n L = x :: l -> L !! n = Some x /\ drop (S n) L = l.
Proof.
  intros H. split.
  - pose proof (lookup_drop L n 0) as E. rewrite H, Nat.add_0_r in E. done.
  - replace (S n) with (n + 1)%nat by lia. rewrite <- drop_drop, H. done.
Qed.

Lemma load_lookup {X : Type} (l : list X) (i : Z) (x : X) :
  0 <= i -> l !! Z.to_nat i = Some x -> load (Some l) i = Done x.
Proof. intros Hi H. unfold load. destruct (i <? 0) eqn:E; [lia|]. by rewrite H. Qed.

Lemma dump_loop_lines (l : list Z) (l0 : list Z) : forall (fuel : nat) i b,
  nk_table b = Some l0 ->
  drop (Z.to_nat i) (take (Z.to_nat (max_n b + 1)) l0) = l ->
  i + Z.of_nat (length l) = max_n b + 1 -> 0 <= i -> max_n b < SIZE_MOD - 1 ->
  (length l < fuel)%nat ->
  dump_loop fuel i b = Done (lines Line_nk i l).
Proof.
  induction l as [|x l IH]; intros fuel i b Hnk Hd Hlen Hi Hm Hf;
    (destruct fuel as [|fuel]; [simpl in Hf; lia|]); simpl in *.
  - destruct (i <=? max_n b) eqn:E; [lia|done].
  - destruct (i <=? max_n b) eqn:E; [|lia].
    apply drop_cons_inv in Hd as [Hx Hd].
    apply lookup_take_Some in Hx as [Hx _].
    rewrite Hnk, (load_lookup _ _ _ Hi Hx). simpl.
    rewrite wrap_small by lia.
    rewrite (IH fuel (i + 1) b Hnk); [done| |lia..].
    replace (Z.to_nat (i + 1)) with (S (Z.to_nat i)) by lia. done.
Qed.

Lemma failure_dump_loop_lines (l : list probability_t) (l0 : list probability_t) :
  forall (fuel : nat) i b,
  pr_failure b = Some l0 ->
  drop (Z.to_nat i) (take (Z.to_nat (max_n b + 1)) l0) = l ->
  i + Z.of_nat (length l) = max_n b + 1 -> 0 <= i -> max_n b < SIZE_MOD - 1 ->
  (length l < fuel)%nat ->
  failure_dump_loop fuel i b = Done (lines Line_failure i l).
Proof.
  induction l as [|x l IH]; intros fuel i b Hnk Hd Hlen Hi Hm Hf;
    (destruct fuel as [|fuel]; [simpl in Hf; lia|]); simpl in *.
  - destruct (i <=? max_n b) eqn:E; [lia|done].
  - destruct (i <=? max_n b) eqn:E; [|lia].
    apply drop_cons_inv in Hd as [Hx Hd].
    apply lookup_take_Some in Hx as [Hx _].
    rewrite Hnk, (load_lookup _ _ _ Hi Hx). simpl.
    rewrite wrap_small by lia.
    rewrite (IH fuel (i + 1) b Hnk); [done| |lia..].
    replace (Z.to_nat (i + 1)) with (S (Z.to_nat i)) by lia. done.
Qed.

Lemma plen_Some {X : Type} (p : ptr X) : 0 < plen p -> exists l, p = Some l.
Proof. destruct p; [eauto|]. unfold plen. simpl. lia. Qed.

Lemma bound_dump_shaped (fuel : nat) b :
  shaped b -> max_n b + 1 < Z.of_nat fuel ->
  bound_dump fuel (Some b) = Done (nk_lines b).
Proof.
  intros (Hm & st & Hst & _ & _ & _ & Hnk & _) Hf.
  destruct (plen_Some (nk_table b)) as [l0 E]; [lia|].
  unfold bound_dump, nk_lines. rewrite E in *. simpl default.
  unfold plen in Hnk. simpl in Hnk.
  apply (dump_loop_lines _ l0); auto; try lia.
  - rewrite length_take. lia.
  - rewrite length_take. lia.
Qed.

Lemma bound_failure_dump_shaped (fuel : nat) b :
  shaped b -> max_n b + 1 < Z.of_nat fuel ->
  bound_failure_dump fuel (Some b) = Done (failure_lines b).
Proof.
  intros (Hm & st & Hst & _ & _ & _ & _ & _ & Hpr) Hf.
  destruct (plen_Some (pr_failure b)) as [l0 E]; [lia|].
  unfold bound_failure_dump, failure_lines. rewrite E in *. simpl default.
  unfold plen in Hpr. simpl in Hpr.
  rewrite (failure_dump_loop_lines
             (take (Z.to_nat (max_n b + 1)) l0) l0); auto; try lia.
  - rewrite length_take. lia.
  - rewrite length_take. lia.
Qed.

Lemma bound_free_shaped b (live : Z) :
  shaped b -> bound_free (Some b) live = live - 7.
Proof.
  intros (Hm & st & Hst & _ & Hlen & Hf & Hnk & Hak & Hpr).
  destruct (plen_Some (nk_table b)) as [l1 E1]; [lia|].
  destruct (plen_Some (ak_table b)) as [l2 E2]; [lia|].
  destruct (plen_Some (pr_failure b)) as [l3 E3]; [lia|].
  destruct (plen_Some (first st)) as [l4 E4]; [lia|].
  destruct (plen_Some (second st)) as [l5 E5]; [lia|].
  unfold bound_free, bound_state_free. rewrite E1, E2, E3, Hst, E4, E5.
  simpl. lia.
Qed.

(** [bound_create] and its heap *)

Lemma bound_state_create_live_spec (a : allocator) (n live : Z) :
  (bound_state_create_live a n live).1 = bound_state_create a n /\
  (bound_state_create_live a n live).2 =
    if (bound_state_create a n).1 is Some _ then live + 3 else live.
Proof.
  unfold bound_state_create_live, bound_state_create, malloc.
  destruct (next_alloc a) as [[|js jp] a1]; [done|].
  destruct (next_alloc a1) as [[|js1 jp1] a2]; simpl; [split; [done|lia]|].
  destruct (next_alloc a2) as [[|js2 jp2] a3]; simpl; split; try done; lia.
Qed.

Lemma bound_create_live_spec fuel (a : allocator) c n mb (live : Z) :
  alike (fun r1 r2 => r1.1 = r2 /\
           r1.2 = if r2.1 is Some _ then live + 7 else live)
        (bound_create_live fuel a c n mb live) (bound_create fuel a c n mb).
Proof.
  unfold bound_create_live, bound_create.
  destruct (next_alloc a) as [[|js jp] a1]; [done|].
  destruct (calloc 0 a1 _ _) as [[nk|] a2]; [|simpl; split; [done|lia]].
  destruct (calloc _ a2 _ _) as [[ak|] a3]; [|simpl; split; [done|lia]].
  destruct (calloc _ a3 _ _) as [[pr|] a4]; [|simpl; split; [done|lia]].
  pose proof (bound_state_create_live_spec a4 n (live + 1 + 1 + 1 + 1)) as [E1 E2].
  destruct (bound_state_create_live a4 n _) as [[st' a5'] live'].
  simpl in E1, E2. rewrite <- E1 in *. simpl in E2.
  destruct st' as [st|]; [|simpl; split; [done|lia]].
  destruct (store (Some nk) 0 0) as [nk1| |]; cbn [mbind outcome_bind]; try done.
  destruct (store nk1 1 0) as [nk2| |]; cbn [mbind outcome_bind]; try done.
  destruct (bound_init_aks _) as [b0| |]; cbn [mbind outcome_bind]; try done.
  destruct (bound_build fuel a5' (Some b0) (max_n b0)) as [[ob a6]| |] eqn:Eb;
    cbn [mbind outcome_bind]; try done.
  simpl. split; [done|].
  destruct ob as [b|]; [lia|].
  exfalso. unfold bound_build in Eb.
  destruct (nk_table b0), (state b0); try discriminate.
  apply bind_Done in Eb as ([[[h b1] st1] a7] & _ & Eb).
  apply bind_Done in Eb as ([b2 st2] & _ & Eb). discriminate.
Qed.

Lemma lines_lookup {X : Type} (f : Z -> X -> printed) (l : list X) :
  forall (i : Z) (k : nat),
    lines f i l !! k = f (i + Z.of_nat k) <$> l !! k.
Proof.
  induction l as [|x l IH]; intros i k; simpl; [done|].
  destruct k as [|k]; simpl.
  - by rewrite Z.add_0_r.
  - rewrite IH. do 2 f_equal. lia.
Qed.

Lemma length_lines {X : Type} (f : Z -> X -> printed) (l : list X) (i : Z) :
  length (lines f i l) = length l.
Proof. revert i. induction l as [|x l IH]; intros i; simpl; [done|]. by rewrite IH. Qed.

Lemma bound_create_more_fuel (fuel fuel' : nat) (a : allocator) c n mb r :
  bound_create fuel a c n mb = Done r -> (fuel <= fuel')%nat ->
  bound_create fuel' a c n mb = Done r.
Proof.
  unfold bound_create. intros H Hf.
  destruct (next_alloc a) as [[|js jp] a1]; [done|].
  destruct (calloc 0 a1 _ _) as [[nk|] a2]; [|done].
  destruct (calloc _ a2 _ _) as [[ak|] a3]; [|done].
  destruct (calloc _ a3 _ _) as [[pr|] a4]; [|done].
  destruct (bound_state_create a4 n) as [[st|] a5]; [|done].
  destruct (store (Some nk) 0 0) as [nk1| |]; cbn [mbind outcome_bind] in *; try done.
  destruct (store nk1 1 0) as [nk2| |]; cbn [mbind outcome_bind] in *; try done.
  destruct (bound_init_aks _) as [b0| |]; cbn [mbind outcome_bind] in *; try done.
  eapply bound_build_more_fuel; eauto.
Qed.

(** A refusal among its seven allocations makes [bound_create] return NULL. *)
Lemma bound_create_refused fuel (a : allocator) c n mb :
  succeed 7 a = false -> exists a', bound_create fuel a c n mb = Done (None, a').
Proof.
  intros Hs. unfold bound_create, calloc, bound_state_create, malloc.
  destruct a as [|[|js1 jp1] a]; simpl in *; eauto.
  destruct a as [|[|js2 jp2] a]; simpl in *; eauto.
  destruct (SIZE_MOD <=? _); eauto.
  destruct a as [|[|js3 jp3] a]; simpl in *; eauto.
  destruct (SIZE_MOD <=? _); eauto.
  destruct a as [|[|js4 jp4] a]; simpl in *; eauto.
  destruct a as [|[|js5 jp5] a]; simpl in *; eauto.
  destruct a as [|[|js6 jp6] a]; simpl in *; eauto.
  destruct a as [|[|js7 jp7] a]; simpl in *; eauto. done.
Qed.

End ReleaseFacts.

Section Start.

Context `{FM : FloatModel}.

Implicit Types (b bound : bound_t) (st : bound_state_t).

(** [bound_create] up to its call of [bound_build], when every allocation
    is granted: the table and the scratch vectors as [calloc] and [malloc]
    have made them. *)
Lemma bound_create_begin fuel (a : allocator) c n mb :
  succeed 7 a = true -> fits n -> 2 <= n ->
  exists b0 st0,
    bound_create fuel a c n mb = bound_build fuel (drop 7 a) (Some b0) n /\
    confidence b0 = node_confidence c mb /\ max_n b0 = n /\
    state b0 = Some st0 /\
    (forall k, 0 <= k <= n -> load (nk_table b0) k = Done 0) /\
    (forall k, 0 <= k <= n ->
       load (ak_table b0) k = Done (ak_value (confidence b0) k)) /\
    (forall k, 0 <= k <= n -> load (pr_failure b0) k = Done (widen d_zero)) /\
    plen (nk_table b0) = n + 1 /\ plen (ak_table b0) = n + 1 /\
    plen (pr_failure b0) = n + 1 /\
    plen (first st0) = n /\ plen (second st0) = n.
Proof.
  intros Hs (Hsz & Hp & H8) Hn.
  apply succeed_S in Hs as (js1 & jp1 & a1 & -> & Hs).
  apply succeed_S in Hs as (js2 & jp2 & a2 & -> & Hs).
  apply succeed_S in Hs as (js3 & jp3 & a3 & -> & Hs).
  apply succeed_S in Hs as (js4 & jp4 & a4 & -> & Hs).
  apply succeed_S in Hs as (js5 & jp5 & a5 & -> & Hs).
  apply succeed_S in Hs as (js6 & jp6 & a6 & -> & Hs).
  apply succeed_S in Hs as (js7 & jp7 & a7 & -> & _).
  assert (n + 1 < SIZE_MOD) as Hn1 by (unfold sizeof_size_t in H8; lia).
  assert (wrap (n + 1) = n + 1) as Hw by (apply wrap_small; lia).
  assert ((SIZE_MOD <=? (n + 1) * sizeof_size_t) = false) as E1
    by (apply Z.leb_gt; lia).
  assert ((SIZE_MOD <=? (n + 1) * sizeof_probability_t) = false) as E2
    by (apply Z.leb_gt; lia).
  unfold bound_create, bound_state_create, calloc, malloc.
  rewrite Hw. cbn [next_alloc]. rewrite E1. cbn [next_alloc]. rewrite E2.
  cbn [next_alloc junk_of_prob mbind option_bind drop].
  destruct (store_ok (Some (replicate (Z.to_nat (n + 1)) 0)) 0 0) as [nk1 En1].
  { rewrite plen_replicate; lia. }
  destruct (store_ok nk1 1 0) as [nk2 En2].
  { rewrite (plen_store _ _ _ _ En1), plen_replicate; lia. }
  rewrite En1. cbn [mbind outcome_bind]. rewrite En2. cbn [mbind outcome_bind].
  match goal with |- context [bound_init_aks ?b0] =>
    destruct (bound_init_aks_ok b0) as (t & Ei & Hlt); cbn [ak_table max_n] in *
  end.
  { rewrite plen_replicate; lia. }
  { rewrite Hw, plen_replicate; lia. }
  rewrite Ei. cbn [mbind outcome_bind set_ak_table max_n].
  rewrite plen_replicate in Hlt by lia.
  do 2 eexists. split; [reflexivity|].
  apply bound_init_aks_spec in Ei as (t' & Et & _ & _ & Hak & _).
  injection Et as <-. cbn [max_n confidence] in Hak. rewrite Hw in Hak.
  cbn [confidence max_n state nk_table ak_table pr_failure first second
       set_ak_table].
  split_and!; try done.
  - intros k Hk. destruct (decide (k = 1)) as [->|]; [eauto using load_store_eq|].
    erewrite load_store_ne by (eauto || lia).
    destruct (decide (k = 0)) as [->|]; [eauto using load_store_eq|].
    erewrite load_store_ne by (eauto || lia). apply load_replicate. lia.
  - intros k Hk. apply Hak. lia.
  - intros k Hk. apply load_replicate. lia.
  - rewrite (plen_store _ _ _ _ En2), (plen_store _ _ _ _ En1), plen_replicate; lia.
  - rewrite plen_replicate; lia.
  - unfold plen, fresh. simpl. rewrite length_fmap, length_seq, cells_exact; nia.
  - unfold plen, fresh. simpl. rewrite length_fmap, length_seq, cells_exact; nia.
Qed.

Lemma bound_create_start fuel (a : allocator) c n mb :
  succeed 7 a = true -> fits n -> 2 <= n ->
  exists b0 st0,
    bound_create fuel a c n mb = bound_build fuel (drop 7 a) (Some b0) n /\
    confidence b0 = node_confidence c mb /\ max_n b0 = n /\
    state b0 = Some st0 /\
    (forall k, 0 <= k <= n -> load (nk_table b0) k = Done 0) /\
    (forall k, 0 <= k <= n ->
       load (ak_table b0) k = Done (ak_value (confidence b0) k)) /\
    room n b0 st0.
Proof.
  intros Hs Hfit Hn.
  destruct (bound_create_begin fuel a c n mb Hs Hfit Hn)
    as (b0 & st0 & E & Hc & Hm & Hst & Hnk & Hak & _ & L1 & L2 & L3 & L4 & L5).
  exists b0, st0. unfold room. rewrite L1, L2, L3, L4, L5.
  split_and!; auto; lia.
Qed.

End Start.

(** ** Building in steps and building at once *)

Lemma pre_weaken {X : Type} (d d' : Z) (p q : ptr X) :
  pre d p q -> d' <= d -> pre d' p q.
Proof. intros H Hd k Hk. apply H. lia. Qed.

Lemma pre_store {X : Type} (d : Z) (p q p' : ptr X) (j : Z) (x : X) :
  pre d p q -> store p j x = Done p' -> j <= d -> j < plen q ->
  exists q', store q j x = Done q' /\ pre (Z.max d (j + 1)) p' q' /\
             plen q' = plen q.
Proof.
  intros Hp Hs Hj Hq. pose proof (store_in_range _ _ _ _ Hs) as Hr.
  destruct (store_ok q j x) as [q' Eq]; [lia|].
  exists q'. split; [done|]. split; [|eauto using plen_store].
  intros k Hk. destruct (decide (k = j)) as [->|Hne].
  - rewrite (load_store_eq _ _ _ _ Hs), (load_store_eq _ _ _ _ Eq). done.
  - rewrite (load_store_ne _ _ _ _ _ Hs), (load_store_ne _ _ _ _ _ Eq) by done.
    apply Hp. lia.
Qed.

Section Steps.

Context `{FM : FloatModel}.

Implicit Types (b bound : bound_t) (st : bound_state_t) (w : walk_t).

Lemma column_sim (n : nat) h w1 w1' w2 (d : Z) :
  column n h w1 = Done w1' -> walk_pre h d w1 w2 ->
  1 <= w_j w1 <= d -> w_j w1 + Z.of_nat n <= h -> h < SIZE_MOD ->
  exists w2', column n h w2 = Done w2' /\
              walk_pre h (w_j w1 + Z.of_nat n) w1' w2' /\
              w_bound w2' = w_bound w2.
Proof.
  revert w1 w2 d. induction n as [|n IH]; intros w1 w2 d H Hw Hj Hn Hh.
  - simpl in H. injection H as <-. exists w2. simpl. split; [done|].
    split; [|done]. rewrite Z.add_0_r.
    destruct Hw as (? & ? & ? & ? & ? & ? & Hs & ? & ?).
    unfold walk_pre. split_and!; auto. eapply pre_weaken; [done|lia].
  - cbn [column] in H |- *.
    destruct Hw as (Hi & Hjj & Hjs & Hcur & Hb & Hf & Hs & Lf & Ls).
    pose proof Hb as (_ & Hnk & _).
    rewrite <- Hi, <- Hjj, <- Hjs.
    apply bind_Done in H as (cur & Ec & H). apply bind_Done in H as (nk & Enk & H).
    assert (calculate (w_state w2) h (w_j w1) = Done cur) as Ec2.
    { revert Ec. unfold calculate. rewrite wrap_small by lia.
      rewrite (Hf (w_j w1)), (Hs (w_j w1 - 1)) by lia. done. }
    rewrite wrap_small in Enk, H by lia.
    rewrite Ec2. cbn [mbind outcome_bind].
    rewrite wrap_small by lia.
    rewrite <- (Hnk (w_j w1 + 1)) by lia. rewrite Enk. cbn [mbind outcome_bind].
    case_decide.
    + apply bind_Done in H as (s1 & Es & H). apply bind_Done in H as (f1 & Ef & H).
      destruct (pre_store d _ (second (w_state w2)) _ _ _ Hs Es)
        as (s2 & Es2 & Hs' & Ls'); [lia|lia|].
      destruct (pre_store h _ (first (w_state w2)) _ _ _ Hf Ef)
        as (f2 & Ef2 & Hf' & Lf'); [lia|lia|].
      rewrite Es2. cbn [mbind outcome_bind]. rewrite Ef2. cbn [mbind outcome_bind].
      eapply (IH _ _ (w_j w1 + 1)) in H as (w2' & E2 & Hw' & Hb').
      * exists w2'. split; [exact E2|]. cbn [w_j w_bound] in Hw', Hb'.
        split; [|done].
        replace (w_j w1 + Z.of_nat (S n)) with (w_j w1 + 1 + Z.of_nat n) by lia.
        done.
      * unfold walk_pre.
        cbn [w_i w_j w_jstart w_cur_state w_bound w_state first second].
        split_and!; auto; try lia; eapply pre_weaken; try done; lia.
      * cbn [w_j]. lia.
      * cbn [w_j]. lia.
      * done.
    + apply bind_Done in H as (s1 & Es & H).
      destruct (pre_store d _ (second (w_state w2)) _ _ _ Hs Es)
        as (s2 & Es2 & Hs' & Ls'); [lia|lia|].
      rewrite Es2. cbn [mbind outcome_bind].
      eapply (IH _ _ (w_j w1 + 1)) in H as (w2' & E2 & Hw' & Hb').
      * exists w2'. split; [exact E2|]. cbn [w_j w_bound] in Hw', Hb'.
        split; [|done].
        replace (w_j w1 + Z.of_nat (S n)) with (w_j w1 + 1 + Z.of_nat n) by lia.
        done.
      * unfold walk_pre.
        cbn [w_i w_j w_jstart w_cur_state w_bound w_state first second].
        split_and!; auto; try lia; eapply pre_weaken; try done; lia.
      * cbn [w_j]. lia.
      * cbn [w_j]. lia.
      * done.
Qed.

Lemma walk_first_turn (fuel : nat) h i j j' js cur b st :
  (js = wrap (h - 1) ->
   forall ak, load (ak_table b) h = Done ak -> p_le cur ak = false) ->
  walk fuel h {| w_i := i; w_j := j; w_jstart := js; w_cur_state := cur;
                 w_bound := b; w_state := st |} =
  walk fuel h {| w_i := i; w_j := j'; w_jstart := js; w_cur_state := cur;
                 w_bound := b; w_state := st |}.
Proof.
  intros Hc. destruct fuel as [|fuel]; [done|].
  cbn [walk w_i w_j w_jstart w_cur_state w_bound w_state].
  destruct (continue_condition js h cur b) as [[[] b']| |] eqn:E; try done.
  apply continue_condition_false in E as (Hj & ak & pr & Hak & Hle & _).
  rewrite (Hc Hj _ Hak) in Hle. done.
Qed.

Lemma build_loop_first_j (n fuel : nat) h j j' b st :
  (2 = wrap (h - 1) ->
   forall ak, load (ak_table b) h = Done ak -> p_le (widen d_one) ak = false) ->
  build_loop n fuel h j b st = build_loop n fuel h j' b st.
Proof.
  intros Hc. destruct n as [|n]; [done|]. cbn [build_loop].
  destruct (h <=? max_n b); [|done].
  destruct (init_state b st) as [[cur st1]| |] eqn:Ei; [|done..].
  cbn [mbind outcome_bind].
  apply init_state_spec in Ei as (-> & _).
  rewrite (walk_first_turn fuel h 1 j j'); done.
Qed.

Lemma walk_sim (fuel : nat) h w1 w1' w2 :
  walk fuel h w1 = Done w1' -> walk_pre h (w_jstart w1) w1 w2 ->
  1 <= w_jstart w1 <= h -> h < SIZE_MOD ->
  exists w2', walk fuel h w2 = Done w2' /\ w_i w1' = w_i w2' /\
              w_j w1' = w_j w2' /\ w_cur_state w1' = w_cur_state w2'.
Proof.
  intros H. revert w1 w2 H.
  induction fuel as [|fuel IH]; intros w1 w2 H Hw Hjs Hh; [discriminate|].
  cbn [walk] in H |- *.
  pose proof Hw as (Hi & Hj & Hjst & Hcur & (Hak & Hnk & Hpr) & Hf & Hs & Lf & Ls).
  rewrite <- Hi, <- Hj, <- Hjst, <- Hcur.
  apply bind_Done in H as ([continue b1c] & Ec & H). destruct continue.
  - apply continue_condition_true in Ec as Eb. subst b1c.
    assert (continue_condition (w_jstart w1) h (w_cur_state w1) (w_bound w2)
            = Done (true, w_bound w2)) as Ec2.
    { unfold continue_condition in Ec |- *.
      destruct (decide (w_jstart w1 = wrap (h - 1))); [|done].
      rewrite <- Hak. destruct (load (ak_table (w_bound w1)) h); try done.
      cbn [mbind outcome_bind] in Ec |- *. destruct (p_le _ _); [|done].
      destruct (store _ _ _); done. }
    rewrite Ec2. cbn [mbind outcome_bind].
    apply bind_Done in H as (wc & Ecol & H).
    pose proof (column_frame _ _ _ _ Ecol) as [Hcb Hci].
    cbn [w_bound w_i] in Hcb, Hci.
    pose proof (column_jstart _ _ _ _ Ecol) as [Hcj Hcjs];
      cbn [w_j w_jstart w_bound w_i]; [lia|lia|].
    cbn [w_j w_jstart w_bound w_i] in Hcj, Hcjs.
    rewrite Z2Nat.id in Hcj, Hcjs by lia.
    pose proof (column_sim _ _ _ _
                  {| w_i := w_i w1; w_j := w_jstart w1; w_jstart := w_jstart w1;
                     w_cur_state := w_cur_state w1; w_bound := w_bound w2;
                     w_state := w_state w2 |} (w_jstart w1) Ecol) as Hsim.
    cbn [w_j w_bound] in Hsim. rewrite Z2Nat.id in Hsim by lia.
    replace (w_jstart w1 + (h - w_jstart w1)) with h in Hsim by lia.
    destruct Hsim as (wc2 & Ecol2 & Hwc & Hb2); [|lia|lia|done|].
    { unfold walk_pre.
      cbn [w_i w_j w_jstart w_cur_state w_bound w_state]. by split_and!. }
    rewrite Ecol2. cbn [mbind outcome_bind].
    destruct Hwc as (Hi' & Hj' & Hjs' & Hcur' & Hr' & Hf' & Hs' & Lf' & Ls').
    rewrite <- Hj', <- Hjs', <- Hcur'.
    match goal with |- context [walk fuel h ?W2] =>
      destruct (IH _ W2 H) as (w2' & E2 & R);
        [|cbn [w_jstart]; case_decide; lia|done|by exists w2']
    end.
    unfold walk_pre.
    cbn [w_i w_j w_jstart w_cur_state w_bound w_state swap first second].
    rewrite Hcb, Hb2. split_and!; try done; try lia.
    eapply pre_weaken; [exact Hf'|]. case_decide; lia.
  - injection H as <-.
    apply continue_condition_false in Ec as (Hjw & ak & pr & Eak & Hle & Epr & ->).
    destruct (store_ok (pr_failure (w_bound w2)) h (w_cur_state w1)) as [pr2 Epr2];
      [lia|].
    unfold continue_condition. rewrite decide_True by done.
    rewrite <- Hak, Eak. cbn [mbind outcome_bind]. rewrite Hle, Epr2.
    cbn [mbind outcome_bind]. eexists. split; [done|]. done.
Qed.

Lemma in_step_turn h b1 b2 st2 st cur v pr1 pr2 t1 t2 :
  in_step h b1 b2 st2 -> 2 <= h <= max_n b1 ->
  store (pr_failure b1) h cur = Done pr1 ->
  store (pr_failure b2) h cur = Done pr2 ->
  store (nk_table b1) h v = Done t1 -> store (nk_table b2) h v = Done t2 ->
  plen (first st) = plen (first st2) -> plen (second st) = plen (second st2) ->
  in_step (h + 1) (set_nk_table (set_pr_failure b1 pr1) t1)
          (set_nk_table (set_pr_failure b2 pr2) t2) st.
Proof.
  intros (Hc & Hm & Hm2 & Hroom & Hak & Hcells & Hz1 & Hz2) Hh Ep1 Ep2 Et1 Et2 L1 L2.
  unfold in_step, room in *.
  cbn [confidence max_n nk_table ak_table pr_failure set_nk_table set_pr_failure].
  rewrite L1, L2, (plen_store _ _ _ _ Et2), (plen_store _ _ _ _ Ep2).
  split_and!; try done; try lia.
  - intros k Hk. destruct (decide (k = h)) as [->|Hne].
    + rewrite (load_store_eq _ _ _ _ Et1), (load_store_eq _ _ _ _ Et2).
      rewrite (load_store_eq _ _ _ _ Ep1), (load_store_eq _ _ _ _ Ep2). done.
    + rewrite (load_store_ne _ _ _ _ _ Et1), (load_store_ne _ _ _ _ _ Et2) by done.
      rewrite (load_store_ne _ _ _ _ _ Ep1), (load_store_ne _ _ _ _ _ Ep2) by done.
      apply Hcells. lia.
  - intros k Hk. rewrite (load_store_ne _ _ _ _ _ Et1) by lia. apply Hz1. lia.
  - intros k Hk. rewrite (load_store_ne _ _ _ _ _ Et2) by lia. apply Hz2. lia.
Qed.

Lemma build_loop_sim (n fuel : nat) h j b1 st1 b1' st1' b2 st2 :
  build_loop n fuel h j b1 st1 = Done (b1', st1') ->
  in_step h b1 b2 st2 -> 2 <= h <= max_n b1 + 1 ->
  exists k j' b2' st2',
    (1 <= k)%nat /\
    (forall m F, (fuel <= F)%nat ->
       build_loop (n + m) F h j b2 st2
       = build_loop (k + m) F (max_n b1 + 1) j' b2' st2') /\
    in_step (max_n b1 + 1) b1' b2' st2' /\ ak_table b2' = ak_table b2 /\
    max_n b1' = max_n b1 /\ max_n b2' = max_n b2.
Proof.
  revert h j b1 st1 b2 st2.
  induction n as [|n IH]; intros h j b1 st1 b2 st2 H Hin Hh; [discriminate|].
  destruct (decide (h <= max_n b1)) as [Hle|Hgt].
  - pose proof Hin as (Hc & Hm & Hm2 & Hroom & Hak & Hcells & Hz1 & Hz2).
    pose proof Hroom as (_ & Hlen & Hf & Hnk & Hakl & Hprl).
    apply build_loop_step in H as (cur & s1 & w1 & t1 & Ei1 & Ew1 & Et1 & H);
      [|done].
    destruct (init_state_ok b2 st2) as (s2 & Ei2 & Hl1 & Hl2); [lia..|].
    pose proof (init_state_spec _ _ _ _ Ei1) as (-> & Hz & _ & Hs0 & Hs1 & _).
    pose proof (init_state_spec _ _ _ _ Ei2) as (_ & Hz' & _ & Hs0' & Hs1' & _).
    destruct (walk_sim fuel h _ w1
                {| w_i := 1; w_j := j; w_jstart := 2;
                   w_cur_state := widen d_one; w_bound := b2; w_state := s2 |} Ew1)
      as (w2 & Ew2 & Hwi & Hwj & Hwc).
    { unfold walk_pre, reads_alike.
      cbn [w_i w_j w_jstart w_cur_state w_bound w_state].
      split_and!; try done; try lia.
      - apply Hak. lia.
      - intros k Hk. destruct (decide (k < h)); [apply Hcells; lia|].
        rewrite Hz1, Hz2 by lia. done.
      - intros k Hk. rewrite Hz, Hz' by lia. done.
      - intros k Hk. assert (k = 0 \/ k = 1) as [-> | ->] by lia; congruence. }
    { cbn [w_jstart]. lia. }
    { lia. }
    pose proof (walk_Done _ _ _ _ Ew1) as (ak1 & pr1 & _ & _ & Ep1 & Eb1 & _).
    pose proof (walk_Done _ _ _ _ Ew2) as (ak2 & pr2 & _ & _ & Ep2 & Eb2 & _).
    cbn [w_bound] in Ep1, Eb1, Ep2, Eb2.
    pose proof (walk_len _ _ _ _ (plen (first st2)) Ew2) as [Lf Ls];
      cbn [w_state]; [lia..|].
    rewrite <- Hwc in Ep2. rewrite Eb1 in Et1. cbn [nk_table set_pr_failure] in Et1.
    destruct (store_ok (nk_table b2) h (wrap (NUM_PROBES (w_i w1) (w_j w1) - 2)))
      as [t2 Et2]; [lia|].
    rewrite wrap_small in H by lia. rewrite Eb1 in H.
    destruct (IH _ _ _ _ (set_nk_table (set_pr_failure b2 pr2) t2) (w_state w2) H)
      as (k & j' & b2' & st2' & Hk & Hrun & Hin' & Hak' & Hm1' & Hm2').
    { eapply in_step_turn; eauto; lia. }
    { cbn [max_n set_nk_table set_pr_failure]. lia. }
    cbn [max_n set_nk_table set_pr_failure ak_table] in Hrun, Hin', Hak', Hm1', Hm2'.
    exists k, j', b2', st2'. split_and!; try done.
    intros m F HF. rewrite <- (Hrun m F HF).
    replace (S n + m)%nat with (S (n + m)) by lia.
    erewrite (build_loop_turn (n + m) F h j b2 st2);
      [|lia|exact Ei2|exact (walk_more_fuel _ _ _ _ _ Ew2 HF)|].
    + rewrite (wrap_small (h + 1)) by lia. rewrite <- Hwj, Eb2. reflexivity.
    + rewrite Eb2, <- Hwi, <- Hwj. exact Et2.
  - apply build_loop_exit in H as [-> ->]; [|lia].
    assert (h = max_n b1 + 1) as -> by lia.
    exists (S n), j, b2, st2. split_and!; try done. lia.
Qed.

Lemma load_resize_fresh {X : Type} (junk : nat -> X) (old : list X) (n : nat) (i : Z) :
  Z.of_nat (length old) <= i < Z.of_nat n ->
  load (Some (resize junk old n)) i = Done (junk (Z.to_nat i)).
Proof.
  intros Hi. unfold load, resize, fresh. destruct (i <? 0) eqn:E; [lia|].
  rewrite take_ge by lia.
  rewrite lookup_app_r by lia.
  rewrite list_lookup_fmap, lookup_seq_lt by lia. simpl.
  do 2 f_equal. lia.
Qed.

(** The stopping points of the hypotheses that a growth adds start as the
    allocator leaves them. *)
Lemma reallocate_bound_zero a b st e b1 st1 a1 :
  reallocate_bound a b st e = (true, b1, st1, a1) -> zero_stopping_points a ->
  forall k, plen (nk_table b) <= k < plen (nk_table b1) ->
            load (nk_table b1) k = Done 0.
Proof.
  intros Hr Hz. pose proof (reallocate_bound_drawn _ _ _ _ _ _ _ Hr) as [Hs _].
  apply succeed_S in Hs as (js1 & jp1 & a2 & -> & Hs).
  apply succeed_S in Hs as (js2 & jp2 & a3 & -> & Hs).
  apply succeed_S in Hs as (js3 & jp3 & a4 & -> & Hs).
  apply succeed_S in Hs as (js4 & jp4 & a5 & -> & Hs).
  apply succeed_S in Hs as (js5 & jp5 & a6 & -> & _).
  revert Hr. unfold reallocate_bound, realloc.
  cbn [next_alloc junk_of_prob junk_of_size mbind option_bind first second
       nk_table ak_table pr_failure set_nk_table set_ak_table set_pr_failure].
  intros [= <- <- <-] k.
  cbn [nk_table set_nk_table set_ak_table set_pr_failure].
  unfold plen at 2. cbn [default from_option]. unfold id.
  rewrite length_resize. intros Hk. unfold plen in Hk. unfold id in Hk.
  rewrite load_resize_fresh by lia. f_equal. apply Hz.
Qed.

(** A growth that returns has been granted its five allocations. *)
Lemma bound_build_grown fuel a b st e b' a' :
  bound_build fuel a (Some b) e = Done (Some b', a') ->
  2 <= max_n b < e -> nk_table b <> None -> state b = Some st ->
  exists b1 st1 b2 b3 st3,
    reallocate_bound a b st e = (true, b1, st1, a') /\
    bound_init_aks (set_max_n b1 e) = Done b2 /\
    build_loop fuel fuel (wrap (max_n b + 1)) 0 b2 st1 = Done (b3, st3) /\
    b' = set_state b3 (Some st3).
Proof.
  intros H Hm Hnk Hst.
  eapply bound_build_grow in H
    as (ok & b1 & st1 & a1 & b2 & h & b3 & st3 & Hr & Hok & H & [= ->] & ->);
    eauto; [|lia].
  destruct ok.
  - destruct Hok as [Hi ->]. exists b1, st1, b2, b3, st3. done.
  - destruct Hok as [-> ->].
    apply reallocate_bound_false in Hr as (Hm1 & _ & Hnull).
    apply build_loop_not_null in H; unfold HSTART; [|lia..].
    destruct H as (? & ? & ? & ? & ?).
    destruct Hnull as [?|[?|[?|[?|?]]]]; congruence.
Qed.

Lemma ptr_ext {X : Type} (p q : ptr X) :
  plen p = plen q -> 0 < plen p ->
  (forall k, 0 <= k < plen p -> load p k = load q k) -> p = q.
Proof.
  intros Hl Hp H. destruct (plen_Some p Hp) as [l ->].
  destruct (plen_Some q ltac:(lia)) as [l' ->].
  unfold plen in *. cbn [default from_option] in *. unfold id in *.
  f_equal. apply list_eq. intros i.
  destruct (decide (i < length l)%nat) as [Hi|Hi].
  - specialize (H (Z.of_nat i) ltac:(lia)). unfold load in H.
    destruct (Z.of_nat i <? 0) eqn:E; [lia|]. rewrite Nat2Z.id in H.
    destruct (lookup_lt_is_Some_2 l i Hi) as [x Ex].
    destruct (lookup_lt_is_Some_2 l' i ltac:(lia)) as [y Ey].
    rewrite Ex, Ey in H |- *. congruence.
  - rewrite !lookup_ge_None_2 by lia. done.
Qed.

End Steps.

(** * The claims *)

Section Claims.

Context `{FM : FloatModel}.

(** C3. After a build completes, every hypothesis [h] in [2 .. max_n] has a
    recorded stopping point, and the failure probability recorded for it is
    at most its significance level: [pr_failure[h] <= ak_table[h]]. *)
Theorem stopping_correctness (b : bound_t) (h : Z) :
  built b -> 2 <= h <= max_n b ->
  exists nk pr ak,
    load (nk_table b) h = Done nk /\
    load (pr_failure b) h = Done pr /\
    load (ak_table b) h = Done ak /\
    p_le pr ak = true.
Proof.
  intros Hb Hh.
  destruct (built_inv b Hb) as (_ & _ & _ & Hak & Hpr & _ & _ & Hnk & _).
  destruct (Hnk h Hh) as (nk & Hn & _).
  destruct (Hpr h Hh) as (pr & Hp & Hle).
  exists nk, pr, (ak_value (confidence b) h).
  split_and!; auto. apply Hak. lia.
Qed.

(** C4. After a construction and any number of later builds, the stopping
    points do not decrease: [nk_table[h1] <= nk_table[h2]] for
    [h1 < h2 <= max_n]. The graph confidence is in (0,1), so that the
    significance level of hypothesis 3 is below 1, and the calls are calls
    that have returned before their 64-bit probe counter [i] could wrap
    around, each within [limit < 2^62] turns of its loops. *)
Theorem stopping_points_monotone (limit : nat) (b : bound_t) (h1 h2 : Z) :
  built_in limit b -> Z.of_nat limit < WALK_LIMIT ->
  below_one (confidence b) ->
  0 <= h1 -> h1 < h2 <= max_n b ->
  exists v1 v2, load (nk_table b) h1 = Done v1 /\
                load (nk_table b) h2 = Done v2 /\ v1 <= v2.
Proof.
  intros Hb Hl H1 Hh1 Hh2.
  apply increasing_monotone; auto.
  - apply built_inv. eapply built_in_built. eassumption.
  - eapply built_in_increasing; eassumption.
Qed.


(** C7, as the code has it. [init_state] returns 1.0 and leaves [first] zero
    at every index below [max_n], [second[0] = 0.0] and [second[1] = 1.0];
    the cells of [second] from index 2 on keep what they held. *)
Theorem init_state_cells (b : bound_t) (st st' : bound_state_t)
    (cur : probability_t) :
  init_state b st = Done (cur, st') ->
  cur = widen d_one /\
  (forall k, 0 <= k < max_n b -> load (first st') k = Done (widen d_zero)) /\
  load (second st') 0 = Done (widen d_zero) /\
  load (second st') 1 = Done (widen d_one) /\
  (forall k, 2 <= k -> load (second st') k = load (second st) k).
Proof.
  intros H. apply init_state_spec in H as (H1 & H2 & _ & H3 & H4 & H5 & _).
  auto.
Qed.

(** C8, as the code has it. [bound_create] returns NULL whenever one of its
    seven allocations (the table, its three arrays, the state and its two
    vectors) is refused; [max_branch] plays no part in that: the call returns
    NULL for one value of [max_branch] exactly when it does for any other. *)
Theorem bound_create_alloc_failure (fuel : nat) (a : allocator) (c : double_t)
    (n mb : Z) (k : nat) :
  (k < 7)%nat -> fails_at a k ->
  forall fuel' c' mb', exists a',
    bound_create fuel a c n mb = Done (None, a') /\
    bound_create fuel' a c' n mb' = Done (None, a').
Proof.
  unfold fails_at. intros Hk Hf fuel' c' mb'.
  unfold bound_create, bound_state_create, malloc, calloc.
  destruct (next_alloc a) as [e0 a0] eqn:E0.
  destruct e0 as [|js0 jp0]; [eauto|].
  destruct k as [|k]; [rewrite drop_0, E0 in Hf; discriminate|].
  rewrite (next_alloc_drop _ _ _ _ E0) in Hf. clear E0.
  destruct (next_alloc a0) as [e1 a1] eqn:E1.
  destruct e1 as [|js1 jp1]; [eauto|].
  destruct (SIZE_MOD <=? _); [eauto|].
  destruct k as [|k]; [rewrite drop_0, E1 in Hf; discriminate|].
  rewrite (next_alloc_drop _ _ _ _ E1) in Hf. clear E1.
  destruct (next_alloc a1) as [e2 a2] eqn:E2.
  destruct e2 as [|js2 jp2]; [eauto|].
  destruct (SIZE_MOD <=? _); [eauto|].
  destruct k as [|k]; [rewrite drop_0, E2 in Hf; discriminate|].
  rewrite (next_alloc_drop _ _ _ _ E2) in Hf. clear E2.
  destruct (next_alloc a2) as [e3 a3] eqn:E3.
  destruct e3 as [|js3 jp3]; [eauto|].
  destruct k as [|k]; [rewrite drop_0, E3 in Hf; discriminate|].
  rewrite (next_alloc_drop _ _ _ _ E3) in Hf. clear E3.
  destruct (next_alloc a3) as [e4 a4] eqn:E4.
  destruct e4 as [|js4 jp4]; [eauto|].
  destruct k as [|k]; [rewrite drop_0, E4 in Hf; discriminate|].
  rewrite (next_alloc_drop _ _ _ _ E4) in Hf. clear E4.
  destruct (next_alloc a4) as [e5 a5] eqn:E5.
  destruct e5 as [|js5 jp5]; [eauto|].
  destruct k as [|k]; [rewrite drop_0, E5 in Hf; discriminate|].
  rewrite (next_alloc_drop _ _ _ _ E5) in Hf. clear E5.
  destruct (next_alloc a5) as [e6 a6] eqn:E6.
  destruct e6 as [|js6 jp6]; [eauto|].
  destruct k as [|k]; [rewrite drop_0, E6 in Hf; discriminate|].
  lia.
Qed.

(** C9. [bound_get_nk(bound, k)] returns [nk_table[k]] when the handle is
    valid and [k <= max_n]; it returns 0 when [k > max_n], when the handle is
    NULL and when its [nk_table] is NULL. In every case the table it was
    given is the table it leaves. *)
Theorem bound_get_nk_spec (bound : option bound_t) (k : Z) :
  (forall b v, bound = Some b -> k <= max_n b ->
     load (nk_table b) k = Done v -> bound_get_nk bound k = Done (v, bound)) /\
  (forall b, bound = Some b -> max_n b < k ->
     bound_get_nk bound k = Done (0, bound)) /\
  (forall b, bound = Some b -> nk_table b = None ->
     bound_get_nk bound k = Done (0, bound)) /\
  (bound = None -> bound_get_nk bound k = Done (0, bound)) /\
  (forall ret bound', bound_get_nk bound k = Done (ret, bound') -> bound' = bound).
Proof.
  split_and!.
  - intros b v -> Hk Hv. by apply bound_get_nk_cell.
  - intros b -> Hk. by apply bound_get_nk_beyond.
  - intros b -> Hn. unfold bound_get_nk. by rewrite Hn.
  - intros ->. done.
  - apply bound_get_nk_frame.
Qed.

(** C10. Entries 0 and 1 of the stopping-point table and of the
    significance-level table are 0 once [bound_create] has succeeded and
    after every later [bound_build]; [bound_get_nk] returns 0 for both. *)
Theorem dummy_entries_zero (b : bound_t) :
  built b ->
  load (nk_table b) 0 = Done 0 /\ load (nk_table b) 1 = Done 0 /\
  load (ak_table b) 0 = Done (widen d_zero) /\
  load (ak_table b) 1 = Done (widen d_zero) /\
  bound_get_nk (Some b) 0 = Done (0, Some b) /\
  bound_get_nk (Some b) 1 = Done (0, Some b).
Proof.
  intros Hb.
  destruct (built_inv b Hb) as (Hm & _ & _ & Hak & _ & H0 & H1 & _).
  split_and!; auto.
  - rewrite Hak by lia. done.
  - rewrite Hak by lia. done.
  - apply bound_get_nk_cell; [lia|done].
  - apply bound_get_nk_cell; [lia|done].
Qed.

End Claims.

(** * More of what the code does *)

Section Bounds.

Context `{FM : FloatModel}.

Implicit Types (b bound : bound_t) (st : bound_state_t).

(** X1. For [2 <= max_interfaces < SIZE_MAX], [bound_create] makes no access
    through NULL or outside a block, whatever the allocator refuses or
    leaves in uninitialised cells and however long the build runs. *)
Theorem bound_create_in_bounds (fuel : nat) (a : allocator) (c : double_t)
    (n mb : Z) :
  0 < sizeof_probability_t -> 2 <= n < SIZE_MOD - 1 ->
  safe (bound_create fuel a c n mb).
Proof.
  intros Hsz Hn. eapply ensures_safe. by apply bound_create_ok.
Qed.

(** X2. With [max_interfaces] 0 or 1 and every allocation granted,
    [bound_create] writes outside a block: [nk_table[1]] of a one-cell
    table, or [ak_table[2]] of a two-cell table. *)
Theorem bound_create_too_small (fuel : nat) (a : allocator) (c : double_t)
    (n mb : Z) :
  0 <= n < 2 -> 2 * sizeof_probability_t < SIZE_MOD -> succeed 7 a = true ->
  bound_create fuel a c n mb = Undefined.
Proof.
  intros Hn Hsz Hs.
  apply succeed_S in Hs as (js1 & jp1 & a1 & -> & Hs).
  apply succeed_S in Hs as (js2 & jp2 & a2 & -> & Hs).
  apply succeed_S in Hs as (js3 & jp3 & a3 & -> & Hs).
  apply succeed_S in Hs as (js4 & jp4 & a4 & -> & Hs).
  apply succeed_S in Hs as (js5 & jp5 & a5 & -> & Hs).
  apply succeed_S in Hs as (js6 & jp6 & a6 & -> & Hs).
  apply succeed_S in Hs as (js7 & jp7 & a7 & -> & _).
  assert (wrap (n + 1) = n + 1) as Hw by (apply wrap_small; unfold SIZE_MOD; lia).
  assert ((SIZE_MOD <=? (n + 1) * sizeof_size_t) = false) as E1.
  { apply Z.leb_gt. unfold sizeof_size_t, SIZE_MOD. lia. }
  assert ((SIZE_MOD <=? (n + 1) * sizeof_probability_t) = false) as E2.
  { apply Z.leb_gt. unfold SIZE_MOD in *. nia. }
  unfold bound_create, bound_state_create, calloc, malloc.
  rewrite Hw. cbn [next_alloc]. rewrite E1. cbn [next_alloc]. rewrite E2.
  cbn [next_alloc junk_of_prob mbind option_bind].
  assert (n = 0 \/ n = 1) as [-> | ->] by lia; reflexivity.
Qed.

(** X3. On a table a caller holds, [bound_build] makes no access through
    NULL or outside a block, when it rebuilds ([end <= max_n]) and when it
    grows the table to an [end] whose arrays fit [size_t] and the five
    reallocations are granted. *)
Theorem bound_build_in_bounds (fuel : nat) (a : allocator) (b : bound_t) (e : Z) :
  built b -> e <= max_n b \/ (fits e /\ succeed 5 a = true) ->
  safe (bound_build fuel a (Some b) e).
Proof.
  intros Hb%built_shaped He.
  destruct (decide (e <= max_n b)) as [Hle|Hgt].
  - eapply ensures_safe. by apply bound_build_rebuild_ok.
  - destruct He as [?|[Hfit Hs]]; [lia|].
    eapply ensures_safe. apply bound_build_grow_ok; auto. lia.
Qed.

(** X4. When one of the five reallocations of a growth is refused,
    [bound_build] does not return: [reallocate_bound] has stored the NULL
    result in the table, and the build loop that follows, from hypothesis 2,
    goes through that pointer (or runs for ever). *)
Theorem bound_build_refused_realloc (fuel : nat) (a : allocator) (b : bound_t)
    (e : Z) :
  built b -> max_n b < e -> succeed 5 a = false ->
  stuck (bound_build fuel a (Some b) e).
Proof.
  intros Hb He Hs.
  destruct (bound_build fuel a (Some b) e) as [[r a']| |] eqn:H; simpl; [|done..].
  destruct (built_inv _ Hb) as (Hm & Hnk & Hst & _).
  destruct (state b) as [st|] eqn:Est; [|done].
  eapply bound_build_grow in H
    as (ok & b1 & st1 & a1 & b2 & h & b3 & st3 & Hr & Hok & H & _ & _);
    eauto.
  destruct ok.
  - apply reallocate_bound_drawn in Hr as [Hr _]. congruence.
  - destruct Hok as [-> ->].
    apply reallocate_bound_false in Hr as (Hm1 & _ & Hnull).
    apply build_loop_not_null in H; unfold HSTART; [|lia..].
    destruct H as (? & ? & ? & ? & ?).
    destruct Hnull as [?|[?|[?|[?|?]]]]; congruence.
Qed.

(** X5. [reallocate_bound] multiplies without a check. When
    [(end + 1) * sizeof(probability_t)] does not fit [size_t], the byte
    count wraps around, [realloc] hands back arrays of at most [end] cells,
    and [bound_init_aks] writes past the end of [ak_table]. *)
Theorem bound_build_size_overflow (fuel : nat) (a : allocator) (b : bound_t)
    (e : Z) :
  built b -> is_size e -> max_n b < e ->
  0 < sizeof_probability_t -> SIZE_MOD <= (e + 1) * sizeof_probability_t ->
  succeed 5 a = true ->
  bound_build fuel a (Some b) e = Undefined.
Proof.
  intros Hb He Hgt Hsz Hov Hs.
  destruct (built_inv _ Hb) as (Hm & Hnk & Hst & _).
  destruct (state b) as [st|] eqn:Est; [|done].
  destruct (nk_table b) as [l|] eqn:Enk; [|done].
  unfold bound_build. rewrite Est, Enk.
  destruct (max_n b <? e) eqn:E; [|lia].
  destruct (reallocate_bound_cells a b st e Hs)
    as (b1 & st1 & -> & _ & _ & _ & Hak & _).
  destruct (bound_init_aks (set_max_n b1 e)) as [b2| |] eqn:Ei; [|done|].
  - exfalso.
    apply bound_init_aks_spec in Ei as (t & _ & Hlen & H2 & Hload & _).
    cbn [ak_table set_max_n max_n] in *.
    assert (Z.of_nat (cells (wrap (wrap (e + 1) * sizeof_probability_t))
                        sizeof_probability_t) <= e) as Hcells.
    { unfold cells. rewrite Z2Nat.id.
      2: { apply Z.div_pos; [apply wrap_range|lia]. }
      destruct (decide (e + 1 = SIZE_MOD)) as [E1|E1].
      - rewrite E1. unfold is_size in He. change (wrap SIZE_MOD) with 0.
        rewrite Z.mul_0_l. change (wrap 0) with 0. rewrite Z.div_0_l; lia.
      - unfold is_size in He. rewrite (wrap_small (e + 1)) by lia.
        pose proof (wrap_overflow _ Hov) as Hw.
        apply Z.lt_succ_r, Z.div_lt_upper_bound; [lia|].
        unfold SIZE_MOD in *. lia. }
    destruct (decide (e + 1 = SIZE_MOD)) as [E1|E1].
    + rewrite E1 in Hak. change (wrap SIZE_MOD) with 0 in Hak.
      rewrite Z.mul_0_l in Hak. change (wrap 0) with 0 in Hak.
      unfold cells in Hak. rewrite Z.div_0_l in Hak by lia.
      rewrite Hak in Hlen. lia.
    + unfold is_size in He. rewrite (wrap_small (e + 1)) in Hload by lia.
      specialize (Hload e ltac:(lia)). apply load_in_plen in Hload.
      rewrite Hlen, Hak in Hload. lia.
  - by apply bound_init_aks_ends in Ei.
Qed.

(** X6. A growth that returns has set [max_n] to [end], drawn five
    allocations and kept what the table held: the confidence, and for every
    [k <= max_n] of before the stopping point, the significance level and
    the failure probability, so that [bound_get_nk] answers as before. *)
Theorem bound_build_keeps_entries (fuel : nat) (a a' : allocator) (b b' : bound_t)
    (e : Z) :
  built b -> is_size e -> max_n b < e ->
  bound_build fuel a (Some b) e = Done (Some b', a') ->
  max_n b' = e /\ confidence b' = confidence b /\ a' = drop 5 a /\
  forall k, 0 <= k <= max_n b ->
    load (nk_table b') k = load (nk_table b) k /\
    load (ak_table b') k = load (ak_table b) k /\
    load (pr_failure b') k = load (pr_failure b) k /\
    exists v, bound_get_nk (Some b) k = Done (v, Some b) /\
              bound_get_nk (Some b') k = Done (v, Some b').
Proof.
  intros Hb He Hgt H.
  pose proof (built_inv _ Hb) as Hinv.
  pose proof (table_inv_build _ _ _ _ _ _ Hinv He H) as Hinv'.
  pose proof (built_shaped _ Hb) as (_ & st0 & _ & Hroom).
  destruct Hinv as (Hm & Hnk & Hst & Hak & Hpr & Hnk0 & Hnk1 & Hnkv & Hlen).
  destruct Hinv' as (Hm' & _ & _ & Hak' & _).
  destruct (state b) as [st|] eqn:Est; [|done].
  eapply bound_build_grow in H
    as (ok & b1 & st1 & a1 & b2 & h & b3 & st3 & Hr & Hok & H & [= ->] & ->);
    eauto.
  destruct ok.
  2: { destruct Hok as [-> ->].
       apply reallocate_bound_false in Hr as (Hm1 & _ & Hnull).
       apply build_loop_not_null in H; unfold HSTART; [|lia..].
       destruct H as (? & ? & ? & ? & ?).
       destruct Hnull as [?|[?|[?|[?|?]]]]; congruence. }
  destruct Hok as [Hi ->].
  pose proof (reallocate_bound_drawn _ _ _ _ _ _ _ Hr) as [_ ->].
  apply reallocate_bound_true in Hr
    as (Hc1 & Hm1 & _ & _ & _ & Xnk & Xak & Xpr & _).
  apply bound_init_aks_spec in Hi as (t & -> & Hlt & _).
  simpl in Hm'.
  rewrite wrap_small in H by (unfold SIZE_MOD in *; lia).
  apply build_loop_Done in H
    as (H1 & H3 & H4 & H5 & H6 & H7 & H8 & H9 & H10 & H11);
    [|unfold SIZE_MOD in *; lia].
  cbn [max_n confidence ak_table nk_table pr_failure state set_ak_table
       set_max_n set_state] in *.
  assert (e < plen (nk_table b1)) as Lnk.
  { destruct (H11 e) as (v & Hv & _); [lia|]. apply load_in_plen in Hv. lia. }
  assert (e < plen (pr_failure b1)) as Lpr.
  { destruct (H10 e) as (pr & ak & Hv & _); [lia|].
    apply load_in_plen in Hv. lia. }
  destruct Hroom as (_ & _ & _ & Rnk & Rak & Rpr).
  split_and!; [done|congruence|done|].
  intros k Hk.
  assert (load (nk_table b3) k = load (nk_table b) k) as Ek.
  { rewrite H8 by lia. apply Xnk; lia. }
  split_and!.
  - done.
  - rewrite Hak', H3, Hc1, Hak by lia. done.
  - rewrite H9 by lia. apply Xpr; lia.
  - destruct (load_ok (nk_table b) k) as [v Hv]; [lia|]. exists v.
    split; apply bound_get_nk_cell; simpl; try lia; congruence.
Qed.

End Bounds.

Section Output.

Context `{FM : FloatModel}.

Implicit Types (b bound : bound_t) (st : bound_state_t).

(** X7. The table that [bound_create] returns does not depend on what
    [malloc] leaves in the scratch vectors: two allocators that refuse the
    same requests give runs that end the same way, with the same [max_n],
    confidence, stopping points, significance levels and failure
    probabilities. *)
Theorem bound_create_ignores_junk (fuel : nat) (a1 a2 : allocator) (c : double_t)
    (n mb : Z) :
  is_size n -> same_refusals a1 a2 ->
  alike (fun r1 r2 => same_table r1.1 r2.1)
        (bound_create fuel a1 c n mb) (bound_create fuel a2 c n mb).
Proof. apply bound_create_alike. Qed.

(** X8. [bound_dump] of a table a caller holds prints one line for each
    hypothesis [0 .. max_n], in order; line [k] shows [k] and what
    [bound_get_nk(bound, k)] returns. *)
Theorem bound_dump_prints (fuel : nat) (b : bound_t) :
  built b -> max_n b + 1 < Z.of_nat fuel ->
  bound_dump fuel (Some b) = Done (nk_lines b) /\
  Z.of_nat (length (nk_lines b)) = max_n b + 1 /\
  forall k, 0 <= k <= max_n b ->
    exists v, bound_get_nk (Some b) k = Done (v, Some b) /\
              nk_lines b !! Z.to_nat k = Some (Line_nk k v).
Proof.
  intros Hb Hf. pose proof (built_shaped _ Hb) as Hs.
  split; [by apply bound_dump_shaped|].
  destruct Hs as (Hm & st & Hst & _ & _ & _ & Hnk & _).
  destruct (plen_Some (nk_table b)) as [l0 E]; [lia|].
  unfold nk_lines. rewrite E in *. simpl default.
  unfold plen in Hnk. simpl in Hnk. split.
  - rewrite length_lines, length_take. lia.
  - intros k Hk. destruct (lookup_lt_is_Some_2 l0 (Z.to_nat k)) as [v Hv]; [lia|].
    exists v. split.
    + apply bound_get_nk_cell; [lia|]. rewrite E. apply load_lookup; [lia|done].
    + rewrite lines_lookup, lookup_take_lt, Hv by lia. simpl. do 2 f_equal. lia.
Qed.

(** X9. [bound_failure_dump] of a table a caller holds prints the heading
    and then one line for each hypothesis [0 .. max_n], in order; line [k]
    shows [k] and [pr_failure[k]]. *)
Theorem bound_failure_dump_prints (fuel : nat) (b : bound_t) :
  built b -> max_n b + 1 < Z.of_nat fuel ->
  bound_failure_dump fuel (Some b) = Done (failure_lines b) /\
  Z.of_nat (length (failure_lines b)) = max_n b + 2 /\
  failure_lines b !! 0%nat = Some Expected_failure /\
  forall k, 0 <= k <= max_n b ->
    exists p, load (pr_failure b) k = Done p /\
              failure_lines b !! S (Z.to_nat k) = Some (Line_failure k p).
Proof.
  intros Hb Hf. pose proof (built_shaped _ Hb) as Hs.
  split; [by apply bound_failure_dump_shaped|].
  destruct Hs as (Hm & st & Hst & _ & _ & _ & _ & _ & Hpr).
  destruct (plen_Some (pr_failure b)) as [l0 E]; [lia|].
  unfold failure_lines. rewrite E in *. simpl default.
  unfold plen in Hpr. simpl in Hpr. split_and!.
  - simpl. rewrite length_lines, length_take. lia.
  - done.
  - intros k Hk. destruct (lookup_lt_is_Some_2 l0 (Z.to_nat k)) as [p Hp]; [lia|].
    exists p. split.
    + apply load_lookup; [lia|done].
    + simpl. rewrite lines_lookup, lookup_take_lt, Hp by lia. simpl.
      do 2 f_equal. lia.
Qed.

(** X10. [bound_create] keeps the heap in balance. With the error exits
    left out it is [bound_create]; when it returns NULL, every block it
    had obtained has been released; when it returns a table, seven blocks
    are held, and [bound_free] releases the seven. *)
Theorem bound_create_heap (fuel : nat) (a a' : allocator) (c : double_t)
    (n mb live live' : Z) (ob : option bound_t) :
  is_size n -> is_size mb ->
  bound_create_live fuel a c n mb live = Done (ob, a', live') ->
  bound_create fuel a c n mb = Done (ob, a') /\
  (ob = None -> live' = live) /\
  (ob <> None -> live' = live + 7) /\
  bound_free ob live' = live.
Proof.
  intros Hn Hmb H.
  pose proof (bound_create_live_spec fuel a c n mb live) as Hl.
  rewrite H in Hl.
  destruct (bound_create fuel a c n mb) as [[ob' a'']| |] eqn:Ec; simpl in Hl;
    try done.
  destruct Hl as [[= <- <-] Hlive]. split; [done|].
  destruct ob as [b|]; cbn [fst] in Hlive; subst live'.
  - split_and!; [done|done|].
    rewrite bound_free_shaped; [lia|].
    apply built_shaped. exact (built_create _ _ _ _ _ _ _ Hn Hmb Ec).
  - split_and!; done.
Qed.

(** X11. On any table a caller holds, after any number of builds,
    [bound_free] releases seven blocks: the table, its three arrays, the
    state and both scratch vectors; none of these pointers is NULL.
    [bound_free(NULL)] releases nothing. *)
Theorem bound_free_releases (b : bound_t) (live : Z) :
  built b ->
  bound_free (Some b) live = live - 7 /\ bound_free None live = live /\
  nk_table b <> None /\ ak_table b <> None /\ pr_failure b <> None /\
  exists st, state b = Some st /\ first st <> None /\ second st <> None.
Proof.
  intros Hb%built_shaped. split; [by apply bound_free_shaped|]. split; [done|].
  destruct Hb as (Hm & st & Hst & _ & Hlen & Hf & Hnk & Hak & Hpr).
  destruct (plen_Some (nk_table b)) as [l1 E1]; [lia|].
  destruct (plen_Some (ak_table b)) as [l2 E2]; [lia|].
  destruct (plen_Some (pr_failure b)) as [l3 E3]; [lia|].
  destruct (plen_Some (first st)) as [l4 E4]; [lia|].
  destruct (plen_Some (second st)) as [l5 E5]; [lia|].
  rewrite E1, E2, E3. split_and!; try done.
  exists st. rewrite E4, E5. done.
Qed.

End Output.

(** ** flow.c *)

Section Flows.

Context `{FM : FloatModel}.

Variable mda_flow_state_t : Type.

(** X12. [mda_flow_create] returns NULL exactly when its allocation is
    refused, and the heap is then as before; otherwise the flow holds the
    identifier and the state it was given, and [mda_flow_free] releases its
    one block. [mda_flow_free(NULL)] releases nothing. *)
Theorem mda_flow_create_free (a : allocator) (id : Z) (s : mda_flow_state_t)
    (live : Z) :
  match Flow.mda_flow_create mda_flow_state_t a id s live with
  | (None, a', live') =>
      (next_alloc a).1 = AllocFail /\ a' = (next_alloc a).2 /\ live' = live
  | (Some flow, a', live') =>
      (next_alloc a).1 <> AllocFail /\ a' = (next_alloc a).2 /\
      Flow.flow_id _ flow = id /\ Flow.state _ flow = s /\
      live' = live + 1 /\
      Flow.mda_flow_free _ (Some flow) live' = live
  end /\
  Flow.mda_flow_free mda_flow_state_t None live = live.
Proof.
  unfold Flow.mda_flow_create, Flow.mda_flow_free.
  destruct (next_alloc a) as [[|js jp] a']; simpl; split_and!; auto; lia.
Qed.

End Flows.

(** ** main *)

Module MainRun.

Import X86_64 Tables Table16 Main.

Lemma SFsame_eq (x y : spec_float) : SFsame x y = true -> x = y.
Proof.
  destruct x as [s|s| |s m e], y as [s'|s'| |s' m' e']; simpl; try done.
  - intros ->%Bool.eqb_prop. done.
  - intros ->%Bool.eqb_prop. done.
  - intros [[->%Bool.eqb_prop ->%Pos.eqb_eq]%andb_prop ->%Z.eqb_eq]%andb_prop.
    done.
Qed.

Lemma load_fmap_seqZ {X : Type} (f : Z -> X) (n k : Z) :
  0 <= k < n -> load (Some (f <$> seqZ 0 n)) k = Done (f k).
Proof.
  intros Hk. unfold load. destruct (k <? 0) eqn:E; [lia|].
  rewrite list_lookup_fmap, lookup_seqZ_lt by lia. simpl.
  do 2 f_equal. lia.
Qed.

(** The walks of the hypotheses 2 to 16, for each value that an accurate
    [pow] can give the significance level, evaluated. *)
Lemma all_stop_checked (libm_pow : spec_float -> spec_float -> spec_float) :
  forallb
    (fun h =>
       forallb
         (fun ak =>
            stopped libm_pow h
              (walk (FM := float_model_with libm_pow) 200 h
                 (reference libm_pow h ak)))
         (levels h))
    (seqZ 2 15) = true.
Proof. vm_cast_no_check (eq_refl true). Qed.

Lemma stopped_Done (libm_pow : spec_float -> spec_float -> spec_float) (h : Z)
    (o : outcome (@walk_t (float_model_with libm_pow))) :
  stopped libm_pow h o = true ->
  exists w, o = Done w /\
            wrap (NUM_PROBES (w_i w) (w_j w) - 2) = built_nk (h + 1) h /\
            w_cur_state w = built_pr (h + 1) h.
Proof.
  destruct o as [w| |]; [|discriminate..]. unfold stopped.
  intros [H1 H2]%andb_prop. exists w. split; [reflexivity|].
  split; [apply Z.eqb_eq, H1|apply SFsame_eq, H2].
Qed.

Section Robust.

Variable libm_pow : spec_float -> spec_float -> spec_float.

Hypothesis Hpow : accurate libm_pow.

Notation "'FMp'" := (float_model_with libm_pow) (at level 0).

Lemma reference_stops (h : Z) (ak : spec_float) :
  2 <= h <= 16 -> In ak (levels h) ->
  exists w, walk (FM := FMp) 200 h (reference libm_pow h ak) = Done w /\
            wrap (NUM_PROBES (w_i w) (w_j w) - 2) = built_nk (h + 1) h /\
            w_cur_state w = built_pr (h + 1) h.
Proof.
  intros Hh Hak.
  assert (In h (seqZ 2 15)) as Hin by (apply list_elem_of_In, elem_of_seqZ; lia).
  pose proof (proj1 (forallb_forall _ _) (all_stop_checked libm_pow) h Hin) as H.
  pose proof (proj1 (forallb_forall _ _) H ak Hak) as Hs.
  exact (stopped_Done libm_pow h _ Hs).
Qed.

Lemma node16_confidence :
  node_confidence (FM := FMp) (decimal 5 2) 1 = node16.
Proof.
  unfold node_confidence.
  cbn [float_model_with d_div d_one d_of_size d_sub pow].
  change (SFdiv 53 1024 (SF64 1) (SF64 1)) with (SF64 1).
  change (SFsub 53 1024 (SF64 1) (decimal 5 2)) with one_minus_confidence.
  destruct Hpow as (-> & _). reflexivity.
Qed.

Lemma level_accurate (h : Z) :
  2 <= h <= 16 -> In (ak_value (FM := FMp) node16 h) (levels h).
Proof.
  intros Hh. destruct Hpow as (_ & H1 & Hk).
  unfold ak_value, levels.
  cbn [float_model_with d_div d_one d_of_size d_sub d_mul d_r pow widen d_zero].
  destruct (h <? 2) eqn:E1; [lia|].
  destruct (h =? 2) eqn:E2; [left; reflexivity|].
  rewrite wrap_small by (unfold SIZE_MOD; lia).
  change (SFdiv 53 1024 (SF64 9) (SF64 10)) with (decimal 9 1).
  destruct (h =? 3) eqn:E3.
  - apply Z.eqb_eq in E3 as ->. change (3 - 2) with 1. rewrite H1.
    left. reflexivity.
  - apply (in_map level). apply Hk. lia.
Qed.

Lemma built_nk_next (h k : Z) : k <> h -> built_nk (h + 1) k = built_nk h k.
Proof.
  intros Hk. unfold built_nk.
  destruct (Z.ltb_spec k (h + 1)), (Z.ltb_spec k h); try reflexivity; lia.
Qed.

Lemma built_pr_next (h k : Z) : k <> h -> built_pr (h + 1) k = built_pr h k.
Proof.
  intros Hk. unfold built_pr.
  destruct (Z.ltb_spec k (h + 1)), (Z.ltb_spec k h); try reflexivity; lia.
Qed.

(** One hypothesis of the build of [main]. *)
Lemma build_step (n fuel : nat) (h j : Z) (b : @bound_t FMp)
    (st : @bound_state_t FMp) :
  built_to libm_pow h b st -> 2 <= h <= 16 -> (200 <= fuel)%nat ->
  exists j' b' st',
    build_loop (FM := FMp) (S n) fuel h j b st
    = build_loop n fuel (h + 1) j' b' st' /\
    built_to libm_pow (h + 1) b' st'.
Proof.
  intros (Hc & Hroom & Hnk & Hpr & Hak) Hh Hf.
  pose proof Hroom as (Hm & Hlen & Lf & Lnk & Lak & Lpr).
  destruct (init_state_ok b st) as (st1 & Ei & Hl1 & Hl2); [lia..|].
  pose proof (init_state_spec _ _ _ _ Ei) as (_ & Hz & _ & Hs0 & Hs1 & _).
  destruct (reference_stops h (ak_value (FM := FMp) node16 h) Hh
              (level_accurate h Hh))
    as (w1 & Ew1 & Hn1 & Hc1).
  destruct (walk_sim 200 h _ w1
              (@Build_walk_t FMp 1 0 2 (widen d_one) b st1) Ew1)
    as (w2 & Ew2 & Hwi & Hwj & Hwc).
  { unfold walk_pre, reads_alike, reference.
    cbn [w_i w_j w_jstart w_cur_state w_bound w_state nk_table ak_table
         pr_failure first second].
    split_and!; try reflexivity; try lia.
    - rewrite load_replicate by lia. rewrite Hak by lia. reflexivity.
    - intros k Hk. rewrite load_fmap_seqZ by lia. rewrite Hnk by lia.
      reflexivity.
    - intros k Hk. rewrite load_replicate by lia. rewrite Hz by lia.
      reflexivity.
    - intros k Hk. assert (k = 0 \/ k = 1) as [-> | ->] by lia.
      + rewrite Hs0. reflexivity.
      + rewrite Hs1. reflexivity. }
  { unfold reference. cbn [w_jstart]. lia. }
  { unfold SIZE_MOD. lia. }
  pose proof (walk_Done _ _ _ _ Ew2) as (ak2 & pr2 & _ & _ & Ep2 & Eb2 & _).
  cbn [w_bound] in Ep2, Eb2.
  pose proof (walk_len _ _ _ _ (plen (first st)) Ew2) as [Lf2 Ls2];
    cbn [w_state]; [lia..|].
  destruct (store_ok (nk_table b) h (wrap (NUM_PROBES (w_i w2) (w_j w2) - 2)))
    as [t2 Et2]; [lia|].
  exists (w_j w2), (set_nk_table (w_bound w2) t2), (w_state w2). split.
  - rewrite (build_loop_first_j (S n) fuel h j 0).
    2:{ rewrite wrap_small by (unfold SIZE_MOD; lia). intros E ak Hl.
        assert (h = 3) as -> by lia. rewrite Hak in Hl by lia.
        injection Hl as <-.
        destruct (level_accurate 3 ltac:(lia)) as [<-|[]]. reflexivity. }
    erewrite (build_loop_turn n fuel h 0 b st);
      [|lia|exact Ei|exact (walk_more_fuel _ _ _ _ _ Ew2 Hf)|].
    + rewrite (wrap_small (h + 1)) by (unfold SIZE_MOD; lia). reflexivity.
    + rewrite Eb2. exact Et2.
  - rewrite Eb2. unfold built_to, room.
    cbn [confidence max_n nk_table ak_table pr_failure set_nk_table
         set_pr_failure].
    rewrite Lf2, Ls2, (plen_store _ _ _ _ Et2), (plen_store _ _ _ _ Ep2).
    split_and!; try done; try lia.
    + intros k Hk. destruct (decide (k = h)) as [->|Hne].
      * rewrite (load_store_eq _ _ _ _ Et2), <- Hwi, <- Hwj, Hn1. reflexivity.
      * rewrite (load_store_ne _ _ _ _ _ Et2), built_nk_next by done.
        apply Hnk. lia.
    + intros k Hk. destruct (decide (k = h)) as [->|Hne].
      * rewrite (load_store_eq _ _ _ _ Ep2), <- Hwc, Hc1. reflexivity.
      * rewrite (load_store_ne _ _ _ _ _ Ep2), built_pr_next by done.
        apply Hpr. lia.
Qed.

(** The hypotheses from [h] to 16. *)
Lemma build_run (n fuel : nat) (h j : Z) (b : @bound_t FMp)
    (st : @bound_state_t FMp) :
  built_to libm_pow h b st -> 2 <= h <= 17 -> 17 - h < Z.of_nat n ->
  (200 <= fuel)%nat ->
  exists b' st', build_loop (FM := FMp) n fuel h j b st = Done (b', st') /\
                 built_to libm_pow 17 b' st'.
Proof.
  revert h j b st. induction n as [|n IH]; intros h j b st Hb Hh Hn Hf; [lia|].
  destruct (decide (h = 17)) as [->|Hne].
  - exists b, st. split; [|done]. apply build_loop_end.
    destruct Hb as (_ & (-> & _) & _). lia.
  - destruct (build_step n fuel h j b st Hb ltac:(lia) Hf)
      as (j' & b' & st' & -> & Hb').
    apply IH; auto; lia.
Qed.

Lemma load_nth {X : Type} (l : list X) (d : X) (k : Z) :
  0 <= k < Z.of_nat (length l) ->
  load (Some l) k = Done (nth (Z.to_nat k) l d).
Proof.
  intros Hk. apply load_lookup; [lia|].
  destruct (nth_lookup_or_length l (Z.to_nat k) d) as [E|E]; [exact E|lia].
Qed.

(** [bound_create(.05, 16, 1)] returns the table that [main] prints. *)
Lemma table16_built (fuel : nat) (a : @allocator FMp) :
  succeed 7 a = true -> (200 <= fuel)%nat ->
  exists b, bound_create (FM := FMp) fuel a (decimal 5 2) 16 1
              = Done (Some b, drop 7 a) /\
            max_n b = 16 /\ nk_table b = Some stopping_points /\
            pr_failure b = Some failure_probabilities.
Proof.
  intros Hs Hf.
  assert (fits (FM := FMp) 16) as Hfit.
  { unfold fits, sizeof_size_t, SIZE_MOD. cbn [sizeof_probability_t float_model_with].
    lia. }
  destruct (bound_create_begin fuel a (decimal 5 2) 16 1 Hs Hfit ltac:(lia))
    as (b0 & st0 & Ec & Hc & Hm & Hst & Hnk & Hak & Hpr
        & Lnk & Lak & Lpr & Lf & Ls).
  rewrite node16_confidence in Hc.
  assert (built_to libm_pow 2 b0 st0) as Hb0.
  { unfold built_to, room. rewrite Hc, Hm, Lf, Ls, Lnk, Lak, Lpr.
    split_and!; try done; try lia.
    - intros k Hk. rewrite Hnk by lia. unfold built_nk.
      destruct (Z.ltb_spec k 2); [|reflexivity].
      assert (k = 0 \/ k = 1) as [-> | ->] by lia; reflexivity.
    - intros k Hk. rewrite Hpr by lia. unfold built_pr.
      destruct (Z.ltb_spec k 2); [|reflexivity].
      assert (k = 0 \/ k = 1) as [-> | ->] by lia; reflexivity.
    - intros k Hk. rewrite Hak by lia. rewrite Hc. reflexivity. }
  destruct (build_run fuel fuel 2 0 b0 st0 Hb0) as (b1 & st1 & Hrun & Hb1);
    [lia|lia|done|].
  pose proof (build_loop_Done _ _ _ _ _ _ _ _ Hrun ltac:(unfold SIZE_MOD; lia))
    as (Dm & _ & _ & _ & Dlnk & Dlpr & _).
  destruct Hb1 as (_ & _ & Hnk1 & Hpr1 & _).
  exists (set_state b1 (Some st1)). split.
  - rewrite Ec. apply (bound_build_rebuild_run _ _ _ st0); try done.
    + destruct (plen_Some (nk_table b0)) as [l ->]; [lia|done].
    + lia.
  - cbn [max_n nk_table pr_failure set_state]. split; [lia|]. split.
    + apply ptr_ext; [rewrite Dlnk, Lnk; reflexivity|lia|].
      intros k Hk. rewrite Hnk1 by lia.
      rewrite (load_nth _ 0) by (change (length stopping_points) with 17%nat; lia).
      unfold built_nk. destruct (Z.ltb_spec k 17); [reflexivity|lia].
    + apply ptr_ext; [rewrite Dlpr, Lpr; reflexivity|lia|].
      intros k Hk. rewrite Hpr1 by lia.
      rewrite (load_nth _ (S754_zero false))
        by (change (length failure_probabilities) with 17%nat; lia).
      unfold built_pr. destruct (Z.ltb_spec k 17); [reflexivity|lia].
Qed.

(** X13. [main] on x86-64, when its seven allocations are granted and
    [pow] is accurate where [main] uses it: whatever the allocator leaves
    in uninitialised cells, it prints the stopping points 0, 0, 9, 17, 24,
    33, 42, 51, 60, 70, 81, 91, 102, 113, 125, 136, 148 for the hypotheses
    0 to 16, then the heading and the seventeen failure probabilities,
    releases every block and returns 0. *)
Theorem main_prints_table (fuel : nat)
    (a : @allocator (float_model_with libm_pow)) (live : Z) :
  succeed 7 a = true -> (200 <= fuel)%nat ->
  main_with libm_pow fuel a live
  = Done (0, lines (@Line_nk (float_model_with libm_pow)) 0 stopping_points
             ++ @Expected_failure (float_model_with libm_pow)
                :: lines (@Line_failure (float_model_with libm_pow)) 0
                     failure_probabilities,
          live).
Proof.
  intros Hs Hf.
  destruct (table16_built fuel a Hs Hf) as (b & Ec & Hm & Hnk & Hpr).
  assert (built b) as Hb.
  { apply (built_create fuel a (decimal 5 2) 16 1 b (drop 7 a)); [| |exact Ec];
      unfold is_size, SIZE_MOD; lia. }
  pose proof (built_shaped _ Hb) as Hsh.
  pose proof (bound_create_live_spec fuel a (decimal 5 2) 16 1 live) as Hl.
  rewrite Ec in Hl. unfold main_with.
  destruct (bound_create_live fuel a (decimal 5 2) 16 1 live)
    as [[[ob a''] live']| |]; try done.
  destruct Hl as [[= -> ->] Hlive]. cbn [fst snd] in Hlive. subst live'.
  cbn [mbind outcome_bind].
  rewrite bound_dump_shaped, bound_failure_dump_shaped by (auto; lia).
  cbn [mbind outcome_bind]. rewrite bound_free_shaped by done.
  unfold nk_lines, failure_lines. rewrite Hm, Hnk, Hpr.
  cbn [default from_option]. unfold id.
  change (Z.to_nat (16 + 1)) with 17%nat.
  rewrite !take_ge by (simpl; lia).
  do 3 f_equal. lia.
Qed.

End Robust.

(** X14. [main] does not check what [bound_create] returns. When one of
    the seven allocations is refused, it passes NULL to [bound_dump], which
    reads [bound->max_n]. *)
Theorem main_null_deref (fuel : nat) (a : allocator) (live : Z) :
  succeed 7 a = false -> main fuel a live = Undefined.
Proof.
  intros Hs.
  destruct (bound_create_refused fuel a (decimal 5 2) 16 1 Hs) as [a' Hc].
  pose proof (bound_create_live_spec fuel a (decimal 5 2) 16 1 live) as Hl.
  rewrite Hc in Hl. unfold main, main_with.
  change (float_model_with pow64) with float_model.
  destruct (bound_create_live fuel a (decimal 5 2) 16 1 live)
    as [[[ob a''] live']| |]; try done.
  destruct Hl as [[= -> ->] _]. reflexivity.
Qed.

End MainRun.

Section Guards.

Context `{FM : FloatModel}.

Implicit Types (b bound : bound_t) (st : bound_state_t).

(** X18. [reallocate_bound] returns true exactly when the next five
    allocations are granted. It never touches [max_n] or the confidence.
    When it returns true it has drawn five allocations, and each of the
    five arrays is a new block that holds the old cells. *)
Theorem reallocate_bound_grants (a : allocator) (b : bound_t) (st : bound_state_t)
    (e : Z) :
  let '(ok, b1, st1, a1) := reallocate_bound a b st e in
  ok = succeed 5 a /\ max_n b1 = max_n b /\ confidence b1 = confidence b /\
  (ok = true ->
   a1 = drop 5 a /\
   extends (first st) (first st1) /\ extends (second st) (second st1) /\
   extends (nk_table b) (nk_table b1) /\ extends (ak_table b) (ak_table b1) /\
   extends (pr_failure b) (pr_failure b1)).
Proof.
  destruct (reallocate_bound a b st e) as [[[ok b1] st1] a1] eqn:E.
  destruct ok.
  - pose proof (reallocate_bound_drawn _ _ _ _ _ _ _ E) as [Hs ->].
    apply reallocate_bound_true in E as (Hc & Hm & _ & H1 & H2 & H3 & H4 & H5 & _).
    split_and!; auto. intros _. by split_and!.
  - pose proof (reallocate_bound_false _ _ _ _ _ _ _ E) as (Hm & Hc & _).
    split_and!; auto; [|done].
    destruct (succeed 5 a) eqn:Hs; [|done].
    destruct (reallocate_bound_cells a b st e Hs) as (b2 & st2 & E2 & _).
    congruence.
Qed.

(** X19. [bound_build] returns at once, with nothing allocated and the
    table as it was, for a NULL handle and for a table whose [nk_table] or
    [state] is NULL. It does not check [ak_table], [pr_failure] or the two
    scratch vectors: if one of them is NULL, a rebuild of a table with
    [max_n >= 2] does not return. *)
Theorem bound_build_null_handling (fuel : nat) (a : allocator) (b : bound_t)
    (st : bound_state_t) (e : Z) :
  bound_build fuel a None e = Done (None, a) /\
  (nk_table b = None \/ state b = None ->
   bound_build fuel a (Some b) e = Done (Some b, a)) /\
  (nk_table b <> None -> state b = Some st -> 2 <= max_n b -> e <= max_n b ->
   ak_table b = None \/ pr_failure b = None \/
   first st = None \/ second st = None ->
   stuck (bound_build fuel a (Some b) e)).
Proof.
  split_and!; [done|apply bound_build_null|].
  intros Hnk Hst Hm He Hnull.
  destruct (bound_build fuel a (Some b) e) as [[r a']| |] eqn:H; simpl; [|done..].
  eapply bound_build_rebuild in H as (b1 & st1 & H & _); eauto.
  apply build_loop_not_null in H; unfold HSTART; [|lia..].
  destruct H as (? & ? & ? & ? & ?).
  destruct Hnull as [?|[?|[?|?]]]; congruence.
Qed.

End Guards.

Section InSteps.

Context `{FM : FloatModel}.

Implicit Types (b bound : bound_t) (st : bound_state_t).

(** X21. Building in steps gives the table of building at once. Let
    [bound_create] for [n1 >= 2] hypotheses and then [bound_build] to
    [n2 > n1] hypotheses both return, where the cells that [realloc] adds to
    [nk_table] hold zero and the significance level of hypothesis 3 is below
    1. Then [bound_create] for [n2] hypotheses, with the same confidence and
    branching, its seven allocations granted and at least as much fuel as
    the two calls together, returns as well, and its table has the same
    [max_n], the same confidence and the same three arrays, cell for cell,
    whatever else the allocators leave in uninitialised memory. (The last
    hypothesis is used for [n1 = 2] only: at hypothesis 3 a walk that stops
    at its first test records the [j] left by the walk before it, which
    [bound_build] starts from 0 at each call.) *)
Theorem bound_build_in_steps (fuel1 fuel2 fuel' : nat) (a1 a1' a2 a2' a3 : allocator)
    (c : double_t) (mb n1 n2 : Z) (b1 b2 : bound_t) :
  2 <= n1 < n2 -> fits n2 ->
  bound_create fuel1 a1 c n1 mb = Done (Some b1, a1') ->
  bound_build fuel2 a2 (Some b1) n2 = Done (Some b2, a2') ->
  zero_stopping_points a2 -> below_one (node_confidence c mb) ->
  succeed 7 a3 = true -> (fuel1 + fuel2 <= fuel')%nat ->
  exists b3, bound_create fuel' a3 c n2 mb = Done (Some b3, drop 7 a3) /\
             bound_agree b2 b3.
Proof.
  intros Hn Hfit Hc1 Hb2 Hz Hone Hs3 Hfuel.
  assert (fits n1) as Hfit1.
  { destruct Hfit as (? & ? & ?). unfold fits, sizeof_size_t in *.
    split_and!; [done|nia|lia]. }
  assert (n2 + 1 < SIZE_MOD) as Hn2.
  { destruct Hfit as (? & ? & ?). unfold sizeof_size_t in *. lia. }
  assert (succeed 7 a1 = true) as Hs1.
  { destruct (succeed 7 a1) eqn:E; [done|].
    destruct (bound_create_refused fuel1 a1 c n1 mb E) as [a' E']. congruence. }
  destruct (bound_create_begin fuel1 a1 c n1 mb Hs1 Hfit1 ltac:(lia))
    as (s0 & sst0 & Ecs & Hcs & Hms & Hsts & Hnks & Haks & Hprs
        & Lnk & Lak & Lpr & Lf & Ls).
  destruct (bound_create_begin fuel' a3 c n2 mb Hs3 Hfit ltac:(lia))
    as (t0 & tst0 & Ect & Hct & Hmt & Hstt & Hnkt & Hakt & Hprt
        & Lnkt & Lakt & Lprt & Lft & Lst).
  assert (nk_table s0 <> None) as Hnn.
  { destruct (plen_Some (nk_table s0)) as [l ->]; [lia|done]. }
  assert (nk_table t0 <> None) as Hnnt.
  { destruct (plen_Some (nk_table t0)) as [l ->]; [lia|done]. }
  rewrite Ecs in Hc1.
  eapply bound_build_rebuild in Hc1 as (s1 & sst1 & Hrun1 & [= ->] & ->);
    [|lia|exact Hnn|exact Hsts].
  unfold HSTART in Hrun1.
  pose proof (build_loop_Done _ _ _ _ _ _ _ _ Hrun1 ltac:(unfold SIZE_MOD; lia))
    as (Dm & Dc & Dak & _ & Dlnk & Dlpr & _).
  (* the hypotheses 2 .. n1 *)
  destruct (build_loop_sim _ _ _ _ _ _ _ _ t0 tst0 Hrun1)
    as (k1 & j1 & t1 & tst1 & _ & Hsim1 & Hin1 & Hak1 & Hm1 & Hm1t).
  { unfold in_step, room. rewrite Hcs, Hct, Hms, Hmt, Lft, Lst, Lnkt, Lakt, Lprt.
    split_and!; try done; try lia.
    - intros k Hk. rewrite Haks, Hakt, Hcs, Hct by lia. done.
    - intros k Hk. rewrite Hnks, Hnkt, Hprs, Hprt by lia. done.
    - intros k Hk. apply Hnks. lia.
    - intros k Hk. apply Hnkt. lia. }
  { lia. }
  rewrite Hms in Hsim1, Hin1.
  (* the growth *)
  eapply (bound_build_grown _ _ _ sst1) in Hb2
    as (r1 & rst1 & r2 & s3 & sst3 & Hr & Hi & Hrun2 & ->);
    [|cbn [max_n set_state]; lia|cbn [nk_table set_state]|done].
  2:{ destruct (plen_Some (nk_table s1)) as [l ->]; [lia|done]. }
  cbn [max_n set_state] in Hrun2. rewrite Dm, Hms in Hrun2.
  rewrite wrap_small in Hrun2 by lia.
  pose proof (reallocate_bound_drawn _ _ _ _ _ _ _ Hr) as [Hs2 _].
  destruct (reallocate_bound_ok a2 (set_state s1 (Some sst1)) sst1 n2 Hs2 Hfit
              ltac:(lia)) as (r1' & rst1' & Hr' & _ & _ & Rnk & Rak & Rpr).
  rewrite Hr in Hr'. injection Hr' as <- <- _.
  pose proof (reallocate_bound_true _ _ _ _ _ _ _ Hr)
    as (Rc & Rm & _ & _ & _ & [_ Xnk] & _ & [_ Xpr] & _).
  pose proof (reallocate_bound_zero _ _ _ _ _ _ _ Hr Hz) as Rz.
  cbn [confidence max_n nk_table pr_failure set_state] in Rc, Rm, Xnk, Xpr, Rz.
  apply bound_init_aks_spec in Hi as (t & -> & Tl & _ & Tak & _).
  cbn [confidence max_n ak_table set_max_n] in Tl, Tak.
  rewrite wrap_small in Tak by lia.
  pose proof Hin1 as (Ic & Im & Im2 & Iroom & Iak & Icells & Iz1 & Iz2).
  pose proof (build_loop_Done _ _ _ _ _ _ _ _ Hrun2 ltac:(lia))
    as (Em & Ec & Eak & _ & Elnk & Elpr & _).
  cbn [confidence max_n nk_table ak_table pr_failure set_ak_table set_max_n]
    in Em, Ec, Eak, Elnk, Elpr.
  destruct (build_loop_sim _ _ _ _ _ _ _ _ t1 tst1 Hrun2)
    as (k2 & j2 & t2 & tst2 & Hk2 & Hsim2 & Hin2 & Hak2 & Hm2 & Hm2t).
  { unfold in_step.
    cbn [confidence max_n nk_table ak_table pr_failure set_ak_table set_max_n].
    split_and!; try done; try lia.
    - congruence.
    - intros k Hk. rewrite Tak by lia. rewrite Hak1, Hakt by lia. congruence.
    - intros k Hk. rewrite Xnk, Xpr by lia. apply Icells. lia.
    - intros k Hk. apply Rz. lia. }
  { cbn [max_n set_ak_table set_max_n]. lia. }
  cbn [max_n set_ak_table set_max_n] in Hsim2, Hin2, Hm2.
  (* the whole build at once *)
  assert (build_loop fuel' fuel' 2 0 t0 tst0 = Done (t2, tst2)) as Hrun3.
  { replace fuel' with (fuel1 + (fuel' - fuel1))%nat at 1 by lia.
    rewrite Hsim1 by lia.
    rewrite (build_loop_first_j _ _ _ j1 0).
    2:{ rewrite wrap_small by lia. intros E ak. replace (n1 + 1) with 3 by lia.
        rewrite Hak1, Hakt by lia. intros [= <-]. rewrite Hct. exact Hone. }
    replace (k1 + (fuel' - fuel1))%nat
      with (fuel2 + (k1 + (fuel' - fuel1) - fuel2))%nat by lia.
    rewrite Hsim2 by lia.
    destruct (k2 + (k1 + (fuel' - fuel1) - fuel2))%nat as [|k] eqn:Ek; [lia|].
    apply build_loop_end. lia. }
  pose proof (build_loop_Done _ _ _ _ _ _ _ _ Hrun3 ltac:(unfold SIZE_MOD; lia))
    as (Fm & Fc & Fak & _ & Flnk & Flpr & _).
  exists (set_state t2 (Some tst2)). split.
  - rewrite Ect. apply (bound_build_rebuild_run _ _ _ tst0); try done. lia.
  - destruct Hin2 as (Jc & _ & _ & _ & Jak & Jcells & _).
    unfold bound_agree.
    cbn [confidence max_n nk_table ak_table pr_failure set_state].
    split_and!.
    + done.
    + lia.
    + apply ptr_ext; [lia|lia|]. intros k Hk. apply Jcells. lia.
    + assert (plen (ak_table s3) = n2 + 1) as Elak by congruence.
      apply ptr_ext; [congruence|lia|]. intros k Hk. apply Jak. lia.
    + apply ptr_ext; [lia|lia|]. intros k Hk. apply Jcells. lia.
Qed.

End InSteps.

(** * Runs on x86-64 *)

Module Runs.

Import X86_64 Tables.

(** ** The table of [bound_create(0.95, 3, 1)] *)

Lemma table3_created :
  bound_create 20 clean (decimal 95 2) 3 1 = Done (Some table3, []).
Proof. reflexivity. Qed.

Lemma table3_max_n : max_n table3 = 3.
Proof. reflexivity. Qed.

Lemma table3_built : built table3.
Proof.
  eapply (built_create 20 clean (decimal 95 2) 3 1); [| |apply table3_created];
    unfold is_size, SIZE_MOD; lia.
Qed.

Lemma table3_built_in : built_in 20 table3.
Proof.
  eapply (built_in_create 20 20 clean (decimal 95 2) 3 1);
    [lia| | |apply table3_created]; unfold is_size, SIZE_MOD; lia.
Qed.

(** ** C1: a second [bound_build] over a table that is already built

    [bound_create(0.95, 2, 1)] records [nk_table[2] = 5]. A later
    [bound_build(bound, 2)] walks hypothesis 2 again; in column 1 it now
    meets its own stopping point, [NUM_PROBES(5, 1) = 5 = nk_table[2]], takes
    it for that of a smaller hypothesis and raises [jstart] to 2. From then
    on the stopping test is not made ([jstart <> hypothesis - 1]) until [i]
    has wrapped around to 1, where [jstart] is set back to 1; the test then
    succeeds at [i = 2] and [nk_table[2]] becomes [NUM_PROBES(2, 2) - 2 = 1]. *)

Lemma table2_created :
  bound_create 20 clean (decimal 95 2) 2 1 = Done (Some table2, []).
Proof. reflexivity. Qed.

(** The [2^64 - 6] turns from [i = 6] to the wrap-around only count and swap. *)
Lemma walk2_lap_reached (k : nat) :
  Z.of_nat k = 18446744073709551610 ->
  turns k 2 walk2_absorbed = Some walk2_lap.
Proof.
  intros Hk. rewrite turns_idle.
  - rewrite Hk. reflexivity.
  - unfold SIZE_MOD. lia.
  - reflexivity.
  - reflexivity.
  - change (w_i walk2_absorbed) with 6. unfold SIZE_MOD. lia.
  - change (w_i walk2_absorbed) with 6. rewrite Hk. unfold SIZE_MOD. lia.
Qed.

(** The whole call, with fuel for [2^64 + 2] turns of the walk. *)
Lemma rebuild_lap (k : nat) :
  Z.of_nat k = 18446744073709551610 ->
  bound_build (5 + (k + 3)) [] (Some table2) 2 = Done (Some table2_rebuilt, []).
Proof.
  intros Hk.
  apply (bound_build_rebuild_run _ [] table2 state2 2
           (set_nk_table (w_bound walk2_end) (nk_table table2_rebuilt))
           (w_state walk2_end));
    [discriminate|reflexivity|reflexivity|].
  apply (build_loop_more_fuel 2 _ (5 + (k + 3)) (5 + (k + 3))); [|lia|lia].
  rewrite (build_loop_turn 1 (5 + (k + 3)) HSTART 0 table2 state2
             (SF80 1) state2_init walk2_end (nk_table table2_rebuilt)).
  - apply build_loop_end. reflexivity.
  - reflexivity.
  - reflexivity.
  - change (walk (5 + (k + 3)) 2 walk2_start = Done walk2_end).
    rewrite (walk_turns 5 (k + 3) 2 walk2_start walk2_absorbed eq_refl).
    rewrite (walk_turns k 3 2 walk2_absorbed walk2_lap (walk2_lap_reached k Hk)).
    reflexivity.
  - reflexivity.
Qed.

(** C1, the code at the failing input. On the table of
    [bound_create(0.95, 2, 1)], where [max_n = 2] and [nk_table[2] = 5], the
    call [bound_build(bound, 2)] is still running after 100 turns, and
    whenever it returns (it does, given fuel for [2^64 + 2] turns) it has
    changed [nk_table[2]] to 1 (the claim: it terminates and leaves every
    entry as it was). *)
Lemma rebuild_changes_table :
  bound_create 20 clean (decimal 95 2) 2 1 = Done (Some table2, []) /\
  max_n table2 = 2 /\
  load (nk_table table2) 2 = Done 5 /\
  bound_build 100 [] (Some table2) 2 = OutOfFuel /\
  (exists fuel b',
     bound_build fuel [] (Some table2) 2 = Done (Some b', []) /\
     load (nk_table b') 2 = Done 1) /\
  (forall fuel b' a',
     bound_build fuel [] (Some table2) 2 = Done (Some b', a') ->
     load (nk_table b') 2 = Done 1).
Proof.
  assert (Z.of_nat (Z.to_nat 18446744073709551610) = 18446744073709551610) as Hk
    by (apply Z2Nat.id; lia).
  split_and!; try reflexivity.
  - exists (5 + (Z.to_nat 18446744073709551610 + 3))%nat, table2_rebuilt.
    split; [exact (rebuild_lap _ Hk)|reflexivity].
  - intros fuel b' a' H.
    pose proof (bound_build_deterministic _ _ _ _ _ _ _ H (rebuild_lap _ Hk)) as E.
    injection E as -> _. reflexivity.
Qed.

(** ** C2: a reallocation that fails *)

(** C2, the code at the failing input. [bound_build(bound, 4)] on the table
    of [bound_create(0.95, 3, 1)] when the first [realloc] is refused:
    [state->first] is overwritten with NULL (the claim: the tables keep their
    contents and no NULL pointer can be observed), [max_n] stays 3, and the
    build loop that follows writes through the NULL pointer in [init_state]. *)
Lemma realloc_failure_run :
  reallocate_bound [AllocFail] table3 state3 4
    = (false, table3, {| first := None; second := second state3 |}, []) /\
  bound_build 20 [AllocFail] (Some table3) 4 = Undefined.
Proof. split; reflexivity. Qed.

(** ** C3, C9, C10: the statements at work on [table3] *)

(** C3 for hypothesis 3 of [table3]. *)
Lemma stopping_correctness_witness :
  2 <= 3 <= max_n table3 /\
  exists nk pr ak,
    load (nk_table table3) 3 = Done nk /\
    load (pr_failure table3) 3 = Done pr /\
    load (ak_table table3) 3 = Done ak /\
    p_le pr ak = true.
Proof.
  rewrite table3_max_n. split; [lia|].
  apply (stopping_correctness table3 3); [apply table3_built|].
  rewrite table3_max_n. lia.
Defined.

(** C9 on [table3]: a lookup within the table, one beyond [max_n], and one
    through a NULL handle. *)
Lemma bound_get_nk_spec_witness :
  bound_get_nk (Some table3) 3 = Done (9, Some table3) /\
  bound_get_nk (Some table3) 4 = Done (0, Some table3) /\
  bound_get_nk None 3 = Done (0, None).
Proof.
  destruct (bound_get_nk_spec (Some table3) 3) as (H1 & _).
  destruct (bound_get_nk_spec (Some table3) 4) as (_ & H2 & _).
  destruct (bound_get_nk_spec None 3) as (_ & _ & _ & H3 & _).
  split_and!.
  - apply (H1 table3); [reflexivity|rewrite table3_max_n; lia|reflexivity].
  - apply (H2 table3); [reflexivity|rewrite table3_max_n; lia].
  - apply H3. reflexivity.
Defined.

(** C10 on [table3]. *)
Lemma dummy_entries_zero_witness :
  load (nk_table table3) 0 = Done 0 /\ load (nk_table table3) 1 = Done 0 /\
  load (ak_table table3) 0 = Done (S754_zero false) /\
  load (ak_table table3) 1 = Done (S754_zero false) /\
  bound_get_nk (Some table3) 0 = Done (0, Some table3) /\
  bound_get_nk (Some table3) 1 = Done (0, Some table3).
Proof. apply (dummy_entries_zero table3). apply table3_built. Defined.

(** ** C4: the stopping points of [table3] *)

(** C4 for hypotheses 2 and 3 of [table3]. *)
Lemma stopping_points_monotone_witness :
  exists v1 v2, load (nk_table table3) 2 = Done v1 /\
                load (nk_table table3) 3 = Done v2 /\ v1 <= v2.
Proof.
  apply (stopping_points_monotone 20 table3 2 3).
  - apply table3_built_in.
  - reflexivity.
  - reflexivity.
  - lia.
  - rewrite table3_max_n. lia.
Defined.

(** ** C6: the significance levels are rounded

    [bound_init_aks] computes [a1 = (1 - r) * confidence] and
    [a1 * pow(r, i - 2)] in [double]. The double nearest to 0.9 is a little
    above 0.9, [1 - r] is exact and so a little below the double nearest to
    0.1: the entries are the geometric values of the specification up to
    rounding, not bit for bit. *)



(** ** C5: growing a table when [realloc] hands back a cell that is not zero

    [bound_create(0.95, 2, 1)], then [bound_build(bound, 3)]. All five
    reallocations succeed; the cell [nk_table[3]] that [realloc] adds is not
    initialised and happens to hold 7. The walk of hypothesis 3 reads it as
    a stopping point: at [i = 6], [NUM_PROBES(6, 2) = 7], column 2 is
    absorbed and [jstart] becomes 3. The loop then spins until [i] has
    wrapped around, and stops at [i = 6] of the next lap with
    [nk_table[3] = 6], where [bound_create(0.95, 3, 1)] has 9. *)

(** The [2^64 - 7] turns from [i = 7] to the wrap-around only count and swap. *)
Lemma walk3_lap_reached (k : nat) :
  Z.of_nat k = 18446744073709551609 ->
  turns k 3 walk3_absorbed = Some walk3_lap.
Proof.
  intros Hk. rewrite turns_idle.
  - rewrite Hk. reflexivity.
  - unfold SIZE_MOD. lia.
  - reflexivity.
  - reflexivity.
  - change (w_i walk3_absorbed) with 7. unfold SIZE_MOD. lia.
  - change (w_i walk3_absorbed) with 7. rewrite Hk. unfold SIZE_MOD. lia.
Qed.

(** The whole call, with fuel for [2^64 + 6] turns of the walk. *)
Lemma grow_lap (k : nat) :
  Z.of_nat k = 18446744073709551609 ->
  bound_build (6 + (k + 7)) stale_cell (Some table2) 3
    = Done (Some table3_grown, []).
Proof.
  intros Hk.
  apply (bound_build_grow_run _ stale_cell table2 state2 3
           grown_bound grown_state [] grown_aks
           (set_nk_table (w_bound walk3_end) (nk_table table3_grown))
           (w_state walk3_end));
    [discriminate|reflexivity|reflexivity|reflexivity|reflexivity|].
  apply (build_loop_more_fuel 2 _ (6 + (k + 7)) (6 + (k + 7))); [|lia|lia].
  change (wrap (max_n grown_bound + 1)) with 3.
  rewrite (build_loop_turn 1 (6 + (k + 7)) 3 0 grown_aks grown_state
             (SF80 1) grown_init walk3_end (nk_table table3_grown)).
  - apply build_loop_end. reflexivity.
  - reflexivity.
  - reflexivity.
  - change (walk (6 + (k + 7)) 3 walk3_start = Done walk3_end).
    rewrite (walk_turns 6 (k + 7) 3 walk3_start walk3_absorbed eq_refl).
    rewrite (walk_turns k 7 3 walk3_absorbed walk3_lap (walk3_lap_reached k Hk)).
    reflexivity.
  - reflexivity.
Qed.

(** C5, the code at the failing input. Building to 3 at once records
    [nk_table[3] = 9]. Building to 2 and growing to 3, when the cell that
    [realloc] adds to [nk_table] holds 7, is still running after 100 turns,
    and whenever it returns it has recorded [nk_table[3] = 6]. *)
Lemma grow_with_stale_cell :
  bound_create 20 clean (decimal 95 2) 3 1 = Done (Some table3, []) /\
  load (nk_table table3) 3 = Done 9 /\
  bound_create 20 clean (decimal 95 2) 2 1 = Done (Some table2, []) /\
  load (nk_table grown_bound) 3 = Done 7 /\
  bound_build 100 stale_cell (Some table2) 3 = OutOfFuel /\
  (exists fuel b',
     bound_build fuel stale_cell (Some table2) 3 = Done (Some b', []) /\
     load (nk_table b') 3 = Done 6) /\
  (forall fuel b' a',
     bound_build fuel stale_cell (Some table2) 3 = Done (Some b', a') ->
     load (nk_table b') 3 = Done 6).
Proof.
  assert (Z.of_nat (Z.to_nat 18446744073709551609) = 18446744073709551609) as Hk
    by (apply Z2Nat.id; lia).
  split_and!; try reflexivity.
  - exists (6 + (Z.to_nat 18446744073709551609 + 7))%nat, table3_grown.
    split; [exact (grow_lap _ Hk)|reflexivity].
  - intros fuel b' a' H.
    pose proof (bound_build_deterministic _ _ _ _ _ _ _ H (grow_lap _ Hk)) as E.
    injection E as -> _. reflexivity.
Qed.

(** When the added cells are zero, as [calloc] makes them in
    [bound_create], the same growth gives the stopping points of [table3]. *)
Lemma grow_with_zero_cells :
  bound_build 20 (supply 5 (fun _ => 0) (fun _ => S754_zero false))
    (Some table2) 3 = Done (Some table3_grown_clean, []) /\
  nk_table table3_grown_clean = nk_table table3.
Proof. split; reflexivity. Qed.

(** ** C7: the cells that [init_state] does not write *)

(** C7, refuted as stated. The scratch vectors that
    [bound_create(0.95, 3, 1)] leaves behind go through [init_state] at the
    start of the next build: [second[2]] is not zero afterwards. *)
Lemma init_state_second_not_zero :
  state table3 = Some state3 /\
  init_state table3 state3 = Done (SF80 1, state3_init) /\
  load (second state3_init) 2 = Done (S754_finite false 16194672437824572067 (-67)) /\
  SFeqb (S754_finite false 16194672437824572067 (-67)) (S754_zero false) = false.
Proof. split_and!; reflexivity. Qed.

(** C7, the amended statement on the same vectors. *)
Lemma init_state_cells_witness :
  SF80 1 = SFwiden (SF64 1) /\
  (forall k, 0 <= k < max_n table3 ->
     load (first state3_init) k = Done (S754_zero false)) /\
  load (second state3_init) 0 = Done (S754_zero false) /\
  load (second state3_init) 1 = Done (SFwiden (SF64 1)) /\
  (forall k, 2 <= k -> load (second state3_init) k = load (second state3) k).
Proof.
  apply (init_state_cells table3 state3 state3_init (SF80 1)). reflexivity.
Defined.

(** ** C8: [bound_create] and its arguments *)

(** C8, refuted as stated. [bound_create(0.95, 2, 0)], every allocation
    succeeding, returns a table: node confidence 1, [nk_table[2] = 5]. *)
Lemma bound_create_zero_branch :
  bound_create 20 clean (decimal 95 2) 2 0 = Done (Some table_branch0, []) /\
  confidence table_branch0 = SF64 1 /\
  nk_table table_branch0 = Some [0; 0; 5].
Proof. split_and!; reflexivity. Qed.

(** C8, the amended statement when the fourth allocation is refused. *)
Lemma bound_create_alloc_failure_witness :
  exists a',
    bound_create 20 fail_fourth (decimal 95 2) 3 1 = Done (None, a') /\
    bound_create 0 fail_fourth (decimal 5 2) 3 0 = Done (None, a').
Proof.
  apply (bound_create_alloc_failure 20 fail_fourth (decimal 95 2) 3 1 3);
    [lia|reflexivity].
Defined.

End Runs.

(** * More runs on x86-64 *)

Module Runs2.

Import X86_64 Tables Table16 Main.

Lemma size_3 : is_size 3.
Proof. unfold is_size, SIZE_MOD. lia. Qed.

Lemma size_1 : is_size 1.
Proof. unfold is_size, SIZE_MOD. lia. Qed.

Lemma table3_is_built : built table3.
Proof.
  apply (built_create 20 clean (decimal 95 2) 3 1 table3 []);
    [apply size_3|apply size_1|reflexivity].
Qed.

Lemma table2_is_built : built table2.
Proof.
  apply (built_create 20 clean (decimal 95 2) 2 1 table2 []);
    [unfold is_size, SIZE_MOD; lia|apply size_1|reflexivity].
Qed.

(** X1 for [bound_create(0.95, 3, 1)]. *)
Lemma bound_create_in_bounds_witness :
  safe (bound_create 20 clean (decimal 95 2) 3 1).
Proof.
  apply (bound_create_in_bounds 20 clean (decimal 95 2) 3 1);
    [reflexivity|unfold SIZE_MOD; lia].
Defined.

(** X2 for [bound_create(0.95, 1, 1)]. *)
Lemma bound_create_too_small_witness :
  bound_create 20 clean (decimal 95 2) 1 1 = Undefined.
Proof.
  apply (bound_create_too_small 20 clean (decimal 95 2) 1 1);
    [lia|reflexivity|reflexivity].
Defined.

(** X3 for the growth of [table3] to four hypotheses. *)
Lemma bound_build_in_bounds_witness :
  safe (bound_build 20 clean (Some table3) 4).
Proof.
  apply (bound_build_in_bounds 20 clean table3 4); [apply table3_is_built|].
  right. split; [|reflexivity].
  unfold fits. change sizeof_probability_t with 16.
  unfold sizeof_size_t, SIZE_MOD. lia.
Defined.

(** X4 for the growth of [table3] when the first reallocation is refused. *)
Lemma bound_build_refused_realloc_witness :
  stuck (bound_build 20 [AllocFail] (Some table3) 4).
Proof.
  apply (bound_build_refused_realloc 20 [AllocFail] table3 4);
    [apply table3_is_built|change (max_n table3) with 3; lia|reflexivity].
Defined.

(** X5 for the growth of [table3] to [2^60] hypotheses. *)
Lemma bound_build_size_overflow_witness :
  bound_build 20 clean (Some table3) 1152921504606846976 = Undefined.
Proof.
  apply (bound_build_size_overflow 20 clean table3 1152921504606846976).
  - apply table3_is_built.
  - unfold is_size, SIZE_MOD. lia.
  - change (max_n table3) with 3. lia.
  - reflexivity.
  - change sizeof_probability_t with 16. unfold SIZE_MOD. lia.
  - reflexivity.
Defined.

(** X6 for the growth of [table2] to three hypotheses. *)
Lemma bound_build_keeps_entries_witness :
  max_n table3_grown_clean = 3 /\
  confidence table3_grown_clean = confidence table2 /\
  ([] : allocator)
    = drop 5 (supply 5 (fun _ => 0) (fun _ => S754_zero false)) /\
  forall k, 0 <= k <= max_n table2 ->
    load (nk_table table3_grown_clean) k = load (nk_table table2) k /\
    load (ak_table table3_grown_clean) k = load (ak_table table2) k /\
    load (pr_failure table3_grown_clean) k = load (pr_failure table2) k /\
    exists v, bound_get_nk (Some table2) k = Done (v, Some table2) /\
              bound_get_nk (Some table3_grown_clean) k
                = Done (v, Some table3_grown_clean).
Proof.
  apply (bound_build_keeps_entries 20
           (supply 5 (fun _ => 0) (fun _ => S754_zero false)) []
           table2 table3_grown_clean 3).
  - apply table2_is_built.
  - apply size_3.
  - change (max_n table2) with 2. lia.
  - reflexivity.
Defined.

(** X7 for [bound_create(0.95, 3, 1)], with uninitialised cells that hold
    zero and with uninitialised cells that hold 7 and NaN. *)
Lemma bound_create_ignores_junk_witness :
  alike (fun r1 r2 => same_table r1.1 r2.1)
        (bound_create 20 clean (decimal 95 2) 3 1)
        (bound_create 20 dirty (decimal 95 2) 3 1).
Proof.
  apply (bound_create_ignores_junk 20 clean dirty (decimal 95 2) 3 1);
    [apply size_3|exact I].
Defined.

(** X8 for [table3]. *)
Lemma bound_dump_prints_witness :
  bound_dump 10 (Some table3) = Done (nk_lines table3) /\
  Z.of_nat (length (nk_lines table3)) = max_n table3 + 1 /\
  forall k, 0 <= k <= max_n table3 ->
    exists v, bound_get_nk (Some table3) k = Done (v, Some table3) /\
              nk_lines table3 !! Z.to_nat k = Some (Line_nk k v).
Proof.
  apply (bound_dump_prints 10 table3); [apply table3_is_built|].
  change (max_n table3) with 3. lia.
Defined.

(** X9 for [table3]. *)
Lemma bound_failure_dump_prints_witness :
  bound_failure_dump 10 (Some table3) = Done (failure_lines table3) /\
  Z.of_nat (length (failure_lines table3)) = max_n table3 + 2 /\
  failure_lines table3 !! 0%nat = Some Expected_failure /\
  forall k, 0 <= k <= max_n table3 ->
    exists p, load (pr_failure table3) k = Done p /\
              failure_lines table3 !! S (Z.to_nat k) = Some (Line_failure k p).
Proof.
  apply (bound_failure_dump_prints 10 table3); [apply table3_is_built|].
  change (max_n table3) with 3. lia.
Defined.

(** X10 for [bound_create(0.95, 3, 1)] on an empty heap. *)
Lemma bound_create_heap_witness :
  bound_create 20 clean (decimal 95 2) 3 1 = Done (Some table3, []) /\
  (Some table3 = None -> 7 = 0) /\
  (Some table3 <> None -> 7 = 0 + 7) /\
  bound_free (Some table3) 7 = 0.
Proof.
  apply (bound_create_heap 20 clean [] (decimal 95 2) 3 1 0 7 (Some table3));
    [apply size_3|apply size_1|reflexivity].
Defined.

(** X11 for [table3]. *)
Lemma bound_free_releases_witness :
  bound_free (Some table3) 7 = 7 - 7 /\ bound_free None 7 = 7 /\
  nk_table table3 <> None /\ ak_table table3 <> None /\
  pr_failure table3 <> None /\
  exists st, state table3 = Some st /\ first st <> None /\ second st <> None.
Proof. apply (bound_free_releases table3 7). apply table3_is_built. Defined.

(** X13 for the [pow] that rounds to nearest and an allocator whose
    uninitialised cells hold 7 and NaN. *)
Lemma main_prints_table_witness :
  main 200 dirty 0
  = Done (0, lines Line_nk 0 stopping_points
             ++ Expected_failure
                :: lines Line_failure 0 failure_probabilities,
          0).
Proof.
  apply (MainRun.main_prints_table pow64); [|reflexivity|lia].
  split_and!; [reflexivity|reflexivity|].
  intros k Hk. right. left.
  assert (k = 2 \/ k = 3 \/ k = 4 \/ k = 5 \/ k = 6 \/ k = 7 \/ k = 8 \/
          k = 9 \/ k = 10 \/ k = 11 \/ k = 12 \/ k = 13 \/ k = 14) as H by lia.
  repeat (destruct H as [->|H]; [reflexivity|]). subst. reflexivity.
Defined.

(** X14 when the fourth allocation is refused. *)
Lemma main_null_deref_witness : main 20 fail_fourth 0 = Undefined.
Proof. apply (MainRun.main_null_deref 20 fail_fourth 0). reflexivity. Defined.

(** X21 for [bound_create(0.95, 2, 1)] grown to three hypotheses and
    [bound_create(0.95, 3, 1)]. *)
Lemma bound_build_in_steps_witness :
  exists b3, bound_create 40 clean (decimal 95 2) 3 1
               = Done (Some b3, drop 7 clean) /\
             bound_agree table3_grown_clean b3.
Proof.
  apply (bound_build_in_steps 20 20 40 clean []
           (supply 5 (fun _ => 0) (fun _ => S754_zero false)) [] clean
           (decimal 95 2) 1 2 3 table2 table3_grown_clean).
  - lia.
  - unfold fits. change sizeof_probability_t with 16.
    unfold sizeof_size_t, SIZE_MOD. lia.
  - reflexivity.
  - reflexivity.
  - intros i. reflexivity.
  - reflexivity.
  - reflexivity.
  - lia.
Defined.

End Runs2.
